(** * Screen compositor of the Vulkan renderer (renderer_vulkan.cpp)

    A shallow embedding of [RendererVulkan]: the per-frame preparation of the
    three screen textures, the composition of the screens into a frame under
    the stereo modes, presentation to a window and the screenshot path.

    The renderer is a C++ object mutated in place and talking to a device, a
    scheduler and a rasterizer.  Here it is a record [Renderer]; every member
    function is a command of a small state-and-fault monad [Cmd]; every call
    that leaves the renderer (device, allocator, scheduler, window, log) is
    appended, in program order, to the [trace] of the record. *)

From Stdlib Require Import ZArith List Bool Lia.
From Stdlib Require Import Floats.SpecFloat.
Import ListNotations.
Local Open Scope Z_scope.

(** ** Machine numbers *)

(** [u32]: arithmetic on [u32] operands wraps modulo 2^32. *)
Definition u32 (z : Z) : Z := z mod 2 ^ 32.

(** [f32] is IEEE 754 binary32 (24 bits of precision, infinities at exponent
    128), rounding to nearest even, as [float] is on every target of the
    emulator. *)
Module F32.

Definition prec : Z := 24.
Definition emax : Z := 128.

Definition t : Type := spec_float.

Definition add (a b : t) : t := SFadd prec emax a b.
Definition opp (a : t) : t := SFopp a.
Definition div (a b : t) : t := SFdiv prec emax a b.

(** [static_cast<float>] of an unsigned 32-bit value. *)
Definition of_u32 (z : Z) : t := binary_normalize prec emax (u32 z) 0 false.

Definition zero : t := S754_zero false.
Definition one : t := of_u32 1.
Definition two : t := of_u32 2.
Definition c255 : t := of_u32 255.

End F32.

Definition f32 : Type := F32.t.
Infix "+f" := F32.add (at level 50, left associativity).
Infix "/f" := F32.div (at level 40, left associativity).

(** ** Data model *)

(** Vulkan handles ([vk::Image], [vk::ImageView], [VmaAllocation], ...);
    [0] is the null handle. *)
Definition Handle : Type := Z.
Definition null_handle : Handle := 0.
Definition is_null (h : Handle) : bool := h =? 0.

(** [GPU::Regs::PixelFormat], the raw value of the three-bit register field. *)
Definition PixelFormat : Type := Z.

(** [GPU::Regs::FramebufferConfig], the fields the renderer reads. *)
Module FramebufferConfig.
Record t : Type := mk {
  address_left1 : Z;
  address_left2 : Z;
  address_right1 : Z;
  address_right2 : Z;
  width : Z;
  height : Z;
  stride : Z;
  color_format : PixelFormat;
  active_fb : Z
}.
End FramebufferConfig.

(** [LCD::Regs::ColorFill]. *)
Module ColorFill.
Record t : Type := mk {
  color_r : Z;
  color_g : Z;
  color_b : Z;
  is_enabled : bool
}.
End ColorFill.

(** [Common::Rectangle<T>]. *)
Module Rectangle.
Record t (T : Type) : Type := mk {
  left : T;
  top : T;
  right : T;
  bottom : T
}.
Arguments mk {T}.
Arguments left {T}.
Arguments top {T}.
Arguments right {T}.
Arguments bottom {T}.
End Rectangle.

(** [TextureInfo]: the image of one emulated screen. *)
Module TextureInfo.
Record t : Type := mk {
  width : Z;
  height : Z;
  format : PixelFormat;
  image : Handle;
  image_view : Handle;
  allocation : Handle
}.
End TextureInfo.

(** [ScreenInfo]: a texture, the view that is displayed (the texture's own or
    one of the rasterizer) and the texture coordinates. *)
Module ScreenInfo.
Record t : Type := mk {
  texture : TextureInfo.t;
  texcoords : Rectangle.t f32;
  image_view : Handle
}.
End ScreenInfo.

(** Index into [std::array<ScreenInfo, 3> screen_infos]. *)
Inductive Slot : Type := Slot0 | Slot1 | Slot2.

Definition slot_index (i : Slot) : Z :=
  match i with Slot0 => 0 | Slot1 => 1 | Slot2 => 2 end.

Definition slot_eqb (i j : Slot) : bool :=
  match i, j with
  | Slot0, Slot0 | Slot1, Slot1 | Slot2, Slot2 => true
  | _, _ => false
  end.

Definition all_slots : list Slot := [Slot0; Slot1; Slot2].

Module Screens.
Record t : Type := mk {
  s0 : ScreenInfo.t;
  s1 : ScreenInfo.t;
  s2 : ScreenInfo.t
}.

Definition get (a : t) (i : Slot) : ScreenInfo.t :=
  match i with Slot0 => s0 a | Slot1 => s1 a | Slot2 => s2 a end.

Definition set (a : t) (i : Slot) (v : ScreenInfo.t) : t :=
  match i with
  | Slot0 => mk v (s1 a) (s2 a)
  | Slot1 => mk (s0 a) v (s2 a)
  | Slot2 => mk (s0 a) (s1 a) v
  end.
End Screens.

(** [ScreenRectVertex]. *)
Module ScreenRectVertex.
Record t : Type := mk {
  position : f32 * f32;
  tex_coord : f32 * f32
}.
Definition make (x y u v : f32) : t := mk (x, y) (u, v).
End ScreenRectVertex.

(** [Layout::DisplayOrientation].  The enumeration has four enumerators; the
    switches on it also have a [default] arm, reached by any other value of
    the underlying type, which [OtherOrientation] stands for. *)
Inductive DisplayOrientation : Type :=
| Landscape
| Portrait
| LandscapeFlipped
| PortraitFlipped
| OtherOrientation.

Definition recognized (o : DisplayOrientation) : bool :=
  match o with OtherOrientation => false | _ => true end.

(** [Settings::StereoRenderOption]. *)
Inductive StereoRenderOption : Type :=
| Off
| SideBySide
| Anaglyph
| Interlaced
| ReverseInterlaced
| CardboardVR.

(** [Settings::MonoRenderOption], cast to the index of the eye's slot. *)
Inductive MonoRenderOption : Type := LeftEye | RightEye.

Definition eye_slot (m : MonoRenderOption) : Slot :=
  match m with LeftEye => Slot0 | RightEye => Slot1 end.

(** [Layout::CardboardSettings] and [Layout::FramebufferLayout]. *)
Module CardboardSettings.
Record t : Type := mk {
  top_screen_right_eye : Z;
  bottom_screen_right_eye : Z
}.
End CardboardSettings.

Module FramebufferLayout.
Record t : Type := mk {
  width : Z;
  height : Z;
  top_screen_enabled : bool;
  bottom_screen_enabled : bool;
  top_screen : Rectangle.t Z;
  bottom_screen : Rectangle.t Z;
  is_rotated : bool;
  additional_screen_enabled : bool;
  additional_screen : Rectangle.t Z;
  cardboard : CardboardSettings.t
}.
End FramebufferLayout.

(** [Frame] of a present window. *)
Module Frame.
Record t : Type := mk {
  width : Z;
  height : Z;
  image : Handle;
  allocation : Handle;
  image_view : Handle;
  framebuffer : Handle;
  render_ready : Handle
}.
Definition empty : t := mk 0 0 0 0 0 0 0.
End Frame.

(** [PresentUniformData draw_info]: the push-constant block of a draw. *)
Module DrawInfo.
Record t : Type := mk {
  modelview : list f32;
  i_resolution : f32 * f32 * f32 * f32;
  o_resolution : f32 * f32 * f32 * f32;
  screen_id_l : Z;
  screen_id_r : Z;
  layer : Z;
  reverse_interlaced : bool
}.
Definition set_modelview (m : list f32) (d : t) : t :=
  mk m (i_resolution d) (o_resolution d) (screen_id_l d) (screen_id_r d)
     (layer d) (reverse_interlaced d).
Definition set_i_resolution (r : f32 * f32 * f32 * f32) (d : t) : t :=
  mk (modelview d) r (o_resolution d) (screen_id_l d) (screen_id_r d)
     (layer d) (reverse_interlaced d).
Definition set_o_resolution (r : f32 * f32 * f32 * f32) (d : t) : t :=
  mk (modelview d) (i_resolution d) r (screen_id_l d) (screen_id_r d)
     (layer d) (reverse_interlaced d).
Definition set_screen_id_l (z : Z) (d : t) : t :=
  mk (modelview d) (i_resolution d) (o_resolution d) z (screen_id_r d)
     (layer d) (reverse_interlaced d).
Definition set_screen_id_r (z : Z) (d : t) : t :=
  mk (modelview d) (i_resolution d) (o_resolution d) (screen_id_l d) z
     (layer d) (reverse_interlaced d).
Definition set_layer (z : Z) (d : t) : t :=
  mk (modelview d) (i_resolution d) (o_resolution d) (screen_id_l d)
     (screen_id_r d) z (reverse_interlaced d).
Definition set_reverse_interlaced (b : bool) (d : t) : t :=
  mk (modelview d) (i_resolution d) (o_resolution d) (screen_id_l d)
     (screen_id_r d) (layer d) b.
End DrawInfo.

(** ** The renderer's surroundings *)

(** Guest display registers, as they stand when [PrepareRendertarget] reads
    them: [GPU::g_regs.framebuffer_config[0..1]] and the two LCD colour-fill
    registers. *)
Module Guest.
Record t : Type := mk {
  framebuffer_config0 : FramebufferConfig.t;
  framebuffer_config1 : FramebufferConfig.t;
  color_fill_top : ColorFill.t;
  color_fill_bottom : ColorFill.t
}.
Definition framebuffer_config (g : t) (fb_id : Z) : FramebufferConfig.t :=
  if fb_id =? 0 then framebuffer_config0 g else framebuffer_config1 g.
(** [LCD::Read] of the colour-fill register of screen [fb_id]. *)
Definition color_fill (g : t) (fb_id : Z) : ColorFill.t :=
  if fb_id =? 0 then color_fill_top g else color_fill_bottom g.
End Guest.

(** What the collaborators outside this file answer.  Their code is not part
    of the renderer.  The rasterizer, the allocator, the device, the
    descriptor provider and the window have state of their own, so what they
    answer is a function of the arguments of the call and of the moment of
    the call, given as the number of events of the trace so far, the call
    included. *)
Module Host.
Record t : Type := mk {
  (** [GPU::Regs::BytesPerPixel] *)
  BytesPerPixel : PixelFormat -> Z;
  (** [rasterizer.AccelerateDisplay]: [None] when it returns false, otherwise
      the view and texture coordinates it stores into the screen info *)
  AccelerateDisplay :
    nat -> FramebufferConfig.t -> Z -> Z -> ScreenInfo.t ->
    option (Handle * Rectangle.t f32);
  (** [vmaCreateImage]: [None] when the result is not [VK_SUCCESS], otherwise
      the image and its allocation *)
  vmaCreateImage : nat -> Z -> Z -> PixelFormat -> option (Handle * Handle);
  (** [device.createImageView] *)
  createImageView : nat -> Handle -> PixelFormat -> Handle;
  (** [vmaCreateBuffer]: [None] on failure, otherwise the buffer, its
      allocation and the address it is mapped at *)
  vmaCreateBuffer : nat -> Z -> option (Handle * Handle * Handle);
  (** [present_set_provider.Acquire] *)
  Acquire : nat -> list (Handle * Handle) -> Handle;
  (** [GetResolutionScaleFactor] *)
  GetResolutionScaleFactor : Z;
  (** [Common::Rectangle<u32>::GetWidth] and [GetHeight] *)
  GetWidth : Rectangle.t Z -> Z;
  GetHeight : Rectangle.t Z -> Z;
  (** the image, allocation, view and framebuffer [RecreateFrame] makes for
      the given dimensions *)
  frame_resources : nat -> Z -> Z -> Handle * Handle * Handle * Handle
}.
End Host.

(** [Settings::values], read-only for the renderer. *)
Module Values.
Record t : Type := mk {
  render_3d : StereoRenderOption;
  mono_render_option : MonoRenderOption;
  filter_mode : bool;
  swap_screen : bool;
  bg_red : f32;
  bg_green : f32;
  bg_blue : f32
}.
End Values.

(** [RendererBase::settings]: the one-shot requests sent to the render
    thread, and the screenshot request. *)
Module RendererSettings.
Record t : Type := mk {
  bg_color_update_requested : bool;
  shader_update_requested : bool;
  screenshot_requested : bool;
  screenshot_framebuffer_layout : FramebufferLayout.t;
  screenshot_bits : Handle
}.
Definition set_bg_color_update_requested (b : bool) (s : t) : t :=
  mk b (shader_update_requested s) (screenshot_requested s)
     (screenshot_framebuffer_layout s) (screenshot_bits s).
Definition set_shader_update_requested (b : bool) (s : t) : t :=
  mk (bg_color_update_requested s) b (screenshot_requested s)
     (screenshot_framebuffer_layout s) (screenshot_bits s).
Definition set_screenshot_requested (b : bool) (s : t) : t :=
  mk (bg_color_update_requested s) (shader_update_requested s) b
     (screenshot_framebuffer_layout s) (screenshot_bits s).
End RendererSettings.

Inductive WindowId : Type := MainWindow | SecondWindow.

(** Modelled from the spec: a [PresentWindow] owns the chain of presentable
    frames of one surface, and [GetRenderFrame] returns a frame not
    currently owned by the device; its code is not among the sources.  Here
    a window is its identity and the frame [GetRenderFrame] hands out. *)
Module PresentWindow.
Record t : Type := mk {
  id : WindowId;
  render_frame : Frame.t
}.
End PresentWindow.

(** ** Events *)

Definition Color : Type := (f32 * f32 * f32 * f32)%type.

(** What a closure given to [scheduler.Record] puts into the command buffer. *)
Inductive Command : Type :=
| CmdClearColorImage (image : Handle) (clear_color : Color)
| CmdBeginPresent (framebuffer : Handle) (layout_width layout_height : Z)
    (frame_width frame_height : Z) (clear : Color) (pipeline : Z)
    (descriptor_set : Handle)
| CmdDraw (first_vertex : Z) (info : DrawInfo.t)
| CmdEndPresent (image : Handle)
| CmdCopyImageToBuffer (image buffer : Handle) (width height : Z).

Inductive Event : Type :=
| EvLogError
| EvLogCritical
| EvDestroyImageView (view : Handle)
| EvDestroyImage (image allocation : Handle)
| EvCreateImage (texture_of : Slot) (width height : Z) (format : PixelFormat)
| EvCreateImageView (image : Handle)
| EvAccelerateDisplay (screen : Slot) (framebuffer_addr pixel_stride : Z)
| EvEndRendering
| EvRecord (c : Command)
| EvFlush (signal : Handle)
| EvFinish
| EvVertexUpload (offset : Z) (vertices : option (list ScreenRectVertex.t))
| EvAcquire (bindings : list (Handle * Handle))
| EvGetRenderFrame (w : WindowId)
| EvWaitPresent (w : WindowId)
| EvRecreateFrame (w : WindowId) (old : Frame.t) (width height : Z)
| EvPresent (w : WindowId) (frame : Frame.t)
| EvCreateBuffer (size : Z)
| EvDestroyBuffer (buffer allocation : Handle)
| EvMemcpy (dst src size : Z)
| EvDestroyFramebuffer (framebuffer : Handle)
| EvScreenshotComplete (arg : bool).

(** ** The renderer *)

Record Renderer : Type := mkRenderer {
  guest : Guest.t;
  host : Host.t;
  values : Values.t;
  settings : RendererSettings.t;
  screen_infos : Screens.t;
  draw_info : DrawInfo.t;
  current_pipeline : Z;
  clear_color : Color;
  present_samplers : Handle * Handle;
  vertex_offset : Z;
  trace : list Event
}.

Definition set_guest (g : Guest.t) (r : Renderer) : Renderer :=
  mkRenderer g (host r) (values r) (settings r) (screen_infos r) (draw_info r)
    (current_pipeline r) (clear_color r) (present_samplers r)
    (vertex_offset r) (trace r).
Definition set_values (v : Values.t) (r : Renderer) : Renderer :=
  mkRenderer (guest r) (host r) v (settings r) (screen_infos r) (draw_info r)
    (current_pipeline r) (clear_color r) (present_samplers r)
    (vertex_offset r) (trace r).
Definition set_settings (x : RendererSettings.t) (r : Renderer) : Renderer :=
  mkRenderer (guest r) (host r) (values r) x (screen_infos r) (draw_info r)
    (current_pipeline r) (clear_color r) (present_samplers r)
    (vertex_offset r) (trace r).
Definition set_screen_infos (x : Screens.t) (r : Renderer) : Renderer :=
  mkRenderer (guest r) (host r) (values r) (settings r) x (draw_info r)
    (current_pipeline r) (clear_color r) (present_samplers r)
    (vertex_offset r) (trace r).
Definition set_draw_info (x : DrawInfo.t) (r : Renderer) : Renderer :=
  mkRenderer (guest r) (host r) (values r) (settings r) (screen_infos r) x
    (current_pipeline r) (clear_color r) (present_samplers r)
    (vertex_offset r) (trace r).
Definition set_current_pipeline (x : Z) (r : Renderer) : Renderer :=
  mkRenderer (guest r) (host r) (values r) (settings r) (screen_infos r)
    (draw_info r) x (clear_color r) (present_samplers r)
    (vertex_offset r) (trace r).
Definition set_clear_color (x : Color) (r : Renderer) : Renderer :=
  mkRenderer (guest r) (host r) (values r) (settings r) (screen_infos r)
    (draw_info r) (current_pipeline r) x (present_samplers r)
    (vertex_offset r) (trace r).
Definition set_vertex_offset (x : Z) (r : Renderer) : Renderer :=
  mkRenderer (guest r) (host r) (values r) (settings r) (screen_infos r)
    (draw_info r) (current_pipeline r) (clear_color r) (present_samplers r)
    x (trace r).
Definition set_trace (x : list Event) (r : Renderer) : Renderer :=
  mkRenderer (guest r) (host r) (values r) (settings r) (screen_infos r)
    (draw_info r) (current_pipeline r) (clear_color r) (present_samplers r)
    (vertex_offset r) x.

(** ** Commands: state, trace and fatal faults *)

(** Modelled from the spec: [ASSERT] and [UNREACHABLE] are macros of
    common/assert.h, which is not among the sources.  Following the error
    handling design (a fatal condition is logged and terminates the process),
    a failed [ASSERT] and a reached [UNREACHABLE] end the run; the renderer is
    kept as it stood at that point. *)
Inductive Fault : Type := AssertionFailed | UnreachableReached.

Inductive Outcome (A : Type) : Type :=
| Done (a : A) (r : Renderer)
| Fatal (f : Fault) (r : Renderer).
Arguments Done {A}.
Arguments Fatal {A}.

Definition Cmd (A : Type) : Type := Renderer -> Outcome A.

Definition ret {A} (a : A) : Cmd A := fun r => Done a r.

Definition bind {A B} (c : Cmd A) (k : A -> Cmd B) : Cmd B :=
  fun r => match c r with
           | Done a r' => k a r'
           | Fatal f r' => Fatal f r'
           end.

Declare Scope cmd_scope.
Delimit Scope cmd_scope with cmd.
Notation "x <- c ;; k" := (bind c (fun x => k))
  (at level 61, c at next level, right associativity) : cmd_scope.
Notation "c ;; k" := (bind c (fun _ => k))
  (at level 61, right associativity) : cmd_scope.
Local Open Scope cmd_scope.

Definition gets {A} (f : Renderer -> A) : Cmd A := fun r => Done (f r) r.
Definition modify (f : Renderer -> Renderer) : Cmd unit :=
  fun r => Done tt (f r).
Definition emit (e : Event) : Cmd unit :=
  modify (fun r => set_trace (trace r ++ [e]) r).
Definition when (b : bool) (c : Cmd unit) : Cmd unit :=
  if b then c else ret tt.

Definition ASSERT (cond : bool) : Cmd unit :=
  fun r => if cond then Done tt r else Fatal AssertionFailed r.
Definition UNREACHABLE {A} : Cmd A :=
  fun r => Fatal UnreachableReached r.

(** The moment of a call to a collaborator: the events so far. *)
Definition now (r : Renderer) : nat := length (trace r).

(** The renderer after a run, finished or not. *)
Definition final {A} (o : Outcome A) : Renderer :=
  match o with Done _ r => r | Fatal _ r => r end.

Definition completes {A} (o : Outcome A) : bool :=
  match o with Done _ _ => true | Fatal _ _ => false end.

(** ** Per-frame preparation of the screen textures *)

Definition u8 (z : Z) : Z := z mod 2 ^ 8.

Definition screen_info (i : Slot) (r : Renderer) : ScreenInfo.t :=
  Screens.get (screen_infos r) i.

Definition texture_of (i : Slot) (r : Renderer) : TextureInfo.t :=
  ScreenInfo.texture (screen_info i r).

Definition set_screen_info (i : Slot) (v : ScreenInfo.t) (r : Renderer)
  : Renderer :=
  set_screen_infos (Screens.set (screen_infos r) i v) r.

Definition set_texture (i : Slot) (t : TextureInfo.t) (r : Renderer)
  : Renderer :=
  let si := screen_info i r in
  set_screen_info i
    (ScreenInfo.mk t (ScreenInfo.texcoords si) (ScreenInfo.image_view si)) r.

(** [ConfigureFramebufferTexture(texture, framebuffer)], [texture] being
    [screen_infos[i].texture].  The native format of the image is derived
    from [framebuffer.color_format] by tables outside this file, so the
    guest format stands for it in the calls to the allocator and device. *)
Definition ConfigureFramebufferTexture (i : Slot)
    (framebuffer : FramebufferConfig.t) : Cmd unit :=
  texture <- gets (texture_of i) ;;
  when (negb (is_null (TextureInfo.image_view texture)))
       (emit (EvDestroyImageView (TextureInfo.image_view texture))) ;;
  when (negb (is_null (TextureInfo.image texture)))
       (emit (EvDestroyImage (TextureInfo.image texture)
                             (TextureInfo.allocation texture))) ;;
  h <- gets host ;;
  let width := FramebufferConfig.width framebuffer in
  let height := FramebufferConfig.height framebuffer in
  let format := FramebufferConfig.color_format framebuffer in
  emit (EvCreateImage i width height format) ;;
  t <- gets now ;;
  match Host.vmaCreateImage h t width height format with
  | None => emit EvLogCritical ;; UNREACHABLE
  | Some (image, allocation) =>
      emit (EvCreateImageView image) ;;
      t <- gets now ;;
      let image_view := Host.createImageView h t image format in
      modify (set_texture i
                (TextureInfo.mk width height format image image_view
                                allocation))
  end.

(** [LoadColorToActiveVkTexture(color_r, color_g, color_b, texture)]. *)
Definition LoadColorToActiveVkTexture (color_r color_g color_b : Z)
    (texture : TextureInfo.t) : Cmd unit :=
  let clear_color : Color :=
    (F32.of_u32 (u8 color_r) /f F32.c255,
     F32.of_u32 (u8 color_g) /f F32.c255,
     F32.of_u32 (u8 color_b) /f F32.c255,
     F32.one) in
  emit EvEndRendering ;;
  emit (EvRecord (CmdClearColorImage (TextureInfo.image texture) clear_color)).

(** The guest address [LoadFBToScreenInfo] displays. *)
Definition framebuffer_addr (framebuffer : FramebufferConfig.t)
    (right_eye : bool) : Z :=
  let right_eye :=
    if (FramebufferConfig.address_right1 framebuffer =? 0)
       || (FramebufferConfig.address_right2 framebuffer =? 0)
    then false else right_eye in
  if FramebufferConfig.active_fb framebuffer =? 0
  then (if right_eye then FramebufferConfig.address_right1 framebuffer
        else FramebufferConfig.address_left1 framebuffer)
  else (if right_eye then FramebufferConfig.address_right2 framebuffer
        else FramebufferConfig.address_left2 framebuffer).

(** [LoadFBToScreenInfo(framebuffer, screen_info, right_eye)], [screen_info]
    being [screen_infos[i]].  The trace-level log line is left out. *)
Definition LoadFBToScreenInfo (framebuffer : FramebufferConfig.t) (i : Slot)
    (right_eye : bool) : Cmd unit :=
  let addr := framebuffer_addr framebuffer right_eye in
  h <- gets host ;;
  let bpp :=
    Host.BytesPerPixel h (FramebufferConfig.color_format framebuffer) in
  let pixel_stride := FramebufferConfig.stride framebuffer / bpp in
  ASSERT (pixel_stride * bpp =? FramebufferConfig.stride framebuffer) ;;
  ASSERT (pixel_stride mod 4 =? 0) ;;
  si <- gets (screen_info i) ;;
  emit (EvAccelerateDisplay i addr (u32 pixel_stride)) ;;
  t <- gets now ;;
  match Host.AccelerateDisplay h t framebuffer addr (u32 pixel_stride) si with
  | Some (view, coords) =>
      modify (set_screen_info i
                (ScreenInfo.mk (ScreenInfo.texture si) coords view))
  | None =>
      (* Reset the screen info's display texture to its own permanent
         texture *)
      modify (set_screen_info i
                (ScreenInfo.mk (ScreenInfo.texture si)
                   (Rectangle.mk F32.zero F32.zero F32.one F32.one)
                   (TextureInfo.image_view (ScreenInfo.texture si)))) ;;
      ASSERT false
  end.

Definition fb_id_of (i : Slot) : Z :=
  match i with Slot2 => 1 | _ => 0 end.

Definition texture_differs (texture : TextureInfo.t)
    (framebuffer : FramebufferConfig.t) : bool :=
  negb (TextureInfo.width texture =? FramebufferConfig.width framebuffer)
  || negb (TextureInfo.height texture =? FramebufferConfig.height framebuffer)
  || negb (TextureInfo.format texture
           =? FramebufferConfig.color_format framebuffer).

(** The body of the loop of [PrepareRendertarget], for slot [i]. *)
Definition PrepareSlot (i : Slot) : Cmd unit :=
  g <- gets guest ;;
  let fb_id := fb_id_of i in
  let framebuffer := Guest.framebuffer_config g fb_id in
  let color_fill := Guest.color_fill g fb_id in
  if ColorFill.is_enabled color_fill then
    texture <- gets (texture_of i) ;;
    LoadColorToActiveVkTexture (ColorFill.color_r color_fill)
      (ColorFill.color_g color_fill) (ColorFill.color_b color_fill) texture
  else
    texture <- gets (texture_of i) ;;
    when (texture_differs texture framebuffer)
         (ConfigureFramebufferTexture i framebuffer) ;;
    LoadFBToScreenInfo framebuffer i (slot_eqb i Slot1) ;;
    (* Resize the texture in case the framebuffer size has changed *)
    texture <- gets (texture_of i) ;;
    modify (set_texture i
              (TextureInfo.mk (FramebufferConfig.width framebuffer)
                 (FramebufferConfig.height framebuffer)
                 (TextureInfo.format texture) (TextureInfo.image texture)
                 (TextureInfo.image_view texture)
                 (TextureInfo.allocation texture))).

Definition PrepareRendertarget : Cmd unit :=
  PrepareSlot Slot0 ;; PrepareSlot Slot1 ;; PrepareSlot Slot2.

(** A sequence of [PrepareRendertarget] calls, the guest registers standing
    at [g] when the corresponding call reads them. *)
Fixpoint PrepareRendertargets (gs : list Guest.t) : Cmd unit :=
  match gs with
  | [] => ret tt
  | g :: gs' =>
      modify (set_guest g) ;; PrepareRendertarget ;; PrepareRendertargets gs'
  end.

(** ** Pipeline selection *)

Definition ReloadPipeline : Cmd unit :=
  render_3d <- gets (fun r => Values.render_3d (values r)) ;;
  match render_3d with
  | Anaglyph => modify (set_current_pipeline 1)
  | Interlaced | ReverseInterlaced =>
      modify (set_current_pipeline 2) ;;
      modify (fun r =>
        set_draw_info
          (DrawInfo.set_reverse_interlaced
             (match render_3d with ReverseInterlaced => true | _ => false end)
             (draw_info r)) r)
  | _ => modify (set_current_pipeline 0)
  end.

(** ** Drawing one screen *)

(** [sizeof(ScreenRectVertex)]: four floats. *)
Definition sizeof_ScreenRectVertex : Z := 16.
Definition VERTEX_BUFFER_SIZE : Z := sizeof_ScreenRectVertex * 8192.

Definition AlignUp (value size : Z) : Z := (value + size - 1) / size * size.

(** Modelled from the spec: [vertex_buffer] is a [StreamBuffer], the
    ring-buffer-backed transient upload buffer for per-draw geometry, whose
    code is not among the sources.  [Map] hands out the next aligned offset
    and starts over at 0 when the request does not fit; [Commit] advances. *)
Definition vertex_buffer_Map (size alignment : Z) : Cmd Z :=
  offset <- gets vertex_offset ;;
  let aligned := AlignUp offset alignment in
  let offset := if VERTEX_BUFFER_SIZE <? aligned + size then 0 else aligned in
  modify (set_vertex_offset offset) ;;
  ret offset.

Definition vertex_buffer_Commit (size : Z) : Cmd unit :=
  modify (fun r => set_vertex_offset (vertex_offset r + size) r).

(** The [switch (orientation)] of [DrawSingleScreen] and of
    [DrawSingleScreenStereo]: the four vertices, and [w] and [h] as they
    stand after it.  Under [default] the array is never assigned ([None]),
    and [w] and [h] are untouched. *)
Definition orient (texcoords : Rectangle.t f32) (x y w h : f32)
    (orientation : DisplayOrientation)
  : option (list ScreenRectVertex.t) * f32 * f32 :=
  let V := ScreenRectVertex.make in
  let left := Rectangle.left texcoords in
  let top := Rectangle.top texcoords in
  let right := Rectangle.right texcoords in
  let bottom := Rectangle.bottom texcoords in
  match orientation with
  | Landscape =>
      (Some [V x y bottom left; V (x +f w) y bottom right;
             V x (y +f h) top left; V (x +f w) (y +f h) top right], w, h)
  | Portrait =>
      (Some [V x y bottom right; V (x +f w) y top right;
             V x (y +f h) bottom left; V (x +f w) (y +f h) top left], h, w)
  | LandscapeFlipped =>
      (Some [V x y top right; V (x +f w) y top left;
             V x (y +f h) bottom right; V (x +f w) (y +f h) bottom left], w, h)
  | PortraitFlipped =>
      (Some [V x y top left; V (x +f w) y bottom left;
             V x (y +f h) top right; V (x +f w) (y +f h) bottom right], h, w)
  | OtherOrientation => (None, w, h)
  end.

Definition input_resolution (texture : TextureInfo.t) (scale_factor : Z)
  : f32 * f32 * f32 * f32 :=
  let iw := F32.of_u32 (u32 (TextureInfo.width texture * scale_factor)) in
  let ih := F32.of_u32 (u32 (TextureInfo.height texture * scale_factor)) in
  (iw, ih, F32.one /f iw, F32.one /f ih).

Definition output_resolution (w h : f32) : f32 * f32 * f32 * f32 :=
  (h, w, F32.one /f h, F32.one /f w).

Definition upload_vertices (vertices : option (list ScreenRectVertex.t))
  : Cmd Z :=
  let size := sizeof_ScreenRectVertex * 4 in
  offset <- vertex_buffer_Map size 16 ;;
  emit (EvVertexUpload offset vertices) ;;
  vertex_buffer_Commit size ;;
  ret offset.

Definition record_draw (offset : Z) : Cmd unit :=
  info <- gets draw_info ;;
  emit (EvRecord (CmdDraw (u32 offset / sizeof_ScreenRectVertex) info)).

Definition DrawSingleScreen (screen_id : Slot) (x y w h : f32)
    (orientation : DisplayOrientation) : Cmd unit :=
  si <- gets (screen_info screen_id) ;;
  let '(vertices, w, h) :=
    orient (ScreenInfo.texcoords si) x y w h orientation in
  when (negb (recognized orientation)) (emit EvLogError) ;;
  offset <- upload_vertices vertices ;;
  scale_factor <- gets (fun r => Host.GetResolutionScaleFactor (host r)) ;;
  modify (fun r =>
    set_draw_info
      (DrawInfo.set_screen_id_l (slot_index screen_id)
         (DrawInfo.set_o_resolution (output_resolution w h)
            (DrawInfo.set_i_resolution
               (input_resolution (ScreenInfo.texture si) scale_factor)
               (draw_info r)))) r) ;;
  record_draw offset.

Definition DrawSingleScreenStereo (screen_id_l screen_id_r : Slot)
    (x y w h : f32) (orientation : DisplayOrientation) : Cmd unit :=
  si <- gets (screen_info screen_id_l) ;;
  let '(vertices, w, h) :=
    orient (ScreenInfo.texcoords si) x y w h orientation in
  when (negb (recognized orientation)) (emit EvLogError) ;;
  offset <- upload_vertices vertices ;;
  scale_factor <- gets (fun r => Host.GetResolutionScaleFactor (host r)) ;;
  modify (fun r =>
    set_draw_info
      (DrawInfo.set_screen_id_r (slot_index screen_id_r)
         (DrawInfo.set_screen_id_l (slot_index screen_id_l)
            (DrawInfo.set_o_resolution (output_resolution w h)
               (DrawInfo.set_i_resolution
                  (input_resolution (ScreenInfo.texture si) scale_factor)
                  (draw_info r))))) r) ;;
  record_draw offset.

(** ** Drawing a screen region under the stereo modes *)

Definition set_layer (z : Z) : Cmd unit :=
  modify (fun r => set_draw_info (DrawInfo.set_layer z (draw_info r)) r).

Definition orientation_of (layout : FramebufferLayout.t) : DisplayOrientation :=
  if FramebufferLayout.is_rotated layout then Landscape else Portrait.

Definition DrawTopScreen (layout : FramebufferLayout.t)
    (top_screen : Rectangle.t Z) : Cmd unit :=
  if negb (FramebufferLayout.top_screen_enabled layout) then ret tt else
  h <- gets host ;;
  v <- gets values ;;
  let top_screen_left := F32.of_u32 (Rectangle.left top_screen) in
  let top_screen_top := F32.of_u32 (Rectangle.top top_screen) in
  let top_screen_width := F32.of_u32 (Host.GetWidth h top_screen) in
  let top_screen_height := F32.of_u32 (Host.GetHeight h top_screen) in
  let orientation := orientation_of layout in
  match Values.render_3d v with
  | Off =>
      DrawSingleScreen (eye_slot (Values.mono_render_option v))
        top_screen_left top_screen_top top_screen_width top_screen_height
        orientation
  | SideBySide =>
      DrawSingleScreen Slot0 (top_screen_left /f F32.two) top_screen_top
        (top_screen_width /f F32.two) top_screen_height orientation ;;
      set_layer 1 ;;
      DrawSingleScreen Slot1
        ((top_screen_left /f F32.two)
         +f F32.of_u32 (u32 (FramebufferLayout.width layout) / 2))
        top_screen_top (top_screen_width /f F32.two) top_screen_height
        orientation
  | CardboardVR =>
      DrawSingleScreen Slot0 top_screen_left top_screen_top top_screen_width
        top_screen_height orientation ;;
      set_layer 1 ;;
      DrawSingleScreen Slot1
        (F32.of_u32
           (u32 (CardboardSettings.top_screen_right_eye
                   (FramebufferLayout.cardboard layout)
                 + u32 (FramebufferLayout.width layout) / 2)))
        top_screen_top top_screen_width top_screen_height orientation
  | Anaglyph | Interlaced | ReverseInterlaced =>
      DrawSingleScreenStereo Slot0 Slot1 top_screen_left top_screen_top
        top_screen_width top_screen_height orientation
  end.

Definition DrawBottomScreen (layout : FramebufferLayout.t)
    (bottom_screen : Rectangle.t Z) : Cmd unit :=
  if negb (FramebufferLayout.bottom_screen_enabled layout) then ret tt else
  h <- gets host ;;
  v <- gets values ;;
  let bottom_screen_left := F32.of_u32 (Rectangle.left bottom_screen) in
  let bottom_screen_top := F32.of_u32 (Rectangle.top bottom_screen) in
  let bottom_screen_width := F32.of_u32 (Host.GetWidth h bottom_screen) in
  let bottom_screen_height := F32.of_u32 (Host.GetHeight h bottom_screen) in
  let orientation := orientation_of layout in
  match Values.render_3d v with
  | Off =>
      DrawSingleScreen Slot2 bottom_screen_left bottom_screen_top
        bottom_screen_width bottom_screen_height orientation
  | SideBySide =>
      DrawSingleScreen Slot2 (bottom_screen_left /f F32.two) bottom_screen_top
        (bottom_screen_width /f F32.two) bottom_screen_height orientation ;;
      set_layer 1 ;;
      DrawSingleScreen Slot2
        ((bottom_screen_left /f F32.two)
         +f F32.of_u32 (u32 (FramebufferLayout.width layout) / 2))
        bottom_screen_top (bottom_screen_width /f F32.two)
        bottom_screen_height orientation
  | CardboardVR =>
      DrawSingleScreen Slot2 bottom_screen_left bottom_screen_top
        bottom_screen_width bottom_screen_height orientation ;;
      set_layer 1 ;;
      DrawSingleScreen Slot2
        (F32.of_u32
           (u32 (CardboardSettings.bottom_screen_right_eye
                   (FramebufferLayout.cardboard layout)
                 + u32 (FramebufferLayout.width layout) / 2)))
        bottom_screen_top bottom_screen_width bottom_screen_height orientation
  | Anaglyph | Interlaced | ReverseInterlaced =>
      DrawSingleScreenStereo Slot2 Slot2 bottom_screen_left bottom_screen_top
        bottom_screen_width bottom_screen_height orientation
  end.

(** ** Composing a frame *)

Definition MakeOrthographicMatrix (width height : Z) : list f32 :=
  let o := F32.zero in
  let i := F32.one in
  let m := F32.opp F32.one in
  [F32.two /f F32.of_u32 width; o; o; m;
   o; F32.two /f F32.of_u32 height; o; m;
   o; o; i; o;
   o; o; o; i].

(** [PrepareDraw(frame, layout)].  The recorded closure reads the frame and
    the clear colour when the scheduler runs it; neither changes between
    the recording and the submission of the frame. *)
Definition PrepareDraw (frame : Frame.t) (layout : FramebufferLayout.t)
  : Cmd unit :=
  r <- gets (fun r => r) ;;
  let sampler :=
    if Values.filter_mode (values r) then fst (present_samplers r)
    else snd (present_samplers r) in
  let present_textures :=
    map (fun i => (sampler, ScreenInfo.image_view (screen_info i r)))
        all_slots in
  emit (EvAcquire present_textures) ;;
  t <- gets now ;;
  let descriptor_set := Host.Acquire (host r) t present_textures in
  emit EvEndRendering ;;
  emit (EvRecord
          (CmdBeginPresent (Frame.framebuffer frame)
             (FramebufferLayout.width layout) (FramebufferLayout.height layout)
             (Frame.width frame) (Frame.height frame)
             (clear_color r) (current_pipeline r) descriptor_set)).

(** [std::atomic<bool>::exchange(false)] on a request flag. *)
Definition exchange_bg_color_update_requested : Cmd bool :=
  b <- gets (fun r =>
             RendererSettings.bg_color_update_requested (settings r)) ;;
  modify (fun r =>
    set_settings
      (RendererSettings.set_bg_color_update_requested false (settings r)) r) ;;
  ret b.

Definition exchange_shader_update_requested : Cmd bool :=
  b <- gets (fun r => RendererSettings.shader_update_requested (settings r)) ;;
  modify (fun r =>
    set_settings
      (RendererSettings.set_shader_update_requested false (settings r)) r) ;;
  ret b.

Definition exchange_screenshot_requested : Cmd bool :=
  b <- gets (fun r => RendererSettings.screenshot_requested (settings r)) ;;
  modify (fun r =>
    set_settings
      (RendererSettings.set_screenshot_requested false (settings r)) r) ;;
  ret b.

Definition update_clear_color (r : Renderer) : Renderer :=
  let '(_, _, _, a) := clear_color r in
  set_clear_color
    (Values.bg_red (values r), Values.bg_green (values r),
     Values.bg_blue (values r), a) r.

Definition DrawScreens (frame : Frame.t) (layout : FramebufferLayout.t)
    (flipped : bool) : Cmd unit :=
  bg <- exchange_bg_color_update_requested ;;
  when bg (modify update_clear_color) ;;
  sh <- exchange_shader_update_requested ;;
  when sh ReloadPipeline ;;
  PrepareDraw frame layout ;;
  let top_screen := FramebufferLayout.top_screen layout in
  let bottom_screen := FramebufferLayout.bottom_screen layout in
  modify (fun r =>
    set_draw_info
      (DrawInfo.set_modelview
         (MakeOrthographicMatrix (FramebufferLayout.width layout)
                                 (FramebufferLayout.height layout))
         (draw_info r)) r) ;;
  set_layer 0 ;;
  swap_screen <- gets (fun r => Values.swap_screen (values r)) ;;
  (if negb swap_screen then
     DrawTopScreen layout top_screen ;;
     set_layer 0 ;;
     DrawBottomScreen layout bottom_screen
   else
     DrawBottomScreen layout bottom_screen ;;
     set_layer 0 ;;
     DrawTopScreen layout top_screen) ;;
  when (FramebufferLayout.additional_screen_enabled layout)
    (let additional_screen := FramebufferLayout.additional_screen layout in
     if negb swap_screen then DrawTopScreen layout additional_screen
     else DrawBottomScreen layout additional_screen) ;;
  emit (EvRecord (CmdEndPresent (Frame.image frame))).

(** ** Presenting to a window *)

(** Modelled from the spec: [PresentWindow::RecreateFrame(frame, w, h)]
    destroys and reallocates a frame's image, view and render target at the
    new dimensions; the code of [PresentWindow] is not among the sources.
    The completion signal of the frame is kept. *)
Definition RecreateFrame (w : WindowId) (frame : Frame.t) (width height : Z)
  : Cmd Frame.t :=
  h <- gets host ;;
  emit (EvRecreateFrame w frame width height) ;;
  t <- gets now ;;
  let '(image, allocation, image_view, framebuffer) :=
    Host.frame_resources h t width height in
  ret (Frame.mk width height image allocation image_view framebuffer
                (Frame.render_ready frame)).

(** [RenderToWindow(window, layout, flipped)]; the window is passed by
    reference and comes back with the frame as it was presented. *)
Definition RenderToWindow (window : PresentWindow.t)
    (layout : FramebufferLayout.t) (flipped : bool) : Cmd PresentWindow.t :=
  let w := PresentWindow.id window in
  emit (EvGetRenderFrame w) ;;
  let frame := PresentWindow.render_frame window in
  frame <-
    (if negb (FramebufferLayout.width layout =? Frame.width frame)
        || negb (FramebufferLayout.height layout =? Frame.height frame)
     then
       emit (EvWaitPresent w) ;;
       emit EvFinish ;;
       RecreateFrame w frame (FramebufferLayout.width layout)
                     (FramebufferLayout.height layout)
     else ret frame) ;;
  DrawScreens frame layout flipped ;;
  emit (EvFlush (Frame.render_ready frame)) ;;
  emit (EvPresent w frame) ;;
  ret (PresentWindow.mk w frame).

(** ** Screenshots *)

Definition RenderScreenshot : Cmd unit :=
  requested <- exchange_screenshot_requested ;;
  if negb requested then ret tt else
  st <- gets settings ;;
  h <- gets host ;;
  let layout := RendererSettings.screenshot_framebuffer_layout st in
  let width := FramebufferLayout.width layout in
  let height := FramebufferLayout.height layout in
  let size := u32 (u32 (width * height) * 4) in
  emit (EvCreateBuffer size) ;;
  t <- gets now ;;
  match Host.vmaCreateBuffer h t size with
  | None => emit EvLogCritical ;; UNREACHABLE
  | Some (staging_buffer, allocation, pMappedData) =>
      frame <- RecreateFrame MainWindow Frame.empty width height ;;
      DrawScreens frame layout false ;;
      emit (EvRecord (CmdCopyImageToBuffer (Frame.image frame) staging_buffer
                                           width height)) ;;
      (* Ensure the copy is fully completed before saving the screenshot *)
      emit EvFinish ;;
      (* Copy backing image data to the QImage screenshot buffer *)
      emit (EvMemcpy (RendererSettings.screenshot_bits st) pMappedData size) ;;
      (* Destroy allocated resources *)
      emit (EvDestroyBuffer staging_buffer allocation) ;;
      emit (EvDestroyImage (Frame.image frame) (Frame.allocation frame)) ;;
      emit (EvDestroyFramebuffer (Frame.framebuffer frame)) ;;
      emit (EvDestroyImageView (Frame.image_view frame)) ;;
      emit (EvScreenshotComplete false)
  end.

(** * Properties *)

Arguments F32.add : simpl never.
Arguments F32.div : simpl never.
Arguments F32.opp : simpl never.
Arguments F32.of_u32 : simpl never.
Arguments u32 : simpl never.
Arguments u8 : simpl never.

(** ** Events of a run *)

(** The events a command appends to the trace when run from [r]. *)
Definition emitted {A} (c : Cmd A) (r : Renderer) : list Event :=
  skipn (length (trace r)) (trace (final (c r))).

Lemma skipn_length_app {A} (l l' : list A) : skipn (length l) (l ++ l') = l'.
Proof. induction l as [|a l IH]; simpl; auto. Qed.

Lemma emitted_of_trace {A} (c : Cmd A) r es :
  trace (final (c r)) = trace r ++ es -> emitted c r = es.
Proof. unfold emitted. intros ->. apply skipn_length_app. Qed.

(** The uniform blocks of the draws recorded in a list of events, the vertex
    arrays uploaded, and the corners the uploaded vertices sit at. *)
Definition draw_of (e : Event) : option DrawInfo.t :=
  match e with EvRecord (CmdDraw _ info) => Some info | _ => None end.

Definition upload_of (e : Event) : option (option (list ScreenRectVertex.t)) :=
  match e with EvVertexUpload _ vs => Some vs | _ => None end.

Fixpoint pick {A B} (f : A -> option B) (l : list A) : list B :=
  match l with
  | [] => []
  | a :: l' => match f a with Some b => b :: pick f l' | None => pick f l' end
  end.

Definition draws (es : list Event) : list DrawInfo.t := pick draw_of es.
Definition uploads (es : list Event) := pick upload_of es.

Definition positions (vs : option (list ScreenRectVertex.t))
  : list (f32 * f32) :=
  match vs with Some l => map ScreenRectVertex.position l | None => [] end.

(** The corners of the rectangle at [(x, y)] of extent [w] by [h], in
    triangle-strip order. *)
Definition corners (x y w h : f32) : list (f32 * f32) :=
  [(x, y); (x +f w, y); (x, y +f h); (x +f w, y +f h)].

Lemma pick_app {A B} (f : A -> option B) l l' :
  pick f (l ++ l') = pick f l ++ pick f l'.
Proof.
  induction l as [|a l IH]; simpl; auto.
  destruct (f a); simpl; congruence.
Qed.

(** ** Pipeline selection *)

Definition pipeline_index (o : StereoRenderOption) : Z :=
  match o with
  | Anaglyph => 1
  | Interlaced | ReverseInterlaced => 2
  | Off | SideBySide | CardboardVR => 0
  end.

(** C9.  [ReloadPipeline] always returns; run a second time with the stereo
    setting unchanged it leaves the renderer, and so the active pipeline
    index and the reverse-interlace flag, exactly as the first run left them.
    The index it derives is 1 for Anaglyph, 2 for Interlaced and
    ReverseInterlaced and 0 otherwise; under Interlaced the flag is false,
    under ReverseInterlaced it is true (under the settings of index 0 or 1
    the flag is not written and keeps the value it had). *)
Theorem ReloadPipeline_idempotent (r : Renderer) :
  let r1 := final (ReloadPipeline r) in
  let r2 := final (ReloadPipeline r1) in
  ReloadPipeline r = Done tt r1 /\
  ReloadPipeline r1 = Done tt r1 /\
  current_pipeline r2 = current_pipeline r1 /\
  DrawInfo.reverse_interlaced (draw_info r2)
  = DrawInfo.reverse_interlaced (draw_info r1) /\
  current_pipeline r1 = pipeline_index (Values.render_3d (values r)) /\
  match Values.render_3d (values r) with
  | Interlaced => DrawInfo.reverse_interlaced (draw_info r1) = false
  | ReverseInterlaced => DrawInfo.reverse_interlaced (draw_info r1) = true
  | Off | SideBySide | Anaglyph | CardboardVR =>
      DrawInfo.reverse_interlaced (draw_info r1)
      = DrawInfo.reverse_interlaced (draw_info r)
  end.
Proof.
  destruct r as [g h v st scr di cp cc ps vo tr].
  destruct v as [r3d mono fm sw br bg bb].
  destruct di as [mv ir ors sl sr ly ri].
  destruct r3d; cbn; repeat split; reflexivity.
Qed.

(** ** One screen draw *)

(** The offset [vertex_buffer.Map] hands out for the four vertices. *)
Definition mapped_offset (r : Renderer) : Z :=
  let aligned := AlignUp (vertex_offset r) 16 in
  if VERTEX_BUFFER_SIZE <? aligned + sizeof_ScreenRectVertex * 4 then 0
  else aligned.

(** The uniform block [DrawSingleScreen] leaves in [draw_info], [w] and [h]
    being the extent after the orientation switch. *)
Definition single_info (screen_id : Slot) (w h : f32) (r : Renderer)
  : DrawInfo.t :=
  DrawInfo.set_screen_id_l (slot_index screen_id)
    (DrawInfo.set_o_resolution (output_resolution w h)
       (DrawInfo.set_i_resolution
          (input_resolution (texture_of screen_id r)
             (Host.GetResolutionScaleFactor (host r)))
          (draw_info r))).

Definition stereo_info (screen_id_l screen_id_r : Slot) (w h : f32)
    (r : Renderer) : DrawInfo.t :=
  DrawInfo.set_screen_id_r (slot_index screen_id_r)
    (single_info screen_id_l w h r).

Definition log_of (o : DisplayOrientation) : list Event :=
  if recognized o then [] else [EvLogError].

Lemma DrawSingleScreen_run screen_id x y w h o r :
  let '(vertices, w', h') :=
    orient (ScreenInfo.texcoords (screen_info screen_id r)) x y w h o in
  let info := single_info screen_id w' h' r in
  DrawSingleScreen screen_id x y w h o r
  = Done tt
      (set_trace
         (trace r ++ log_of o
          ++ [EvVertexUpload (mapped_offset r) vertices;
              EvRecord
                (CmdDraw (u32 (mapped_offset r) / sizeof_ScreenRectVertex)
                         info)])
         (set_draw_info info
            (set_vertex_offset
               (mapped_offset r + sizeof_ScreenRectVertex * 4) r))).
Proof.
  destruct r, o; cbn; unfold emit, modify, mapped_offset; cbn;
    rewrite <- ?app_assoc; reflexivity.
Qed.

Lemma DrawSingleScreenStereo_run id_l id_r x y w h o r :
  let '(vertices, w', h') :=
    orient (ScreenInfo.texcoords (screen_info id_l r)) x y w h o in
  let info := stereo_info id_l id_r w' h' r in
  DrawSingleScreenStereo id_l id_r x y w h o r
  = Done tt
      (set_trace
         (trace r ++ log_of o
          ++ [EvVertexUpload (mapped_offset r) vertices;
              EvRecord
                (CmdDraw (u32 (mapped_offset r) / sizeof_ScreenRectVertex)
                         info)])
         (set_draw_info info
            (set_vertex_offset
               (mapped_offset r + sizeof_ScreenRectVertex * 4) r))).
Proof.
  destruct r, o; cbn; unfold emit, modify, mapped_offset; cbn;
    rewrite <- ?app_assoc; reflexivity.
Qed.

Lemma DrawSingleScreen_emitted screen_id x y w h o r :
  let '(vertices, w', h') :=
    orient (ScreenInfo.texcoords (screen_info screen_id r)) x y w h o in
  emitted (DrawSingleScreen screen_id x y w h o) r
  = log_of o
    ++ [EvVertexUpload (mapped_offset r) vertices;
        EvRecord (CmdDraw (u32 (mapped_offset r) / sizeof_ScreenRectVertex)
                          (single_info screen_id w' h' r))].
Proof.
  pose proof (DrawSingleScreen_run screen_id x y w h o r) as H.
  destruct (orient _ x y w h o) as [[vs w'] h'].
  apply emitted_of_trace. rewrite H. reflexivity.
Qed.

Lemma DrawSingleScreenStereo_emitted id_l id_r x y w h o r :
  let '(vertices, w', h') :=
    orient (ScreenInfo.texcoords (screen_info id_l r)) x y w h o in
  emitted (DrawSingleScreenStereo id_l id_r x y w h o) r
  = log_of o
    ++ [EvVertexUpload (mapped_offset r) vertices;
        EvRecord (CmdDraw (u32 (mapped_offset r) / sizeof_ScreenRectVertex)
                          (stereo_info id_l id_r w' h' r))].
Proof.
  pose proof (DrawSingleScreenStereo_run id_l id_r x y w h o r) as H.
  destruct (orient _ x y w h o) as [[vs w'] h'].
  apply emitted_of_trace. rewrite H. reflexivity.
Qed.

(** Exchanging the width and the height in a resolution entry
    [(width, height, 1/width, 1/height)]. *)
Definition swap_wh (v : f32 * f32 * f32 * f32) : f32 * f32 * f32 * f32 :=
  let '(a, b, c, d) := v in (b, a, d, c).

Definition is_portrait (o : DisplayOrientation) : bool :=
  match o with Portrait | PortraitFlipped => true | _ => false end.

Definition is_landscape (o : DisplayOrientation) : bool :=
  match o with Landscape | LandscapeFlipped => true | _ => false end.

(** The output-resolution entries of the uniform blocks of the draws that
    [DrawSingleScreen] records for the rectangle and orientation. *)
Definition o_resolutions (screen_id : Slot) (x y w h : f32)
    (o : DisplayOrientation) (r : Renderer) : list (f32 * f32 * f32 * f32) :=
  map DrawInfo.o_resolution
      (draws (emitted (DrawSingleScreen screen_id x y w h o) r)).

(** The corners of the vertices [DrawSingleScreen] uploads. *)
Definition uploaded_corners (screen_id : Slot) (x y w h : f32)
    (o : DisplayOrientation) (r : Renderer) : list (list (f32 * f32)) :=
  map positions (uploads (emitted (DrawSingleScreen screen_id x y w h o) r)).

(** ** A concrete renderer, for the examples *)

Module Sample.

Definition texcoords : Rectangle.t f32 :=
  Rectangle.mk F32.zero F32.zero F32.one F32.one.

Definition host : Host.t :=
  Host.mk
    (fun format => if format =? 0 then 4 else if format =? 1 then 3 else 2)
    (fun _ _ addr _ _ =>
       if addr =? 0 then None else Some (addr + 1, texcoords))
    (fun t width height format =>
       if 4096 <? width then None
       else Some (1000 + Z.of_nat t, 2000 + Z.of_nat t))
    (fun _ image _ => image + 1)
    (fun _ size => if size =? 0 then None else Some (700, 701, 702))
    (fun _ _ => 800)
    1
    (fun rect => Z.abs (Rectangle.right rect - Rectangle.left rect))
    (fun rect => Z.abs (Rectangle.bottom rect - Rectangle.top rect))
    (fun _ _ _ => (900, 901, 902, 903)).

(** The top screen in RGB8 (format 1, three bytes per pixel), 240 by 400,
    both eyes present; the bottom screen 240 by 320. *)
Definition top_config : FramebufferConfig.t :=
  FramebufferConfig.mk 402653184 402941184 403229184 403517184
                       240 400 720 1 0.

Definition bottom_config : FramebufferConfig.t :=
  FramebufferConfig.mk 403805184 404035584 0 0 240 320 720 1 1.

Definition no_fill : ColorFill.t := ColorFill.mk 0 0 0 false.
Definition red_fill : ColorFill.t := ColorFill.mk 255 0 0 true.

Definition guest : Guest.t := Guest.mk top_config bottom_config no_fill no_fill.
Definition guest_filled : Guest.t :=
  Guest.mk top_config bottom_config red_fill red_fill.

Definition values : Values.t :=
  Values.mk Off LeftEye true false F32.zero F32.zero F32.zero.

Definition top_rect : Rectangle.t Z := Rectangle.mk 200 0 600 240.
Definition bottom_rect : Rectangle.t Z := Rectangle.mk 240 240 560 480.

Definition layout : FramebufferLayout.t :=
  FramebufferLayout.mk 800 480 true true top_rect bottom_rect true false
    (Rectangle.mk 0 0 0 0) (CardboardSettings.mk 0 0).

Definition renderer_settings : RendererSettings.t :=
  RendererSettings.mk false false false layout 4096.

Definition blank_texture : TextureInfo.t := TextureInfo.mk 0 0 0 0 0 0.
Definition blank_screen : ScreenInfo.t :=
  ScreenInfo.mk blank_texture texcoords 0.

Definition blank_draw_info : DrawInfo.t :=
  DrawInfo.mk [] (F32.zero, F32.zero, F32.zero, F32.zero)
    (F32.zero, F32.zero, F32.zero, F32.zero) 0 0 0 false.

(** A renderer as it stands after construction: no texture allocated,
    nothing recorded. *)
Definition renderer : Renderer :=
  mkRenderer guest host values renderer_settings
    (Screens.mk blank_screen blank_screen blank_screen)
    blank_draw_info 0 (F32.zero, F32.zero, F32.zero, F32.one) (10, 11) 0 [].

End Sample.

(** ** Orientation *)

(** C7.  For a fixed rectangle the output-resolution entry of the uniform
    block of the draw is [(h, w, 1/h, 1/w)] under Landscape and
    LandscapeFlipped and [(w, h, 1/w, 1/h)] under Portrait and
    PortraitFlipped: each portrait entry is the width/height swap of each
    landscape entry.  The swap comes after the vertices: under the four
    orientations the uploaded vertices sit at the same corners, built from
    the unswapped [w] and [h]. *)
Theorem DrawSingleScreen_portrait_swaps_o_resolution
    (screen_id : Slot) (x y w h : f32) (r : Renderer) :
  let res := fun o => o_resolutions screen_id x y w h o r in
  let sit := fun o => uploaded_corners screen_id x y w h o r in
  res Landscape = [(h, w, F32.one /f h, F32.one /f w)] /\
  res LandscapeFlipped = [(h, w, F32.one /f h, F32.one /f w)] /\
  res Portrait = [(w, h, F32.one /f w, F32.one /f h)] /\
  res PortraitFlipped = [(w, h, F32.one /f w, F32.one /f h)] /\
  res Portrait = map swap_wh (res Landscape) /\
  res Portrait = map swap_wh (res LandscapeFlipped) /\
  res PortraitFlipped = map swap_wh (res Landscape) /\
  res PortraitFlipped = map swap_wh (res LandscapeFlipped) /\
  sit Landscape = [corners x y w h] /\
  sit Portrait = [corners x y w h] /\
  sit LandscapeFlipped = [corners x y w h] /\
  sit PortraitFlipped = [corners x y w h].
Proof.
  unfold o_resolutions, uploaded_corners.
  pose proof (DrawSingleScreen_emitted screen_id x y w h Landscape r) as H1.
  pose proof (DrawSingleScreen_emitted screen_id x y w h Portrait r) as H2.
  pose proof (DrawSingleScreen_emitted screen_id x y w h LandscapeFlipped r)
    as H3.
  pose proof (DrawSingleScreen_emitted screen_id x y w h PortraitFlipped r)
    as H4.
  cbn in H1, H2, H3, H4. rewrite H1, H2, H3, H4.
  repeat split; reflexivity.
Qed.

(** ** An orientation outside the enumeration *)

(** What C2 expects of the events of a draw that is skipped. *)
Definition draw_skipped (es : list Event) : Prop :=
  uploads es = [] /\ draws es = [].

(** C2, amended.  With an orientation that is none of the four,
    [DrawSingleScreen] and [DrawSingleScreenStereo] log the error and go on:
    the four vertices, which the switch never assigned, are uploaded and the
    draw is recorded, with [w] and [h] unswapped.  The call returns, so
    whatever follows it in the frame runs from the renderer it leaves. *)
Theorem DrawSingleScreen_unrecognized_orientation
    (screen_id screen_id_r : Slot) (x y w h : f32) (r : Renderer) :
  let c := DrawSingleScreen screen_id x y w h OtherOrientation in
  let cs :=
    DrawSingleScreenStereo screen_id screen_id_r x y w h OtherOrientation in
  let first_vertex := u32 (mapped_offset r) / sizeof_ScreenRectVertex in
  emitted c r
  = [EvLogError; EvVertexUpload (mapped_offset r) None;
     EvRecord (CmdDraw first_vertex (single_info screen_id w h r))] /\
  emitted cs r
  = [EvLogError; EvVertexUpload (mapped_offset r) None;
     EvRecord (CmdDraw first_vertex
                       (stereo_info screen_id screen_id_r w h r))] /\
  DrawInfo.o_resolution (single_info screen_id w h r)
  = (h, w, F32.one /f h, F32.one /f w) /\
  (forall (A : Type) (k : Cmd A), (c ;; k) r = k (final (c r))) /\
  (forall (A : Type) (k : Cmd A), (cs ;; k) r = k (final (cs r))).
Proof.
  cbv zeta.
  pose proof (DrawSingleScreen_emitted screen_id x y w h OtherOrientation r)
    as H1.
  pose proof (DrawSingleScreenStereo_emitted screen_id screen_id_r x y w h
                OtherOrientation r) as H2.
  cbn in H1, H2.
  split; [exact H1|]. split; [exact H2|]. split; [reflexivity|].
  split; intros A k; unfold bind.
  - rewrite (DrawSingleScreen_run screen_id x y w h OtherOrientation r).
    reflexivity.
  - rewrite (DrawSingleScreenStereo_run screen_id screen_id_r x y w h
               OtherOrientation r).
    reflexivity.
Qed.

(** C2 as stated fails: on the sample renderer the draw of the top region
    with an unrecognized orientation is not skipped. *)
Lemma unrecognized_orientation_draw_not_skipped :
  ~ draw_skipped
      (emitted (DrawSingleScreen Slot0 (F32.of_u32 200) (F32.of_u32 0)
                  (F32.of_u32 400) (F32.of_u32 240) OtherOrientation)
               Sample.renderer).
Proof.
  intros [U _]. vm_compute in U. discriminate U.
Qed.

(** ** Loading a guest framebuffer into a screen *)

Definition left_address (framebuffer : FramebufferConfig.t) : Z :=
  if FramebufferConfig.active_fb framebuffer =? 0
  then FramebufferConfig.address_left1 framebuffer
  else FramebufferConfig.address_left2 framebuffer.

Definition pixel_stride_of (h : Host.t) (framebuffer : FramebufferConfig.t)
  : Z :=
  FramebufferConfig.stride framebuffer
  / Host.BytesPerPixel h (FramebufferConfig.color_format framebuffer).

(** The two assertions on the stride hold. *)
Definition stride_ok (h : Host.t) (framebuffer : FramebufferConfig.t) : bool :=
  (pixel_stride_of h framebuffer
   * Host.BytesPerPixel h (FramebufferConfig.color_format framebuffer)
   =? FramebufferConfig.stride framebuffer)
  && (pixel_stride_of h framebuffer mod 4 =? 0).

Definition accelerate_event (framebuffer : FramebufferConfig.t) (i : Slot)
    (right_eye : bool) (r : Renderer) : Event :=
  EvAccelerateDisplay i (framebuffer_addr framebuffer right_eye)
    (u32 (pixel_stride_of (host r) framebuffer)).

(** What the rasterizer answers to the call [LoadFBToScreenInfo] makes. *)
Definition accelerated (framebuffer : FramebufferConfig.t) (i : Slot)
    (right_eye : bool) (r : Renderer) : option (Handle * Rectangle.t f32) :=
  Host.AccelerateDisplay (host r)
    (length (trace r ++ [accelerate_event framebuffer i right_eye r]))
    framebuffer (framebuffer_addr framebuffer right_eye)
    (u32 (pixel_stride_of (host r) framebuffer)) (screen_info i r).

(** The screen reset to its own texture. *)
Definition own_view (si : ScreenInfo.t) : ScreenInfo.t :=
  ScreenInfo.mk (ScreenInfo.texture si)
    (Rectangle.mk F32.zero F32.zero F32.one F32.one)
    (TextureInfo.image_view (ScreenInfo.texture si)).

Lemma LoadFBToScreenInfo_run framebuffer i right_eye r :
  LoadFBToScreenInfo framebuffer i right_eye r
  = if stride_ok (host r) framebuffer then
      let r1 :=
        set_trace (trace r ++ [accelerate_event framebuffer i right_eye r]) r
      in
      match accelerated framebuffer i right_eye r with
      | Some (view, coords) =>
          Done tt
            (set_screen_info i
               (ScreenInfo.mk (texture_of i r) coords view) r1)
      | None =>
          Fatal AssertionFailed
            (set_screen_info i (own_view (screen_info i r)) r1)
      end
    else Fatal AssertionFailed r.
Proof.
  unfold LoadFBToScreenInfo, stride_ok, accelerated, accelerate_event,
    pixel_stride_of, bind, gets, ASSERT.
  destruct (_ * _ =? _); [|reflexivity].
  destruct (_ mod 4 =? 0); [|reflexivity].
  cbn.
  unfold now. destruct r as [g h v st scr di cp cc ps vo tr]. cbn.
  destruct (Host.AccelerateDisplay h _ _ _ _ _) as [[view coords]|];
    reflexivity.
Qed.

Lemma LoadFBToScreenInfo_emitted framebuffer i right_eye r :
  emitted (LoadFBToScreenInfo framebuffer i right_eye) r
  = if stride_ok (host r) framebuffer
    then [accelerate_event framebuffer i right_eye r] else [].
Proof.
  apply emitted_of_trace. rewrite LoadFBToScreenInfo_run.
  destruct (stride_ok _ _).
  - cbv zeta. destruct (accelerated _ _ _ _) as [[view coords]|];
      destruct r; reflexivity.
  - cbn. rewrite app_nil_r. reflexivity.
Qed.

(** C10.  When one of the two right-eye addresses of the descriptor is zero,
    the address [LoadFBToScreenInfo] uses is the left-eye address of the
    active buffer, whichever eye was asked for: that is the address it
    computes, and the address of the one call to the rasterizer it makes
    (when the stride assertions hold; when they do not, it makes none). *)
Theorem LoadFBToScreenInfo_right_eye_downgraded
    (framebuffer : FramebufferConfig.t) (i : Slot) (right_eye : bool)
    (r : Renderer) :
  FramebufferConfig.address_right1 framebuffer = 0
  \/ FramebufferConfig.address_right2 framebuffer = 0 ->
  framebuffer_addr framebuffer right_eye = left_address framebuffer /\
  emitted (LoadFBToScreenInfo framebuffer i right_eye) r
  = if stride_ok (host r) framebuffer
    then [EvAccelerateDisplay i (left_address framebuffer)
            (u32 (pixel_stride_of (host r) framebuffer))]
    else [].
Proof.
  intros H.
  assert (E : framebuffer_addr framebuffer right_eye
              = left_address framebuffer).
  { unfold framebuffer_addr, left_address.
    destruct H as [H|H]; rewrite H; cbn; rewrite ?orb_true_r; reflexivity. }
  split; [exact E|].
  rewrite LoadFBToScreenInfo_emitted. unfold accelerate_event.
  rewrite E. reflexivity.
Qed.

(** The bottom screen of the sample has no right-eye buffers; asked for the
    right eye, the rasterizer is called with the left address of buffer 1. *)
Lemma LoadFBToScreenInfo_right_eye_downgraded_witness :
  (FramebufferConfig.address_right1 Sample.bottom_config = 0
   \/ FramebufferConfig.address_right2 Sample.bottom_config = 0) /\
  framebuffer_addr Sample.bottom_config true = 404035584 /\
  emitted (LoadFBToScreenInfo Sample.bottom_config Slot1 true) Sample.renderer
  = [EvAccelerateDisplay Slot1 404035584 240].
Proof.
  split; [left; reflexivity|].
  exact (LoadFBToScreenInfo_right_eye_downgraded Sample.bottom_config
           Slot1 true Sample.renderer (or_introl eq_refl)).
Defined.

(** C3, amended.  When the stride assertions hold and [AccelerateDisplay]
    returns false, the screen's display view is reset to the view of its own
    texture and its texture coordinates to (0, 0, 1, 1), the texture is left
    as it was, nothing is uploaded (the call to the rasterizer is the only
    event), and then the unconditional [ASSERT(false)] of that branch fails:
    the call does not return. *)
Theorem LoadFBToScreenInfo_fallback_asserts
    (framebuffer : FramebufferConfig.t) (i : Slot) (right_eye : bool)
    (r : Renderer) :
  stride_ok (host r) framebuffer = true ->
  accelerated framebuffer i right_eye r = None ->
  let o := LoadFBToScreenInfo framebuffer i right_eye r in
  o = Fatal AssertionFailed (final o) /\
  ScreenInfo.image_view (screen_info i (final o))
  = TextureInfo.image_view (texture_of i r) /\
  ScreenInfo.texcoords (screen_info i (final o))
  = Rectangle.mk F32.zero F32.zero F32.one F32.one /\
  texture_of i (final o) = texture_of i r /\
  emitted (LoadFBToScreenInfo framebuffer i right_eye) r
  = [accelerate_event framebuffer i right_eye r].
Proof.
  intros Hs Ha o.
  assert (Eo : o = Fatal AssertionFailed
                     (set_screen_info i (own_view (screen_info i r))
                        (set_trace
                           (trace r
                            ++ [accelerate_event framebuffer i right_eye r])
                           r))).
  { unfold o. rewrite LoadFBToScreenInfo_run, Hs. cbv zeta. rewrite Ha.
    reflexivity. }
  rewrite LoadFBToScreenInfo_emitted, Hs. rewrite Eo.
  destruct r; destruct i; repeat split; reflexivity.
Qed.

(** A descriptor whose buffers are not mapped: the sample rasterizer refuses
    address 0. *)
Definition unmapped_config : FramebufferConfig.t :=
  FramebufferConfig.mk 0 0 0 0 240 400 720 1 0.

Lemma LoadFBToScreenInfo_fallback_asserts_witness :
  let o := LoadFBToScreenInfo unmapped_config Slot0 false Sample.renderer in
  stride_ok (host Sample.renderer) unmapped_config = true /\
  accelerated unmapped_config Slot0 false Sample.renderer = None /\
  o = Fatal AssertionFailed (final o) /\
  ScreenInfo.image_view (screen_info Slot0 (final o)) = 0 /\
  ScreenInfo.texcoords (screen_info Slot0 (final o))
  = Rectangle.mk F32.zero F32.zero F32.one F32.one /\
  texture_of Slot0 (final o) = Sample.blank_texture /\
  emitted (LoadFBToScreenInfo unmapped_config Slot0 false) Sample.renderer
  = [EvAccelerateDisplay Slot0 0 240].
Proof.
  split; [reflexivity|]. split; [reflexivity|].
  exact (LoadFBToScreenInfo_fallback_asserts unmapped_config Slot0 false
           Sample.renderer eq_refl eq_refl).
Defined.

(** What C3 expects: the call goes on after the rasterizer has refused. *)
Definition fallback_continues (framebuffer : FramebufferConfig.t) (i : Slot)
    (right_eye : bool) (r : Renderer) : Prop :=
  accelerated framebuffer i right_eye r = None ->
  completes (LoadFBToScreenInfo framebuffer i right_eye r) = true.

(** C3 as stated fails: on the sample renderer the refused call ends in the
    failed assertion. *)
Lemma LoadFBToScreenInfo_fallback_does_not_continue :
  ~ fallback_continues unmapped_config Slot0 false Sample.renderer.
Proof.
  intros H. specialize (H eq_refl). vm_compute in H. discriminate H.
Qed.

(** ** Preparing the screen textures *)

(** The width, height and format of a texture, and of a guest descriptor. *)
Definition texture_dims (t : TextureInfo.t) : Z * Z * PixelFormat :=
  (TextureInfo.width t, TextureInfo.height t, TextureInfo.format t).

Definition descriptor_dims (framebuffer : FramebufferConfig.t)
  : Z * Z * PixelFormat :=
  (FramebufferConfig.width framebuffer, FramebufferConfig.height framebuffer,
   FramebufferConfig.color_format framebuffer).

(** The descriptor and the colour-fill register [PrepareRendertarget] reads
    for slot [i]. *)
Definition descriptor_of (i : Slot) (g : Guest.t) : FramebufferConfig.t :=
  Guest.framebuffer_config g (fb_id_of i).

Definition fill_of (i : Slot) (g : Guest.t) : ColorFill.t :=
  Guest.color_fill g (fb_id_of i).

(** [e] is the allocation of a new image for the texture of slot [i], the
    one [ConfigureFramebufferTexture] makes; [e] is a call to the rasterizer
    to display guest framebuffer memory on slot [i]. *)
Definition realloc_of (i : Slot) (e : Event) : bool :=
  match e with EvCreateImage j _ _ _ => slot_eqb i j | _ => false end.

Definition guest_read_of (i : Slot) (e : Event) : bool :=
  match e with EvAccelerateDisplay j _ _ => slot_eqb i j | _ => false end.

Definition reallocated (i : Slot) (es : list Event) : bool :=
  existsb (realloc_of i) es.

Definition guest_read (i : Slot) (es : list Event) : bool :=
  existsb (guest_read_of i) es.

Lemma texture_differs_iff t framebuffer :
  texture_differs t framebuffer = true
  <-> texture_dims t <> descriptor_dims framebuffer.
Proof.
  unfold texture_differs, texture_dims, descriptor_dims.
  destruct (Z.eqb_spec (TextureInfo.width t)
                       (FramebufferConfig.width framebuffer)) as [W|W];
  destruct (Z.eqb_spec (TextureInfo.height t)
                       (FramebufferConfig.height framebuffer)) as [H|H];
  destruct (Z.eqb_spec (TextureInfo.format t)
                       (FramebufferConfig.color_format framebuffer)) as [F|F];
  cbn; split; intros X; try reflexivity; try discriminate X;
  try (intros E; injection E; intros; contradiction).
  exfalso. apply X. rewrite W, H, F. reflexivity.
Qed.

Lemma texture_same_iff t framebuffer :
  texture_differs t framebuffer = false
  <-> texture_dims t = descriptor_dims framebuffer.
Proof.
  unfold texture_differs, texture_dims, descriptor_dims.
  destruct (Z.eqb_spec (TextureInfo.width t)
                       (FramebufferConfig.width framebuffer)) as [W|W];
  destruct (Z.eqb_spec (TextureInfo.height t)
                       (FramebufferConfig.height framebuffer)) as [H|H];
  destruct (Z.eqb_spec (TextureInfo.format t)
                       (FramebufferConfig.color_format framebuffer)) as [F|F];
  cbn; split; intros X; try reflexivity; try discriminate X;
  try (injection X; intros; contradiction).
  rewrite W, H, F. reflexivity.
Qed.

Definition destroy_events (t : TextureInfo.t) : list Event :=
  (if is_null (TextureInfo.image_view t) then []
   else [EvDestroyImageView (TextureInfo.image_view t)])
  ++ (if is_null (TextureInfo.image t) then []
      else [EvDestroyImage (TextureInfo.image t) (TextureInfo.allocation t)]).

(** The trace once [ConfigureFramebufferTexture] has asked for the image. *)
Definition asked_image (i : Slot) (framebuffer : FramebufferConfig.t)
    (r : Renderer) : list Event :=
  trace r ++ destroy_events (texture_of i r)
  ++ [EvCreateImage i (FramebufferConfig.width framebuffer)
        (FramebufferConfig.height framebuffer)
        (FramebufferConfig.color_format framebuffer)].

Lemma ConfigureFramebufferTexture_run i framebuffer r :
  let width := FramebufferConfig.width framebuffer in
  let height := FramebufferConfig.height framebuffer in
  let format := FramebufferConfig.color_format framebuffer in
  let asked := asked_image i framebuffer r in
  ConfigureFramebufferTexture i framebuffer r
  = match Host.vmaCreateImage (host r) (length asked) width height format with
    | None =>
        Fatal UnreachableReached (set_trace (asked ++ [EvLogCritical]) r)
    | Some (image, allocation) =>
        Done tt
          (set_texture i
             (TextureInfo.mk width height format image
                (Host.createImageView (host r)
                   (length (asked ++ [EvCreateImageView image])) image format)
                allocation)
             (set_trace (asked ++ [EvCreateImageView image]) r))
    end.
Proof.
  cbv zeta. unfold ConfigureFramebufferTexture, asked_image, destroy_events,
    bind, gets, when, emit, modify, ret, UNREACHABLE, now.
  destruct r as [g h v st scr di cp cc ps vo tr]. cbn.
  destruct (is_null (TextureInfo.image_view _));
  destruct (is_null (TextureInfo.image _)); cbn;
  rewrite <- ?app_assoc; cbn;
  destruct (Host.vmaCreateImage h _ _ _ _) as [[image allocation]|]; cbn;
  rewrite <- ?app_assoc; reflexivity.
Qed.

Lemma reallocated_app i es es' :
  reallocated i (es ++ es') = reallocated i es || reallocated i es'.
Proof. apply existsb_app. Qed.

Lemma guest_read_app i es es' :
  guest_read i (es ++ es') = guest_read i es || guest_read i es'.
Proof. apply existsb_app. Qed.

Lemma destroy_events_quiet i t :
  reallocated i (destroy_events t) = false
  /\ guest_read i (destroy_events t) = false.
Proof.
  unfold destroy_events.
  destruct (is_null (TextureInfo.image_view t));
  destruct (is_null (TextureInfo.image t)); split; reflexivity.
Qed.

Lemma slot_eqb_refl i : slot_eqb i i = true.
Proof. destruct i; reflexivity. Qed.

Lemma slot_eqb_neq i j : i <> j -> slot_eqb i j = false.
Proof.
  destruct i, j; intros H; try reflexivity; exfalso; apply H; reflexivity.
Qed.

Lemma slot_eqb_eq i j : slot_eqb i j = true -> i = j.
Proof. destruct i, j; intros H; try reflexivity; discriminate H. Qed.

(** The colour [LoadColorToActiveVkTexture] clears to. *)
Definition fill_color (c : ColorFill.t) : Color :=
  (F32.of_u32 (u8 (ColorFill.color_r c)) /f F32.c255,
   F32.of_u32 (u8 (ColorFill.color_g c)) /f F32.c255,
   F32.of_u32 (u8 (ColorFill.color_b c)) /f F32.c255,
   F32.one).

Definition clear_events (image : Handle) (c : ColorFill.t) : list Event :=
  [EvEndRendering; EvRecord (CmdClearColorImage image (fill_color c))].

Lemma PrepareSlot_filled i r :
  ColorFill.is_enabled (fill_of i (guest r)) = true ->
  PrepareSlot i r
  = Done tt
      (set_trace
         (trace r
          ++ clear_events (TextureInfo.image (texture_of i r))
                          (fill_of i (guest r))) r).
Proof.
  unfold PrepareSlot, fill_of, bind, gets. cbn. intros ->.
  destruct r; cbn. unfold emit, modify. cbn.
  rewrite <- app_assoc. reflexivity.
Qed.

(** The renderer between the reallocation step and the load step of the
    loop body, and the events of the reallocation step. *)
Definition configure_step (i : Slot) (r : Renderer) : Outcome unit :=
  when (texture_differs (texture_of i r) (descriptor_of i (guest r)))
       (ConfigureFramebufferTexture i (descriptor_of i (guest r))) r.

Lemma PrepareSlot_unfilled i r :
  ColorFill.is_enabled (fill_of i (guest r)) = false ->
  PrepareSlot i r
  = match configure_step i r with
    | Fatal f r1 => Fatal f r1
    | Done _ r1 =>
        match LoadFBToScreenInfo (descriptor_of i (guest r)) i
                (slot_eqb i Slot1) r1 with
        | Fatal f r2 => Fatal f r2
        | Done _ r2 =>
            Done tt
              (set_texture i
                 (TextureInfo.mk
                    (FramebufferConfig.width (descriptor_of i (guest r)))
                    (FramebufferConfig.height (descriptor_of i (guest r)))
                    (TextureInfo.format (texture_of i r2))
                    (TextureInfo.image (texture_of i r2))
                    (TextureInfo.image_view (texture_of i r2))
                    (TextureInfo.allocation (texture_of i r2))) r2)
        end
    end.
Proof.
  unfold PrepareSlot, configure_step, fill_of, descriptor_of, bind, gets.
  intros H. rewrite H.
  destruct (when _ _ r) as [[] r1|f r1]; [|reflexivity].
  destruct (LoadFBToScreenInfo _ _ _ r1) as [[] r2|f r2]; reflexivity.
Qed.

(** What a finished reallocation step has done. *)
Lemma configure_step_done i r r1 :
  configure_step i r = Done tt r1 ->
  guest r1 = guest r /\ host r1 = host r /\
  (forall j, j <> i -> screen_info j r1 = screen_info j r) /\
  texture_dims (texture_of i r1) = descriptor_dims (descriptor_of i (guest r))
  /\ exists es,
      trace r1 = trace r ++ es
      /\ reallocated i es
         = texture_differs (texture_of i r) (descriptor_of i (guest r))
      /\ (forall j, guest_read j es = false)
      /\ (forall j, j <> i -> reallocated j es = false).
Proof.
  unfold configure_step, when.
  destruct (texture_differs _ _) eqn:D.
  - rewrite ConfigureFramebufferTexture_run. cbv zeta.
    destruct (Host.vmaCreateImage _ _ _ _ _) as [[image allocation]|];
      [|discriminate].
    intros E. injection E as <-.
    split; [destruct r; reflexivity|].
    split; [destruct r; reflexivity|].
    split.
    { intros j Hj. destruct r, i, j; try reflexivity;
        exfalso; apply Hj; reflexivity. }
    split; [destruct r, i; reflexivity|].
    exists (destroy_events (texture_of i r)
            ++ [EvCreateImage i
                  (FramebufferConfig.width (descriptor_of i (guest r)))
                  (FramebufferConfig.height (descriptor_of i (guest r)))
                  (FramebufferConfig.color_format (descriptor_of i (guest r)));
                EvCreateImageView image]).
    split.
    { unfold asked_image. destruct r, i; cbn; rewrite <- !app_assoc;
        reflexivity. }
    split.
    { rewrite reallocated_app.
      rewrite (proj1 (destroy_events_quiet i _)). cbn.
      rewrite slot_eqb_refl. reflexivity. }
    split.
    { intros j. rewrite guest_read_app.
      rewrite (proj2 (destroy_events_quiet j _)). reflexivity. }
    intros j Hj. rewrite reallocated_app.
    rewrite (proj1 (destroy_events_quiet j _)). cbn.
    rewrite slot_eqb_neq by exact Hj. reflexivity.
  - intros E. injection E as <-.
    split; [reflexivity|]. split; [reflexivity|].
    split; [reflexivity|].
    split; [apply texture_same_iff; exact D|].
    exists []. rewrite app_nil_r.
    split; [reflexivity|]. split; [reflexivity|].
    split; reflexivity.
Qed.

(** The events of a reallocation step, finished or not, concern slot [i]
    only and read no guest memory. *)
Lemma configure_step_trace i r :
  exists es,
    trace (final (configure_step i r)) = trace r ++ es
    /\ (forall j, guest_read j es = false)
    /\ (forall j, j <> i -> reallocated j es = false).
Proof.
  unfold configure_step, when.
  destruct (texture_differs _ _).
  - rewrite ConfigureFramebufferTexture_run. cbv zeta.
    set (fb := descriptor_of i (guest r)).
    set (create := EvCreateImage i (FramebufferConfig.width fb)
                     (FramebufferConfig.height fb)
                     (FramebufferConfig.color_format fb)).
    assert (Q : forall last,
               (forall j, guest_read_of j last = false) ->
               (forall j, realloc_of j last = false) ->
               (forall j, guest_read j (destroy_events (texture_of i r)
                                        ++ [create; last]) = false)
               /\ (forall j, j <> i ->
                   reallocated j (destroy_events (texture_of i r)
                                  ++ [create; last]) = false)).
    { intros last G R. split.
      - intros j. rewrite guest_read_app.
        rewrite (proj2 (destroy_events_quiet j _)). cbn. rewrite G.
        reflexivity.
      - intros j Hj. rewrite reallocated_app.
        rewrite (proj1 (destroy_events_quiet j _)). cbn.
        rewrite slot_eqb_neq, R by exact Hj. reflexivity. }
    destruct (Host.vmaCreateImage _ _ _ _ _) as [[image allocation]|].
    + exists (destroy_events (texture_of i r)
              ++ [create; EvCreateImageView image]).
      split; [|apply Q; reflexivity].
      unfold asked_image. fold create.
      destruct r, i; cbn; rewrite <- !app_assoc; reflexivity.
    + exists (destroy_events (texture_of i r) ++ [create; EvLogCritical]).
      split; [|apply Q; reflexivity].
      unfold asked_image. fold create.
      destruct r, i; cbn; rewrite <- !app_assoc; reflexivity.
  - exists []. cbn. rewrite app_nil_r.
    split; [reflexivity|]. split; reflexivity.
Qed.

(** The load step: its events, finished or not, and what it leaves of the
    renderer when it returns. *)
Lemma load_step_trace framebuffer i right_eye r :
  exists es,
    trace (final (LoadFBToScreenInfo framebuffer i right_eye r))
    = trace r ++ es
    /\ (forall j, reallocated j es = false)
    /\ (forall j, j <> i -> guest_read j es = false).
Proof.
  rewrite LoadFBToScreenInfo_run.
  destruct (stride_ok _ _).
  - exists [accelerate_event framebuffer i right_eye r].
    split.
    + cbv zeta. destruct (accelerated _ _ _ _) as [[view coords]|];
        destruct r, i; reflexivity.
    + split; [reflexivity|]. intros j Hj. cbn.
      rewrite slot_eqb_neq by exact Hj. reflexivity.
  - exists []. cbn. rewrite app_nil_r.
    split; [reflexivity|]. split; reflexivity.
Qed.

Lemma load_step_done framebuffer i right_eye r r2 :
  LoadFBToScreenInfo framebuffer i right_eye r = Done tt r2 ->
  guest r2 = guest r /\ host r2 = host r /\
  (forall j, j <> i -> screen_info j r2 = screen_info j r) /\
  texture_of i r2 = texture_of i r.
Proof.
  rewrite LoadFBToScreenInfo_run.
  destruct (stride_ok _ _); [|discriminate]. cbv zeta.
  destruct (accelerated _ _ _ _) as [[view coords]|]; [|discriminate].
  intros E. injection E as <-.
  split; [destruct r; reflexivity|].
  split; [destruct r; reflexivity|].
  split; [|destruct r, i; reflexivity].
  intros j Hj. destruct r, i, j; try reflexivity;
    exfalso; apply Hj; reflexivity.
Qed.

(** One iteration of the loop of [PrepareRendertarget]. *)
Lemma PrepareSlot_trace i r :
  exists es,
    trace (final (PrepareSlot i r)) = trace r ++ es
    /\ (forall j, j <> i -> reallocated j es = false)
    /\ (forall j, j <> i -> guest_read j es = false)
    /\ (ColorFill.is_enabled (fill_of i (guest r)) = true ->
        es = clear_events (TextureInfo.image (texture_of i r))
                          (fill_of i (guest r))).
Proof.
  destruct (ColorFill.is_enabled (fill_of i (guest r))) eqn:F.
  - rewrite PrepareSlot_filled by exact F.
    eexists. split; [destruct r; reflexivity|].
    split; [reflexivity|]. split; reflexivity.
  - rewrite PrepareSlot_unfilled by exact F.
    destruct (configure_step_trace i r) as (es1 & T1 & G1 & R1).
    destruct (configure_step i r) as [[] r1|f r1]; cbn in T1.
    + destruct (load_step_trace (descriptor_of i (guest r)) i
                  (slot_eqb i Slot1) r1) as (es2 & T2 & R2 & G2).
      destruct (LoadFBToScreenInfo _ _ _ r1) as [[] r2|f r2]; cbn in T2;
        exists (es1 ++ es2);
        (split; [cbn; rewrite app_assoc, <- T1;
                 first [exact T2 | destruct r2; exact T2]|]);
        (split; [intros j Hj; rewrite reallocated_app, R1, R2 by exact Hj;
                 reflexivity|]);
        (split; [intros j Hj; rewrite guest_read_app, G1, G2 by exact Hj;
                 reflexivity|]); discriminate.
    + exists es1. split; [exact T1|].
      split; [exact R1|]. split; [intros j _; apply G1|discriminate].
Qed.

Lemma PrepareSlot_done i r r' :
  PrepareSlot i r = Done tt r' ->
  guest r' = guest r /\ host r' = host r /\
  (forall j, j <> i -> screen_info j r' = screen_info j r) /\
  if ColorFill.is_enabled (fill_of i (guest r)) then
    screen_info i r' = screen_info i r
    /\ reallocated i (emitted (PrepareSlot i) r) = false
    /\ guest_read i (emitted (PrepareSlot i) r) = false
  else
    texture_dims (texture_of i r')
    = descriptor_dims (descriptor_of i (guest r))
    /\ reallocated i (emitted (PrepareSlot i) r)
       = texture_differs (texture_of i r) (descriptor_of i (guest r)).
Proof.
  intros E.
  destruct (ColorFill.is_enabled (fill_of i (guest r))) eqn:F.
  - unfold emitted. rewrite E. cbn.
    rewrite PrepareSlot_filled in E by exact F. injection E as <-.
    cbn. rewrite skipn_length_app.
    split; [destruct r; reflexivity|].
    split; [destruct r; reflexivity|].
    split; [intros j _; destruct r; reflexivity|].
    split; [destruct r; reflexivity|]. split; reflexivity.
  - unfold emitted. rewrite E. cbn.
    rewrite PrepareSlot_unfilled in E by exact F.
    destruct (configure_step i r) as [[] r1|f r1] eqn:C; [|discriminate].
    destruct (LoadFBToScreenInfo _ _ _ r1) as [[] r2|f r2] eqn:L;
      [|discriminate].
    injection E as <-.
    destruct (configure_step_done i r r1 C)
      as (G1 & H1 & S1 & D1 & es1 & T1 & R1 & Q1 & _).
    destruct (load_step_done _ _ _ _ _ L) as (G2 & H2 & S2 & X2).
    destruct (load_step_trace (descriptor_of i (guest r)) i
                (slot_eqb i Slot1) r1) as (es2 & T2 & R2 & _).
    rewrite L in T2. cbn in T2.
    split; [destruct r2; cbn in *; congruence|].
    split; [destruct r2; cbn in *; congruence|].
    split.
    { intros j Hj. rewrite <- S1, <- S2 by exact Hj.
      destruct r2, i, j; try reflexivity; exfalso; apply Hj; reflexivity. }
    split.
    { unfold texture_dims, descriptor_dims in *.
      rewrite X2 in *. injection D1 as _ _ D1.
      destruct r2, i; cbn in *; rewrite D1; reflexivity. }
    assert (T : trace (set_texture i
                  (TextureInfo.mk
                     (FramebufferConfig.width (descriptor_of i (guest r)))
                     (FramebufferConfig.height (descriptor_of i (guest r)))
                     (TextureInfo.format (texture_of i r2))
                     (TextureInfo.image (texture_of i r2))
                     (TextureInfo.image_view (texture_of i r2))
                     (TextureInfo.allocation (texture_of i r2))) r2)
                = trace r ++ es1 ++ es2).
    { rewrite app_assoc, <- T1, <- T2. destruct r2; reflexivity. }
    rewrite T, skipn_length_app, reallocated_app, R1, R2.
    apply orb_false_r.
Qed.

(** A finished [PrepareRendertarget] has run the three iterations in turn. *)
Lemma PrepareRendertarget_done r r' :
  PrepareRendertarget r = Done tt r' ->
  exists r1 r2,
    PrepareSlot Slot0 r = Done tt r1
    /\ PrepareSlot Slot1 r1 = Done tt r2
    /\ PrepareSlot Slot2 r2 = Done tt r'
    /\ emitted PrepareRendertarget r
       = emitted (PrepareSlot Slot0) r ++ emitted (PrepareSlot Slot1) r1
         ++ emitted (PrepareSlot Slot2) r2.
Proof.
  unfold PrepareRendertarget, bind. intros E.
  destruct (PrepareSlot_trace Slot0 r) as (es0 & T0 & _).
  destruct (PrepareSlot Slot0 r) as [[] r1|f r1] eqn:E0; [|discriminate].
  destruct (PrepareSlot_trace Slot1 r1) as (es1 & T1 & _).
  destruct (PrepareSlot Slot1 r1) as [[] r2|f r2] eqn:E1; [|discriminate].
  destruct (PrepareSlot_trace Slot2 r2) as (es2 & T2 & _).
  exists r1, r2.
  split; [reflexivity|]. split; [exact E1|]. split; [exact E|].
  rewrite E in T2. cbn in T0, T1, T2.
  rewrite (emitted_of_trace (PrepareSlot Slot1) r1 es1)
    by (rewrite E1; exact T1).
  rewrite (emitted_of_trace (PrepareSlot Slot2) r2 es2)
    by (rewrite E; exact T2).
  rewrite (emitted_of_trace (PrepareSlot Slot0) r es0)
    by (rewrite E0; exact T0).
  apply emitted_of_trace.
  unfold PrepareRendertarget, bind. rewrite E0, E1, E. cbn.
  rewrite T2, T1, T0, <- !app_assoc. reflexivity.
Qed.

(** The dimensions and format slot [i] holds after the calls that read the
    guest registers [gs] in turn, when it held [d] before them: those of the
    descriptor of the last call in which the slot's colour fill was off. *)
Fixpoint observed (i : Slot) (gs : list Guest.t) (d : Z * Z * PixelFormat)
  : Z * Z * PixelFormat :=
  match gs with
  | [] => d
  | g :: gs' =>
      observed i gs'
        (if ColorFill.is_enabled (fill_of i g) then d
         else descriptor_dims (descriptor_of i g))
  end.

(** One finished call. *)
Lemma PrepareRendertarget_textures r r' :
  PrepareRendertarget r = Done tt r' ->
  guest r' = guest r /\ host r' = host r /\
  forall i,
    if ColorFill.is_enabled (fill_of i (guest r)) then
      texture_of i r' = texture_of i r
      /\ reallocated i (emitted PrepareRendertarget r) = false
    else
      texture_dims (texture_of i r')
      = descriptor_dims (descriptor_of i (guest r))
      /\ reallocated i (emitted PrepareRendertarget r)
         = texture_differs (texture_of i r) (descriptor_of i (guest r)).
Proof.
  intros E.
  destruct (PrepareRendertarget_done r r' E) as (r1 & r2 & E0 & E1 & E2 & Es).
  destruct (PrepareSlot_done _ _ _ E0) as (G0 & H0 & S0 & P0).
  destruct (PrepareSlot_done _ _ _ E1) as (G1 & H1 & S1 & P1).
  destruct (PrepareSlot_done _ _ _ E2) as (G2 & H2 & S2 & P2).
  destruct (PrepareSlot_trace Slot0 r) as (es0 & T0 & R0 & _).
  destruct (PrepareSlot_trace Slot1 r1) as (es1 & T1 & R1 & _).
  destruct (PrepareSlot_trace Slot2 r2) as (es2 & T2 & R2 & _).
  apply emitted_of_trace in T0, T1, T2.
  rewrite T0 in *. rewrite T1 in *. rewrite T2 in *.
  rewrite G1, G0 in P2. rewrite G0 in P1.
  split; [congruence|]. split; [congruence|].
  intros i. rewrite Es, !reallocated_app.
  unfold texture_of in *.
  destruct i.
  - rewrite (R1 Slot0), (R2 Slot0), !orb_false_r by discriminate.
    rewrite (S2 Slot0), (S1 Slot0) by discriminate.
    destruct (ColorFill.is_enabled (fill_of Slot0 (guest r)));
      [destruct P0 as (A & B & _); rewrite A; split; [reflexivity|exact B]
      |exact P0].
  - rewrite (R0 Slot1), (R2 Slot1), orb_false_r, orb_false_l by discriminate.
    rewrite (S2 Slot1) by discriminate.
    rewrite (S0 Slot1) in P1 by discriminate.
    destruct (ColorFill.is_enabled (fill_of Slot1 (guest r)));
      [destruct P1 as (A & B & _); rewrite A; split; [reflexivity|exact B]
      |exact P1].
  - rewrite (R0 Slot2), (R1 Slot2), !orb_false_l by discriminate.
    rewrite (S1 Slot2), (S0 Slot2) in P2 by discriminate.
    destruct (ColorFill.is_enabled (fill_of Slot2 (guest r)));
      [destruct P2 as (A & B & _); rewrite A; split; [reflexivity|exact B]
      |exact P2].
Qed.

Lemma texture_of_set_guest i g r :
  texture_of i (set_guest g r) = texture_of i r.
Proof. destruct r; reflexivity. Qed.

Lemma PrepareRendertargets_observed gs :
  forall r r', PrepareRendertargets gs r = Done tt r' ->
  forall i,
    texture_dims (texture_of i r')
    = observed i gs (texture_dims (texture_of i r)).
Proof.
  induction gs as [|g gs IH]; intros r r' E i.
  - injection E as <-. reflexivity.
  - cbn [PrepareRendertargets] in E. unfold bind, modify in E.
    destruct (PrepareRendertarget (set_guest g r)) as [[] r1|f r1] eqn:E1;
      [|discriminate].
    rewrite (IH _ _ E i). cbn [observed]. f_equal.
    destruct (PrepareRendertarget_textures _ _ E1) as (_ & _ & P).
    specialize (P i). rewrite texture_of_set_guest in P.
    replace (guest (set_guest g r)) with g in P by (destruct r; reflexivity).
    destruct (ColorFill.is_enabled (fill_of i g)).
    + destruct P as [P _]. rewrite P. reflexivity.
    + destruct P as [P _]. exact P.
Qed.

Lemma observed_app i gs g d :
  observed i (gs ++ [g]) d
  = if ColorFill.is_enabled (fill_of i g) then observed i gs d
    else descriptor_dims (descriptor_of i g).
Proof.
  revert d. induction gs as [|g' gs IH]; intros d; cbn; auto.
Qed.

(** C1, amended.  Take any sequence of [PrepareRendertarget] calls that
    return, and one more call that returns.  Before that call every slot
    holds the dimensions and format of the descriptor of the last call in
    which its colour fill was off (its initial ones if there was none), and
    so it does after it.  In that call, a slot whose colour fill is on keeps
    its texture and is not reallocated, whatever the descriptor says; a slot
    whose colour fill is off ends with the width, height and format of the
    descriptor read in the call, and is reallocated if and only if one of
    the three differed from the descriptor. *)
Theorem PrepareRendertargets_track_descriptors
    (gs : list Guest.t) (g : Guest.t) (r r1 r2 : Renderer) :
  PrepareRendertargets gs r = Done tt r1 ->
  PrepareRendertarget (set_guest g r1) = Done tt r2 ->
  forall i : Slot,
    let es := emitted PrepareRendertarget (set_guest g r1) in
    texture_dims (texture_of i r1)
    = observed i gs (texture_dims (texture_of i r)) /\
    texture_dims (texture_of i r2)
    = observed i (gs ++ [g]) (texture_dims (texture_of i r)) /\
    if ColorFill.is_enabled (fill_of i g) then
      texture_of i r2 = texture_of i r1 /\ reallocated i es = false
    else
      texture_dims (texture_of i r2) = descriptor_dims (descriptor_of i g) /\
      (reallocated i es = true
       <-> texture_dims (texture_of i r1)
           <> descriptor_dims (descriptor_of i g)).
Proof.
  intros E1 E2 i es.
  pose proof (PrepareRendertargets_observed gs r r1 E1 i) as O1.
  destruct (PrepareRendertarget_textures _ _ E2) as (_ & _ & P).
  specialize (P i). rewrite texture_of_set_guest in P.
  replace (guest (set_guest g r1)) with g in P by (destruct r1; reflexivity).
  fold es in P.
  split; [exact O1|]. rewrite observed_app.
  destruct (ColorFill.is_enabled (fill_of i g)).
  - destruct P as [P Q]. split; [rewrite P; exact O1|]. split; assumption.
  - destruct P as [P Q]. split; [exact P|]. split; [exact P|].
    rewrite Q. apply texture_differs_iff.
Qed.

Lemma PrepareRendertargets_track_descriptors_witness :
  let gs := [Sample.guest_filled; Sample.guest] in
  let g := Sample.guest_filled in
  let r1 := final (PrepareRendertargets gs Sample.renderer) in
  let r2 := final (PrepareRendertarget (set_guest g r1)) in
  let es := emitted PrepareRendertarget (set_guest g r1) in
  PrepareRendertargets gs Sample.renderer = Done tt r1 /\
  PrepareRendertarget (set_guest g r1) = Done tt r2 /\
  forall i : Slot,
    texture_dims (texture_of i r1)
    = observed i gs (texture_dims (texture_of i Sample.renderer)) /\
    texture_dims (texture_of i r2)
    = observed i (gs ++ [g]) (texture_dims (texture_of i Sample.renderer)) /\
    if ColorFill.is_enabled (fill_of i g) then
      texture_of i r2 = texture_of i r1 /\ reallocated i es = false
    else
      texture_dims (texture_of i r2) = descriptor_dims (descriptor_of i g) /\
      (reallocated i es = true
       <-> texture_dims (texture_of i r1)
           <> descriptor_dims (descriptor_of i g)).
Proof.
  cbv zeta.
  assert (E1 : PrepareRendertargets [Sample.guest_filled; Sample.guest]
                 Sample.renderer
               = Done tt (final (PrepareRendertargets
                                   [Sample.guest_filled; Sample.guest]
                                   Sample.renderer)))
    by (vm_compute; reflexivity).
  assert (E2 : PrepareRendertarget
                 (set_guest Sample.guest_filled
                    (final (PrepareRendertargets
                              [Sample.guest_filled; Sample.guest]
                              Sample.renderer)))
               = Done tt
                   (final (PrepareRendertarget
                      (set_guest Sample.guest_filled
                         (final (PrepareRendertargets
                                   [Sample.guest_filled; Sample.guest]
                                   Sample.renderer))))))
    by (vm_compute; reflexivity).
  split; [exact E1|]. split; [exact E2|].
  exact (PrepareRendertargets_track_descriptors _ _ _ _ _ E1 E2).
Defined.

(** C1 as stated: after a call that returns, every slot holds the
    dimensions and format of the descriptor read in the call, and was
    reallocated in it exactly when they differed before. *)
Definition tracks_descriptor (r : Renderer) : Prop :=
  forall r', PrepareRendertarget r = Done tt r' ->
  forall i : Slot,
    texture_dims (texture_of i r')
    = descriptor_dims (descriptor_of i (guest r)) /\
    (reallocated i (emitted PrepareRendertarget r) = true
     <-> texture_dims (texture_of i r)
         <> descriptor_dims (descriptor_of i (guest r))).

(** It fails when the colour fill is on: the first call on the fresh sample
    renderer, both fills on, returns with the textures still 0 by 0 while
    the descriptor of the top screen says 240 by 400. *)
Lemma color_fill_leaves_texture_behind_descriptor :
  ~ tracks_descriptor (set_guest Sample.guest_filled Sample.renderer).
Proof.
  intros H.
  assert (E : PrepareRendertarget
                (set_guest Sample.guest_filled Sample.renderer)
              = Done tt
                  (final (PrepareRendertarget
                            (set_guest Sample.guest_filled Sample.renderer))))
    by (vm_compute; reflexivity).
  destruct (H _ E Slot0) as [D _].
  vm_compute in D. discriminate D.
Qed.

(** ** Colour fill *)





(** The sample renderer once its three textures are allocated, the guest
    then switching both colour fills to red: the call returns, and the
    iteration for the bottom screen clears image 1007, the one allocated
    for it, to (1, 0, 0, 1), the last two events of the call. *)
Definition filled_renderer : Renderer :=
  set_guest Sample.guest_filled (final (PrepareRendertarget Sample.renderer)).


Example PrepareRendertarget_color_fill_sample :
  emitted PrepareRendertarget filled_renderer
  = [EvEndRendering;
     EvRecord (CmdClearColorImage 1001
                 (F32.of_u32 1, F32.zero, F32.zero, F32.of_u32 1));
     EvEndRendering;
     EvRecord (CmdClearColorImage 1004
                 (F32.of_u32 1, F32.zero, F32.zero, F32.of_u32 1));
     EvEndRendering;
     EvRecord (CmdClearColorImage 1007
                 (F32.of_u32 1, F32.zero, F32.zero, F32.of_u32 1))].
Proof. vm_compute. reflexivity. Qed.

(** ** Composition never fails and only records *)

(** The events of composing a frame: descriptor acquisition, closing the
    render pass, recording into the command buffer, vertex uploads and the
    error log. *)
Definition composition_event (e : Event) : bool :=
  match e with
  | EvAcquire _ | EvEndRendering | EvRecord _ | EvVertexUpload _ _
  | EvLogError => true
  | _ => false
  end.

(** A command that always returns, only appends composition events, and
    leaves the host and the screenshot request alone. *)
Definition composes {A} (c : Cmd A) : Prop :=
  forall r, exists a r' es,
    c r = Done a r'
    /\ trace r' = trace r ++ es
    /\ forallb composition_event es = true
    /\ host r' = host r
    /\ RendererSettings.screenshot_requested (settings r')
       = RendererSettings.screenshot_requested (settings r).

Lemma composes_ret {A} (a : A) : composes (ret a).
Proof.
  intros r. exists a, r, []. rewrite app_nil_r. repeat split.
Qed.

Lemma composes_bind {A B} (c : Cmd A) (k : A -> Cmd B) :
  composes c -> (forall a, composes (k a)) -> composes (bind c k).
Proof.
  intros Hc Hk r.
  destruct (Hc r) as (a & r1 & es1 & E1 & T1 & F1 & H1 & S1).
  destruct (Hk a r1) as (b & r2 & es2 & E2 & T2 & F2 & H2 & S2).
  exists b, r2, (es1 ++ es2). unfold bind. rewrite E1, E2.
  split; [reflexivity|].
  split; [rewrite T2, T1, app_assoc; reflexivity|].
  split; [rewrite forallb_app, F1, F2; reflexivity|].
  split; congruence.
Qed.

Lemma composes_gets {A} (f : Renderer -> A) : composes (gets f).
Proof.
  intros r. exists (f r), r, []. rewrite app_nil_r. repeat split.
Qed.

(** A state change that touches neither the trace, the host nor the
    screenshot request. *)
Definition inner (f : Renderer -> Renderer) : Prop :=
  forall r, trace (f r) = trace r /\ host (f r) = host r
            /\ RendererSettings.screenshot_requested (settings (f r))
               = RendererSettings.screenshot_requested (settings r).

Lemma composes_modify f : inner f -> composes (modify f).
Proof.
  intros H r. destruct (H r) as (T & Hh & S).
  exists tt, (f r), []. rewrite app_nil_r. repeat split; assumption.
Qed.

Lemma composes_emit e : composition_event e = true -> composes (emit e).
Proof.
  intros H r. exists tt, (set_trace (trace r ++ [e]) r), [e].
  cbn. rewrite H. destruct r. repeat split.
Qed.

Lemma composes_when b c : composes c -> composes (when b c).
Proof. destruct b; intros H; [exact H | apply composes_ret]. Qed.

Lemma inner_draw_info f :
  inner (fun r => set_draw_info (f r) r).
Proof. intros r. destruct r. repeat split. Qed.

Lemma inner_vertex_offset f :
  inner (fun r => set_vertex_offset (f r) r).
Proof. intros r. destruct r. repeat split. Qed.

Lemma inner_current_pipeline z : inner (set_current_pipeline z).
Proof. intros r. destruct r. repeat split. Qed.

Lemma inner_update_clear_color : inner update_clear_color.
Proof.
  intros r. destruct r as [g h v st scr di cp cc ps vo tr].
  destruct cc as [[[a b] c] d]. repeat split.
Qed.

Lemma inner_set_vertex_offset z : inner (set_vertex_offset z).
Proof. intros r. destruct r. repeat split. Qed.

Create HintDb composition.
#[local] Hint Resolve inner_draw_info inner_vertex_offset
  inner_set_vertex_offset inner_current_pipeline inner_update_clear_color
  : composition.

Ltac compose_step :=
  lazymatch goal with
  | |- composes (ret _) => apply composes_ret
  | |- composes (gets _) => apply composes_gets
  | |- composes (when _ _) => apply composes_when
  | |- composes (emit _) => apply composes_emit; reflexivity
  | |- composes (modify _) =>
      apply composes_modify; solve [auto with composition]
  | |- composes (bind _ _) => apply composes_bind; [|intros ?]
  | |- composes (if ?b then _ else _) => destruct b
  end.

Ltac compose := repeat compose_step.

Lemma composes_ReloadPipeline : composes ReloadPipeline.
Proof.
  unfold ReloadPipeline. apply composes_bind; [compose|].
  intros []; compose.
Qed.

Lemma composes_DrawSingleScreen screen_id x y w h o :
  composes (DrawSingleScreen screen_id x y w h o).
Proof.
  unfold DrawSingleScreen. apply composes_bind; [compose|]. intros si.
  destruct (orient _ x y w h o) as [[vs w'] h'].
  unfold upload_vertices, vertex_buffer_Map, vertex_buffer_Commit,
    record_draw.
  compose.
Qed.

Lemma composes_DrawSingleScreenStereo id_l id_r x y w h o :
  composes (DrawSingleScreenStereo id_l id_r x y w h o).
Proof.
  unfold DrawSingleScreenStereo. apply composes_bind; [compose|]. intros si.
  destruct (orient _ x y w h o) as [[vs w'] h'].
  unfold upload_vertices, vertex_buffer_Map, vertex_buffer_Commit,
    record_draw.
  compose.
Qed.

Lemma composes_set_layer z : composes (set_layer z).
Proof. unfold set_layer. compose. Qed.

Lemma composes_DrawTopScreen layout rect : composes (DrawTopScreen layout rect).
Proof.
  unfold DrawTopScreen.
  destruct (negb _); [apply composes_ret|].
  apply composes_bind; [compose|]. intros h.
  apply composes_bind; [compose|]. intros v.
  destruct (Values.render_3d v);
    repeat lazymatch goal with
           | |- composes (DrawSingleScreen _ _ _ _ _ _) =>
               apply composes_DrawSingleScreen
           | |- composes (DrawSingleScreenStereo _ _ _ _ _ _ _) =>
               apply composes_DrawSingleScreenStereo
           | |- composes (set_layer _) => apply composes_set_layer
           | |- composes (bind _ _) => apply composes_bind; [|intros ?]
           end.
Qed.

Lemma composes_DrawBottomScreen layout rect :
  composes (DrawBottomScreen layout rect).
Proof.
  unfold DrawBottomScreen.
  destruct (negb _); [apply composes_ret|].
  apply composes_bind; [compose|]. intros h.
  apply composes_bind; [compose|]. intros v.
  destruct (Values.render_3d v);
    repeat lazymatch goal with
           | |- composes (DrawSingleScreen _ _ _ _ _ _) =>
               apply composes_DrawSingleScreen
           | |- composes (DrawSingleScreenStereo _ _ _ _ _ _ _) =>
               apply composes_DrawSingleScreenStereo
           | |- composes (set_layer _) => apply composes_set_layer
           | |- composes (bind _ _) => apply composes_bind; [|intros ?]
           end.
Qed.

Lemma inner_settings_other f :
  (forall st, RendererSettings.screenshot_requested (f st)
              = RendererSettings.screenshot_requested st) ->
  inner (fun r => set_settings (f (settings r)) r).
Proof. intros H r. destruct r. cbn. repeat split. apply H. Qed.

Lemma composes_PrepareDraw frame layout : composes (PrepareDraw frame layout).
Proof. unfold PrepareDraw. compose. Qed.

Lemma composes_exchange_bg : composes exchange_bg_color_update_requested.
Proof.
  unfold exchange_bg_color_update_requested.
  apply composes_bind; [compose|]. intros b.
  apply composes_bind; [|intros; compose].
  apply composes_modify. apply inner_settings_other. reflexivity.
Qed.

Lemma composes_exchange_shader : composes exchange_shader_update_requested.
Proof.
  unfold exchange_shader_update_requested.
  apply composes_bind; [compose|]. intros b.
  apply composes_bind; [|intros; compose].
  apply composes_modify. apply inner_settings_other. reflexivity.
Qed.

Lemma composes_DrawScreens frame layout flipped :
  composes (DrawScreens frame layout flipped).
Proof.
  unfold DrawScreens.
  repeat lazymatch goal with
         | |- composes exchange_bg_color_update_requested =>
             apply composes_exchange_bg
         | |- composes exchange_shader_update_requested =>
             apply composes_exchange_shader
         | |- composes ReloadPipeline => apply composes_ReloadPipeline
         | |- composes (PrepareDraw _ _) => apply composes_PrepareDraw
         | |- composes (set_layer _) => apply composes_set_layer
         | |- composes (DrawTopScreen _ _) => apply composes_DrawTopScreen
         | |- composes (DrawBottomScreen _ _) =>
             apply composes_DrawBottomScreen
         | |- _ => compose_step
         end.
Qed.

(** ** Presenting to a window *)

(** The frame [RecreateFrame] leaves. *)
Definition recreated_frame (h : Host.t) (t : nat) (frame : Frame.t)
    (width height : Z) : Frame.t :=
  let '(image, allocation, image_view, framebuffer) :=
    Host.frame_resources h t width height in
  Frame.mk width height image allocation image_view framebuffer
           (Frame.render_ready frame).

Lemma RecreateFrame_run w frame width height r :
  RecreateFrame w frame width height r
  = Done (recreated_frame (host r)
            (length (trace r ++ [EvRecreateFrame w frame width height]))
            frame width height)
         (set_trace (trace r ++ [EvRecreateFrame w frame width height]) r).
Proof.
  unfold RecreateFrame, recreated_frame, bind, gets, emit, modify, ret, now.
  destruct r as [g h v s si d p c ps vo tr]. cbn.
  destruct (Host.frame_resources _ _ _ _) as [[[a b] c'] d'].
  reflexivity.
Qed.

Definition is_recreate (e : Event) : bool :=
  match e with EvRecreateFrame _ _ _ _ => true | _ => false end.

Lemma composition_has_no_recreate es :
  forallb composition_event es = true -> existsb is_recreate es = false.
Proof.
  induction es as [|e es IH]; cbn; [reflexivity|].
  intros H. apply andb_true_iff in H as [He Hes].
  rewrite (IH Hes). destruct e; try discriminate He; reflexivity.
Qed.

Lemma no_recreate_split es pre post w f a b :
  existsb is_recreate es = false ->
  es <> pre ++ EvRecreateFrame w f a b :: post.
Proof.
  intros H E. rewrite E, existsb_app in H. cbn in H.
  rewrite orb_true_r in H. discriminate H.
Qed.

(** The frame is resized when the layout does not have its dimensions. *)
Definition needs_resize (layout : FramebufferLayout.t) (frame : Frame.t)
  : bool :=
  negb (FramebufferLayout.width layout =? Frame.width frame)
  || negb (FramebufferLayout.height layout =? Frame.height frame).

Lemma bind_done {A B} (c : Cmd A) (k : A -> Cmd B) r a r1 :
  c r = Done a r1 -> bind c k r = k a r1.
Proof. unfold bind. intros ->. reflexivity. Qed.

(** The step of [RenderToWindow] that takes the frame and resizes it. *)
Definition acquire_frame (window : PresentWindow.t)
    (layout : FramebufferLayout.t) : Cmd Frame.t :=
  let w := PresentWindow.id window in
  let frame := PresentWindow.render_frame window in
  emit (EvGetRenderFrame w) ;;
  if needs_resize layout frame
  then
    emit (EvWaitPresent w) ;;
    emit EvFinish ;;
    RecreateFrame w frame (FramebufferLayout.width layout)
                  (FramebufferLayout.height layout)
  else ret frame.

Definition resize_events (window : PresentWindow.t)
    (layout : FramebufferLayout.t) : list Event :=
  let w := PresentWindow.id window in
  let frame := PresentWindow.render_frame window in
  if needs_resize layout frame
  then [EvWaitPresent w; EvFinish;
        EvRecreateFrame w frame (FramebufferLayout.width layout)
                        (FramebufferLayout.height layout)]
  else [].

Definition acquired_frame (h : Host.t) (t : nat) (window : PresentWindow.t)
    (layout : FramebufferLayout.t) : Frame.t :=
  let frame := PresentWindow.render_frame window in
  if needs_resize layout frame
  then recreated_frame h t frame (FramebufferLayout.width layout)
                       (FramebufferLayout.height layout)
  else frame.

(** The trace once the frame has been taken. *)
Definition acquired_trace (window : PresentWindow.t)
    (layout : FramebufferLayout.t) (r : Renderer) : list Event :=
  trace r ++ EvGetRenderFrame (PresentWindow.id window)
             :: resize_events window layout.

Lemma acquire_frame_run window layout r :
  acquire_frame window layout r
  = Done (acquired_frame (host r) (length (acquired_trace window layout r))
            window layout)
         (set_trace (acquired_trace window layout r) r).
Proof.
  unfold acquire_frame, acquired_frame, acquired_trace, resize_events.
  destruct (needs_resize _ _).
  - unfold bind, emit, modify. rewrite RecreateFrame_run.
    destruct r; cbn. rewrite <- !app_assoc. reflexivity.
  - destruct r; reflexivity.
Qed.

Lemma RenderToWindow_unfold window layout flipped :
  RenderToWindow window layout flipped
  = (frame <- acquire_frame window layout ;;
     DrawScreens frame layout flipped ;;
     emit (EvFlush (Frame.render_ready frame)) ;;
     emit (EvPresent (PresentWindow.id window) frame) ;;
     ret (PresentWindow.mk (PresentWindow.id window) frame)).
Proof. reflexivity. Qed.

(** The events of [RenderToWindow]. *)
Lemma RenderToWindow_emitted window layout flipped r :
  let w := PresentWindow.id window in
  let frame' :=
    acquired_frame (host r) (length (acquired_trace window layout r))
      window layout in
  let r1 := set_trace (acquired_trace window layout r) r in
  emitted (RenderToWindow window layout flipped) r
  = EvGetRenderFrame w :: resize_events window layout
    ++ emitted (DrawScreens frame' layout flipped) r1
    ++ [EvFlush (Frame.render_ready frame'); EvPresent w frame']
  /\ completes (RenderToWindow window layout flipped r) = true.
Proof.
  cbv zeta. rewrite RenderToWindow_unfold.
  rewrite (bind_done _ _ _ _ _ (acquire_frame_run window layout r)).
  set (frame' := acquired_frame _ _ _ _). set (r1 := set_trace _ r).
  destruct (composes_DrawScreens frame' layout flipped r1)
    as ([] & r2 & es & E & T & _).
  rewrite (emitted_of_trace (DrawScreens frame' layout flipped) r1 es)
    by (rewrite E; exact T).
  assert (X : bind (acquire_frame window layout)
                (fun frame =>
                   DrawScreens frame layout flipped ;;
                   emit (EvFlush (Frame.render_ready frame)) ;;
                   emit (EvPresent (PresentWindow.id window) frame) ;;
                   ret (PresentWindow.mk (PresentWindow.id window) frame)) r
              = Done (PresentWindow.mk (PresentWindow.id window) frame')
                  (set_trace
                     (trace r2
                      ++ [EvFlush (Frame.render_ready frame');
                          EvPresent (PresentWindow.id window) frame']) r2)).
  { rewrite (bind_done _ _ _ _ _ (acquire_frame_run window layout r)).
    fold frame' r1. rewrite (bind_done _ _ _ _ _ E).
    destruct r2; cbn. unfold emit, modify. cbn.
    rewrite <- app_assoc. reflexivity. }
  rewrite (bind_done _ _ _ _ _ E).
  split.
  - apply emitted_of_trace. rewrite X. cbn. rewrite T.
    unfold r1, acquired_trace. destruct r, r2; cbn.
    rewrite <- !app_assoc. reflexivity.
  - destruct r2; reflexivity.
Qed.

Lemma needs_resize_iff layout frame :
  needs_resize layout frame = true
  <-> (FramebufferLayout.width layout <> Frame.width frame
       \/ FramebufferLayout.height layout <> Frame.height frame).
Proof.
  unfold needs_resize.
  destruct (Z.eqb_spec (FramebufferLayout.width layout) (Frame.width frame));
  destruct (Z.eqb_spec (FramebufferLayout.height layout) (Frame.height frame));
  cbn; split; intros H; try reflexivity; try discriminate H; auto.
  destruct H as [H|H]; contradiction.
Qed.

(** C5.  [RenderToWindow] always returns.  When the dimensions of the frame
    it acquires differ from those of the layout, its events start with
    taking the frame, [WaitPresent] on the window, the scheduler's [Finish]
    and then [RecreateFrame], and no other [RecreateFrame] follows; when
    they do not differ there is no [RecreateFrame] at all.  So wherever a
    [RecreateFrame] stands among the events of the call, the two events
    right before it are the [WaitPresent] on the same window and the
    [Finish]. *)
Theorem RenderToWindow_drains_before_recreate
    (window : PresentWindow.t) (layout : FramebufferLayout.t) (flipped : bool)
    (r : Renderer) :
  let w := PresentWindow.id window in
  let frame := PresentWindow.render_frame window in
  let width := FramebufferLayout.width layout in
  let height := FramebufferLayout.height layout in
  let es := emitted (RenderToWindow window layout flipped) r in
  completes (RenderToWindow window layout flipped r) = true /\
  (needs_resize layout frame = true
   <-> (width <> Frame.width frame \/ height <> Frame.height frame)) /\
  (if needs_resize layout frame
   then exists rest,
          es = [EvGetRenderFrame w; EvWaitPresent w; EvFinish;
                EvRecreateFrame w frame width height] ++ rest
          /\ existsb is_recreate rest = false
   else existsb is_recreate es = false) /\
  (forall pre post w' f' a b,
     es = pre ++ EvRecreateFrame w' f' a b :: post ->
     exists pre', pre = pre' ++ [EvWaitPresent w'; EvFinish]).
Proof.
  cbv zeta.
  destruct (RenderToWindow_emitted window layout flipped r) as [E C].
  cbv zeta in E.
  set (frame' := acquired_frame (host r) _ window layout) in *.
  set (r1 := set_trace _ r) in E.
  destruct (composes_DrawScreens frame' layout flipped r1)
    as ([] & r2 & ds & D & T & F & _).
  rewrite (emitted_of_trace (DrawScreens frame' layout flipped) r1 ds) in E
    by (rewrite D; exact T).
  assert (N : existsb is_recreate
                (ds ++ [EvFlush (Frame.render_ready frame');
                        EvPresent (PresentWindow.id window) frame'])
              = false).
  { rewrite existsb_app, (composition_has_no_recreate ds F). reflexivity. }
  split; [exact C|]. split; [apply needs_resize_iff|].
  rewrite E. unfold resize_events.
  destruct (needs_resize layout (PresentWindow.render_frame window)).
  - split.
    + eexists. split; [reflexivity|exact N].
    + intros pre post w' f' a b S.
      destruct pre as [|e0 [|e1 [|e2 [|e3 pre]]]]; cbn in S;
        try discriminate S.
      * inversion S; subst.
        exists [EvGetRenderFrame (PresentWindow.id window)]. reflexivity.
      * exfalso. inversion S as [[S0 S1 S2 S3 S4]].
        exact (no_recreate_split _ _ _ _ _ _ _ N S4).
  - split.
    + cbn. exact N.
    + intros pre post w' f' a b S. exfalso.
      destruct pre as [|e0 pre]; cbn in S; [discriminate S|].
      inversion S as [[S0 S1]].
      exact (no_recreate_split _ _ _ _ _ _ _ N S1).
Qed.

(** ** Screenshots *)

Definition screenshot_layout (r : Renderer) : FramebufferLayout.t :=
  RendererSettings.screenshot_framebuffer_layout (settings r).

(** The size given to [vmaCreateBuffer]: [width * height * 4] on [u32]. *)
Definition staging_size (r : Renderer) : Z :=
  u32 (u32 (FramebufferLayout.width (screenshot_layout r)
            * FramebufferLayout.height (screenshot_layout r)) * 4).

(** The renderer once the request flag has been exchanged for false. *)
Definition consumed (r : Renderer) : Renderer :=
  set_settings (RendererSettings.set_screenshot_requested false (settings r)) r.

(** What the allocator answers to the request for the staging buffer. *)
Definition staging_allocation (r : Renderer)
  : option (Handle * Handle * Handle) :=
  Host.vmaCreateBuffer (host r)
    (length (trace r ++ [EvCreateBuffer (staging_size r)])) (staging_size r).

(** The events before the composition, and the renderer it starts from. *)
Definition screenshot_setup (r : Renderer) : list Event :=
  [EvCreateBuffer (staging_size r);
   EvRecreateFrame MainWindow Frame.empty
     (FramebufferLayout.width (screenshot_layout r))
     (FramebufferLayout.height (screenshot_layout r))].

(** The off-screen frame of a screenshot. *)
Definition screenshot_frame (r : Renderer) : Frame.t :=
  recreated_frame (host r) (length (trace r ++ screenshot_setup r))
    Frame.empty
    (FramebufferLayout.width (screenshot_layout r))
    (FramebufferLayout.height (screenshot_layout r)).

Definition before_composition (r : Renderer) : Renderer :=
  set_trace (trace r ++ screenshot_setup r) (consumed r).

(** The events after the composition. *)
Definition screenshot_readback (r : Renderer)
    (staging_buffer allocation pMappedData : Handle) : list Event :=
  let frame := screenshot_frame r in
  [EvRecord (CmdCopyImageToBuffer (Frame.image frame) staging_buffer
               (FramebufferLayout.width (screenshot_layout r))
               (FramebufferLayout.height (screenshot_layout r)));
   EvFinish;
   EvMemcpy (RendererSettings.screenshot_bits (settings r)) pMappedData
            (staging_size r);
   EvDestroyBuffer staging_buffer allocation;
   EvDestroyImage (Frame.image frame) (Frame.allocation frame);
   EvDestroyFramebuffer (Frame.framebuffer frame);
   EvDestroyImageView (Frame.image_view frame);
   EvScreenshotComplete false].

Lemma RenderScreenshot_idle r :
  RendererSettings.screenshot_requested (settings r) = false ->
  RenderScreenshot r = Done tt r.
Proof.
  intros H. unfold RenderScreenshot, exchange_screenshot_requested, bind,
    gets, modify, ret.
  rewrite H. cbn.
  destruct r as [g h v st scr di cp cc ps vo tr].
  destruct st as [a b c d e]. cbn in H. subst c. reflexivity.
Qed.

Lemma RenderScreenshot_failed r :
  RendererSettings.screenshot_requested (settings r) = true ->
  staging_allocation r = None ->
  RenderScreenshot r
  = Fatal UnreachableReached
      (set_trace
         (trace r ++ [EvCreateBuffer (staging_size r); EvLogCritical])
         (consumed r)).
Proof.
  intros H V. unfold RenderScreenshot, exchange_screenshot_requested, bind,
    gets, modify, ret, emit, UNREACHABLE, now.
  rewrite H. cbn.
  destruct r as [g h v st scr di cp cc ps vo tr]. cbn in *.
  unfold staging_allocation, staging_size, screenshot_layout in V.
  cbn in V. rewrite V.
  cbn. rewrite <- app_assoc. reflexivity.
Qed.

Lemma RenderScreenshot_run r staging_buffer allocation pMappedData r2 :
  RendererSettings.screenshot_requested (settings r) = true ->
  staging_allocation r = Some (staging_buffer, allocation, pMappedData) ->
  DrawScreens (screenshot_frame r) (screenshot_layout r) false
    (before_composition r) = Done tt r2 ->
  RenderScreenshot r
  = Done tt
      (set_trace
         (trace r2
          ++ screenshot_readback r staging_buffer allocation pMappedData) r2).
Proof.
  intros H V D. unfold RenderScreenshot, exchange_screenshot_requested.
  unfold bind at 1. unfold bind at 1. unfold gets at 1. unfold bind at 1.
  unfold modify at 1. unfold ret at 1. rewrite H. cbn [negb].
  unfold bind at 1. unfold gets at 1. unfold bind at 1. unfold gets at 1.
  unfold bind at 1. unfold emit at 1, modify at 1.
  unfold bind at 1. unfold gets at 1.
  replace (Host.vmaCreateBuffer _ _ _)
    with (Some (staging_buffer, allocation, pMappedData))
    by (rewrite <- V; destruct r; reflexivity).
  unfold bind at 1. rewrite RecreateFrame_run.
  unfold bind at 1.
  replace (DrawScreens _ _ false _) with (Done tt r2).
  2:{ rewrite <- D. unfold before_composition, screenshot_setup,
        screenshot_frame, screenshot_layout, staging_size, consumed.
      destruct r; cbn. rewrite <- app_assoc. reflexivity. }
  unfold screenshot_readback, screenshot_frame, screenshot_layout,
    staging_size.
  destruct r, r2; cbn. unfold emit, modify. cbn.
  rewrite <- !app_assoc. reflexivity.
Qed.

Lemma staging_size_mod r :
  staging_size r
  = (FramebufferLayout.width (screenshot_layout r)
     * FramebufferLayout.height (screenshot_layout r) * 4) mod 2 ^ 32.
Proof.
  unfold staging_size, u32. rewrite Z.mul_mod_idemp_l by lia. reflexivity.
Qed.

(** The run of [RenderScreenshot].  With no request pending it returns the
    renderer untouched.  With a request pending the flag is taken (it reads
    false afterwards) and a staging buffer of [width * height * 4] bytes is
    asked for, the product being taken on 32-bit unsigned integers: it is
    the exact product when that is below 2^32, and the product modulo 2^32
    in general.  If the allocation fails the run ends there, fatally.
    Otherwise the events of the call are, in this order: the allocation of
    the buffer; [RecreateFrame] of a fresh frame at the width and height of
    the requested layout; the events of [DrawScreens] on that frame and
    layout, the routine [RenderToWindow] runs; the recorded copy of the
    frame's image into the buffer; [Finish]; the copy of the mapped memory,
    of the same size, to [screenshot_bits]; the release of the buffer and
    of the frame's image, framebuffer and view; the completion callback. *)
Lemma RenderScreenshot_captures (r : Renderer) :
  let layout := screenshot_layout r in
  let width := FramebufferLayout.width layout in
  let height := FramebufferLayout.height layout in
  let size := staging_size r in
  let frame := screenshot_frame r in
  if RendererSettings.screenshot_requested (settings r) then
    size = (width * height * 4) mod 2 ^ 32 /\
    (0 <= width * height * 4 < 2 ^ 32 -> size = width * height * 4) /\
    Frame.width frame = width /\ Frame.height frame = height /\
    RendererSettings.screenshot_requested
      (settings (final (RenderScreenshot r))) = false /\
    match staging_allocation r with
    | Some (staging_buffer, allocation, pMappedData) =>
        completes (RenderScreenshot r) = true /\
        emitted RenderScreenshot r
        = [EvCreateBuffer size;
           EvRecreateFrame MainWindow Frame.empty width height]
          ++ emitted (DrawScreens frame layout false) (before_composition r)
          ++ [EvRecord (CmdCopyImageToBuffer (Frame.image frame)
                          staging_buffer width height);
              EvFinish;
              EvMemcpy (RendererSettings.screenshot_bits (settings r))
                       pMappedData size;
              EvDestroyBuffer staging_buffer allocation;
              EvDestroyImage (Frame.image frame) (Frame.allocation frame);
              EvDestroyFramebuffer (Frame.framebuffer frame);
              EvDestroyImageView (Frame.image_view frame);
              EvScreenshotComplete false]
    | None =>
        RenderScreenshot r
        = Fatal UnreachableReached
            (set_trace (trace r ++ [EvCreateBuffer size; EvLogCritical])
                       (consumed r))
    end
  else RenderScreenshot r = Done tt r.
Proof.
  cbv zeta.
  destruct (RendererSettings.screenshot_requested (settings r)) eqn:Q;
    [|apply RenderScreenshot_idle; exact Q].
  split; [apply staging_size_mod|].
  split.
  { intros B. rewrite staging_size_mod. apply Z.mod_small. exact B. }
  split.
  { unfold screenshot_frame, recreated_frame.
    destruct (Host.frame_resources _ _ _ _) as [[[a b] c] d]. reflexivity. }
  split.
  { unfold screenshot_frame, recreated_frame.
    destruct (Host.frame_resources _ _ _ _) as [[[a b] c] d]. reflexivity. }
  destruct (composes_DrawScreens (screenshot_frame r) (screenshot_layout r)
              false (before_composition r))
    as ([] & r2 & ds & D & T & _ & _ & S).
  destruct (staging_allocation r)
    as [[[staging_buffer allocation] pMappedData]|] eqn:V.
  - rewrite (RenderScreenshot_run r _ _ _ r2 Q V D).
    rewrite (emitted_of_trace (DrawScreens _ _ false) (before_composition r) ds)
      by (rewrite D; exact T).
    split.
    { cbn. destruct r2; cbn in *. rewrite S. destruct r; reflexivity. }
    split; [reflexivity|].
    apply emitted_of_trace.
    rewrite (RenderScreenshot_run r _ _ _ r2 Q V D). cbn.
    destruct r2; cbn in *. rewrite T. unfold screenshot_readback.
    destruct r; cbn. rewrite <- !app_assoc. reflexivity.
  - rewrite (RenderScreenshot_failed r Q V).
    split; [destruct r; reflexivity|reflexivity].
Qed.

(** A request for a screenshot of 65536 by 16385 pixels. *)
Definition huge_request : Renderer :=
  set_settings
    (RendererSettings.mk false false true
       (FramebufferLayout.mk 65536 16385 true true Sample.top_rect
          Sample.bottom_rect true false (Rectangle.mk 0 0 0 0)
          (CardboardSettings.mk 0 0))
       4096)
    Sample.renderer.

(** What C4 expects of the staging buffer. *)
Definition staging_buffer_exact (r : Renderer) : Prop :=
  forall size, In (EvCreateBuffer size) (emitted RenderScreenshot r) ->
  size = FramebufferLayout.width (screenshot_layout r)
         * FramebufferLayout.height (screenshot_layout r) * 4.

(** C4.  The run of [RenderScreenshot] on a request for 65536 by 16385
    pixels.  [width * height * 4] is 4295229440; the product is taken on
    32-bit unsigned integers and wraps, so the staging buffer asked for has
    262144 bytes.  The run goes on: the copy recorded into that buffer has
    the full extent of 65536 by 16385 pixels, and 262144 bytes of the mapped
    memory are copied to [screenshot_bits].  The buffer is not of exactly
    [width * height * 4] bytes. *)
Theorem RenderScreenshot_staging_size_overflows :
  let r := huge_request in
  let layout := screenshot_layout r in
  let es := emitted RenderScreenshot r in
  FramebufferLayout.width layout * FramebufferLayout.height layout * 4
  = 4295229440
  /\ staging_size r = 262144
  /\ completes (RenderScreenshot r) = true
  /\ hd_error es = Some (EvCreateBuffer 262144)
  /\ In (EvRecord (CmdCopyImageToBuffer 900 700 65536 16385)) es
  /\ In (EvMemcpy 4096 702 262144) es
  /\ ~ staging_buffer_exact r.
Proof.
  cbv zeta.
  assert (I : In (EvCreateBuffer 262144)
                 (emitted RenderScreenshot huge_request))
    by (vm_compute; left; reflexivity).
  split; [reflexivity|]. split; [reflexivity|].
  split; [vm_compute; reflexivity|]. split; [vm_compute; reflexivity|].
  split; [vm_compute; repeat (try (left; reflexivity); right)|].
  split; [vm_compute; repeat (try (left; reflexivity); right)|].
  intros H. specialize (H 262144 I). vm_compute in H. discriminate H.
Qed.

(** ** Binary32 arithmetic on converted integers

    Halving a converted [u32] is exact, and so is adding the two halves:
    the conversion gives zero or a normal number, dividing a normal number
    by two lowers its exponent by one and adding it to itself raises it by
    one. *)

Module F32Facts.

Lemma fexp_normal x : -125 <= x -> fexp 24 128 x = x - 24.
Proof. intros H. unfold fexp, emin. apply Z.max_l. lia. Qed.

Lemma shr_none mrs e : shr mrs e 0 = (mrs, e).
Proof. reflexivity. Qed.

(** An exact mantissa of 24 digits: nothing to shift, nothing to round. *)
Lemma binary_round_aux_24 q e :
  Zpos (digits2_pos q) = 24 -> -120 <= e <= 104 ->
  binary_round_aux 24 128 false (Zpos q) e loc_Exact = S754_finite false q e.
Proof.
  intros D E. unfold binary_round_aux, shr_fexp.
  unfold Zdigits2. rewrite D, fexp_normal by lia.
  replace (24 + e - 24 - e) with 0 by lia. rewrite shr_none.
  cbn [shr_record_of_loc shr_m loc_of_shr_record round_nearest_even].
  unfold Zdigits2. rewrite D, fexp_normal by lia.
  replace (24 + e - 24 - e) with 0 by lia. rewrite shr_none.
  cbn [shr_record_of_loc shr_m].
  replace (e <=? 128 - 24) with true by (symmetry; apply Z.leb_le; lia).
  reflexivity.
Qed.

Lemma binary_round_aux_25 q e :
  Zpos (digits2_pos q) = 24 -> -120 <= e <= 103 ->
  binary_round_aux 24 128 false (Zpos q~0) e loc_Exact
  = S754_finite false q (e + 1).
Proof.
  intros D E. unfold binary_round_aux, shr_fexp.
  assert (D' : Zdigits2 (Zpos q~0) = 25).
  { cbn. rewrite Pos2Z.inj_succ, D. reflexivity. }
  rewrite D', fexp_normal by lia.
  replace (25 + e - 24 - e) with 1 by lia.
  cbn [shr iter_pos shr_1 shr_record_of_loc shr_m shr_r shr_s orb
       loc_of_shr_record round_nearest_even].
  unfold Zdigits2. rewrite D, fexp_normal by lia.
  replace (24 + (e + 1) - 24 - (e + 1)) with 0 by lia. rewrite shr_none.
  cbn [shr_record_of_loc shr_m].
  replace (e + 1 <=? 128 - 24) with true by (symmetry; apply Z.leb_le; lia).
  reflexivity.
Qed.

Lemma div_eucl_pair a b : Z.div_eucl a b = (a / b, a mod b).
Proof. unfold Z.div, Z.modulo. destruct (Z.div_eucl a b). reflexivity. Qed.

Lemma SFdiv_two q e :
  Zpos (digits2_pos q) = 24 -> -100 <= e <= 100 ->
  SFdiv 24 128 (S754_finite false q e) (S754_finite false 8388608 (-22))
  = S754_finite false q (e - 1).
Proof.
  intros D E. unfold SFdiv, SFdiv_core_binary.
  change (Zdigits2 (Zpos q)) with (Zpos (digits2_pos q)). rewrite D.
  change (Zdigits2 8388608) with 24.
  rewrite fexp_normal by lia.
  replace (Z.min (24 + e - (24 + -22) - 24) (e - -22)) with (e - 2) by lia.
  replace (e - -22 - (e - 2)) with 24 by lia.
  rewrite div_eucl_pair.
  replace (Z.shiftl (Zpos q) 24 / 8388608) with (Zpos q~0).
  2:{ rewrite Z.shiftl_mul_pow2 by lia.
      change (2 ^ 24) with (2 * 8388608). rewrite Z.mul_assoc.
      rewrite Z.div_mul by lia. lia. }
  replace (Z.shiftl (Zpos q) 24 mod 8388608) with 0.
  2:{ rewrite Z.shiftl_mul_pow2 by lia.
      change (2 ^ 24) with (2 * 8388608). rewrite Z.mul_assoc.
      rewrite Z.mod_mul by lia. reflexivity. }
  change (new_location 8388608 0) with loc_Exact.
  cbn [xorb].
  rewrite binary_round_aux_25 by (assumption || lia).
  f_equal. lia.
Qed.

Lemma SFadd_self q e :
  Zpos (digits2_pos q) = 24 -> -100 <= e <= 100 ->
  SFadd 24 128 (S754_finite false q (e - 1)) (S754_finite false q (e - 1))
  = S754_finite false q e.
Proof.
  intros D E. unfold SFadd. rewrite Z.min_id.
  unfold shl_align. rewrite Z.sub_diag. cbn [fst cond_Zopp].
  rewrite Pos2Z.add_pos_pos, Pos.add_diag.
  unfold binary_normalize, binary_round.
  assert (D' : Zpos (digits2_pos q~0) = 25).
  { cbn. rewrite Pos2Z.inj_succ, D. reflexivity. }
  rewrite D', fexp_normal by lia.
  unfold shl_align.
  replace (25 + (e - 1) - 24 - (e - 1)) with 1 by lia.
  rewrite binary_round_aux_25 by (assumption || lia).
  f_equal. lia.
Qed.

Lemma digits2_pos_bounds p :
  2 ^ (Zpos (digits2_pos p) - 1) <= Zpos p < 2 ^ Zpos (digits2_pos p).
Proof.
  induction p as [p IH|p IH|]; cbn [digits2_pos].
  - rewrite Pos2Z.inj_succ. replace (Z.succ (Zpos (digits2_pos p)) - 1)
      with (Z.succ (Zpos (digits2_pos p) - 1)) by lia.
    rewrite !Z.pow_succ_r by lia. lia.
  - rewrite Pos2Z.inj_succ. replace (Z.succ (Zpos (digits2_pos p)) - 1)
      with (Z.succ (Zpos (digits2_pos p) - 1)) by lia.
    rewrite !Z.pow_succ_r by lia. lia.
  - cbn. lia.
Qed.

Lemma digits2_pos_unique p d :
  2 ^ (d - 1) <= Zpos p < 2 ^ d -> Zpos (digits2_pos p) = d.
Proof.
  intros [L U]. pose proof (digits2_pos_bounds p) as [L' U'].
  assert (0 < d).
  { destruct (Z.le_gt_cases d 0) as [N|N]; [|exact N]. exfalso.
    assert (2 ^ d <= 2 ^ 0) by (apply Z.pow_le_mono_r; lia).
    change (2 ^ 0) with 1 in *. lia. }
  destruct (Z.lt_trichotomy (Zpos (digits2_pos p)) d) as [C|[C|C]].
  - exfalso.
    assert (2 ^ Zpos (digits2_pos p) <= 2 ^ (d - 1))
      by (apply Z.pow_le_mono_r; lia). lia.
  - exact C.
  - exfalso.
    assert (2 ^ d <= 2 ^ (Zpos (digits2_pos p) - 1))
      by (apply Z.pow_le_mono_r; lia). lia.
Qed.

Lemma digits2_pos_shift p k :
  digits2_pos (Pos.iter xO p k) = (digits2_pos p + k)%positive.
Proof.
  induction k as [|k IH] using Pos.peano_ind.
  - cbn. rewrite Pos.add_1_r. reflexivity.
  - rewrite Pos.iter_succ. cbn [digits2_pos]. rewrite IH.
    rewrite Pos.add_succ_r. reflexivity.
Qed.

Lemma shr_1_m mrs : 0 <= shr_m mrs -> shr_m (shr_1 mrs) = shr_m mrs / 2.
Proof.
  destruct mrs as [m r s]. cbn [shr_m]. intros H.
  destruct m as [|p|p]; [reflexivity| |lia].
  destruct p as [p|p|]; cbn [shr_1 shr_m].
  - apply Z.div_unique with 1; [lia|].
    rewrite Pos2Z.inj_xI. reflexivity.
  - apply Z.div_unique with 0; [lia|].
    rewrite Pos2Z.inj_xO. lia.
  - reflexivity.
Qed.

Lemma iter_shr_1_m k : forall mrs,
  0 <= shr_m mrs ->
  shr_m (iter_pos shr_1 k mrs) = shr_m mrs / 2 ^ Zpos k.
Proof.
  assert (P : forall m j, 0 <= m -> 0 <= m / 2 ^ Zpos j)
    by (intros; apply Z.div_pos; lia).
  induction k as [k IH|k IH|]; intros mrs H; cbn [iter_pos].
  - rewrite IH, IH, shr_1_m; try assumption.
    + rewrite !Z.div_div by lia. f_equal.
      rewrite Pos2Z.inj_xI, Z.pow_add_r, Z.pow_mul_r by lia.
      change (2 ^ 2) with 4. change (2 ^ 1) with 2.
      replace (4 ^ Zpos k) with (2 ^ Zpos k * 2 ^ Zpos k).
      * ring.
      * rewrite <- Z.pow_add_r by lia.
        replace (Zpos k + Zpos k) with (2 * Zpos k) by lia.
        rewrite Z.pow_mul_r by lia. reflexivity.
    + rewrite shr_1_m by assumption. apply Z.div_pos; lia.
    + rewrite IH, shr_1_m; try assumption.
      * apply P. apply Z.div_pos; lia.
      * rewrite shr_1_m by assumption. apply Z.div_pos; lia.
  - rewrite IH, IH; try assumption.
    + rewrite Z.div_div by lia. f_equal.
      rewrite Pos2Z.inj_xO, <- Z.pow_add_r by lia. f_equal. lia.
    + rewrite IH by assumption. apply P. assumption.
  - rewrite shr_1_m by assumption. reflexivity.
Qed.

Lemma round_nearest_even_bounds m l :
  m <= round_nearest_even m l <= m + 1.
Proof.
  destruct l as [|[]]; cbn; try lia. destruct (Z.even m); lia.
Qed.

Lemma binary_round_aux_wide p k :
  Zpos (digits2_pos p) = 24 + Zpos k -> Zpos k <= 60 ->
  exists q e,
    binary_round_aux 24 128 false (Zpos p) 0 loc_Exact = S754_finite false q e
    /\ Zpos (digits2_pos q) = 24 /\ Zpos k <= e <= Zpos k + 1.
Proof.
  intros D K. unfold binary_round_aux, shr_fexp.
  change (Zdigits2 (Zpos p)) with (Zpos (digits2_pos p)).
  rewrite D, fexp_normal by lia.
  replace (24 + Zpos k + 0 - 24 - 0) with (Zpos k) by lia.
  cbn [shr].
  set (mrs := iter_pos shr_1 k (shr_record_of_loc (Zpos p) loc_Exact)).
  assert (M : shr_m mrs = Zpos p / 2 ^ Zpos k)
    by (apply iter_shr_1_m; cbn; lia).
  pose proof (digits2_pos_bounds p) as [L U]. rewrite D in L, U.
  replace (24 + Zpos k - 1) with (23 + Zpos k) in L by lia.
  rewrite Z.pow_add_r in L, U by lia.
  assert (P : 0 < 2 ^ Zpos k) by (apply Z.pow_pos_nonneg; lia).
  assert (B : 2 ^ 23 <= shr_m mrs < 2 ^ 24).
  { rewrite M. split.
    - apply Z.div_le_lower_bound; lia.
    - apply Z.div_lt_upper_bound; lia. }
  pose proof (round_nearest_even_bounds (shr_m mrs) (loc_of_shr_record mrs))
    as R.
  set (m2 := round_nearest_even (shr_m mrs) (loc_of_shr_record mrs)) in *.
  destruct (Z.eq_dec m2 (2 ^ 24)) as [T|T].
  - rewrite T. change (Zdigits2 (2 ^ 24)) with 25.
    rewrite fexp_normal by lia.
    replace (25 + (0 + Zpos k) - 24 - (0 + Zpos k)) with 1 by lia.
    cbn [shr iter_pos]. change (2 ^ 24) with 16777216.
    cbn [shr_record_of_loc shr_1 shr_m].
    replace (0 + Zpos k + 1 <=? 128 - 24) with true
      by (symmetry; apply Z.leb_le; lia).
    exists 8388608%positive, (0 + Zpos k + 1).
    split; [reflexivity|]. split; [reflexivity|lia].
  - destruct m2 as [|q|q]; [lia| |lia].
    assert (Dq : Zpos (digits2_pos q) = 24)
      by (apply digits2_pos_unique; change (24 - 1) with 23; lia).
    change (Zdigits2 (Zpos q)) with (Zpos (digits2_pos q)).
    rewrite Dq, fexp_normal by lia.
    replace (24 + (0 + Zpos k) - 24 - (0 + Zpos k)) with 0 by lia.
    rewrite shr_none. cbn [shr_record_of_loc shr_m].
    replace (0 + Zpos k <=? 128 - 24) with true
      by (symmetry; apply Z.leb_le; lia).
    exists q, (0 + Zpos k).
    split; [reflexivity|]. split; [exact Dq|lia].
Qed.

(** A [u32] converted to binary32 is zero or a normal number. *)
Definition normal (x : spec_float) : Prop :=
  exists q e, x = S754_finite false q e /\ Zpos (digits2_pos q) = 24
              /\ -23 <= e <= 9.

Lemma binary_round_u32 p :
  Zpos p < 2 ^ 32 -> normal (binary_round 24 128 false p 0).
Proof.
  intros U. unfold binary_round.
  pose proof (digits2_pos_bounds p) as [L _].
  assert (D32 : Zpos (digits2_pos p) <= 32).
  { destruct (Z.le_gt_cases (Zpos (digits2_pos p)) 32) as [N|N]; [exact N|].
    exfalso. assert (2 ^ 32 <= 2 ^ (Zpos (digits2_pos p) - 1))
      by (apply Z.pow_le_mono_r; lia). lia. }
  rewrite fexp_normal by lia.
  unfold shl_align.
  destruct (Z.lt_trichotomy (Zpos (digits2_pos p)) 24) as [C|[C|C]].
  - destruct (Zpos (digits2_pos p) + 0 - 24 - 0) as [|k|k] eqn:S; try lia.
    assert (Dk : Zpos (digits2_pos (Pos.iter xO p k)) = 24)
      by (rewrite digits2_pos_shift; lia).
    rewrite binary_round_aux_24 by (assumption || lia).
    exists (Pos.iter xO p k), (Zpos (digits2_pos p) + 0 - 24).
    split; [reflexivity|]. split; [exact Dk|lia].
  - replace (Zpos (digits2_pos p) + 0 - 24 - 0) with 0 by lia.
    rewrite binary_round_aux_24 by (assumption || lia).
    exists p, 0. split; [reflexivity|]. split; [exact C|lia].
  - destruct (Zpos (digits2_pos p) + 0 - 24 - 0) as [|k|k] eqn:S; try lia.
    destruct (binary_round_aux_wide p k) as (q & e & E & Dq & B); try lia.
    exists q, e. split; [exact E|]. split; [exact Dq|lia].
Qed.

Lemma shifted_value p k : Zpos (Pos.iter xO p k) = Zpos p * 2 ^ Zpos k.
Proof.
  induction k as [|k IH] using Pos.peano_ind.
  - cbn [Pos.iter]. rewrite Pos2Z.inj_xO. change (2 ^ 1) with 2. lia.
  - rewrite Pos.iter_succ, Pos2Z.inj_xO, IH, Pos2Z.inj_succ.
    rewrite Z.pow_succ_r by lia. lia.
Qed.

Lemma binary_round_small p :
  Zpos p < 2 ^ 24 ->
  exists q e,
    binary_round 24 128 false p 0 = S754_finite false q e
    /\ -23 <= e <= 0 /\ Zpos q = Zpos p * 2 ^ (- e).
Proof.
  intros U. unfold binary_round.
  pose proof (digits2_pos_bounds p) as [L _].
  assert (D24 : Zpos (digits2_pos p) <= 24).
  { destruct (Z.le_gt_cases (Zpos (digits2_pos p)) 24) as [N|N]; [exact N|].
    exfalso. assert (2 ^ 24 <= 2 ^ (Zpos (digits2_pos p) - 1))
      by (apply Z.pow_le_mono_r; lia). lia. }
  rewrite fexp_normal by lia.
  unfold shl_align.
  destruct (Zpos (digits2_pos p) + 0 - 24 - 0) as [|k|k] eqn:S; try lia.
  - rewrite binary_round_aux_24 by lia.
    exists p, 0. split; [reflexivity|]. split; [lia|]. cbn. lia.
  - assert (Dk : Zpos (digits2_pos (Pos.iter xO p k)) = 24)
      by (rewrite digits2_pos_shift; lia).
    rewrite binary_round_aux_24 by (assumption || lia).
    exists (Pos.iter xO p k), (Zpos (digits2_pos p) + 0 - 24).
    split; [reflexivity|]. split; [lia|].
    rewrite shifted_value. f_equal. f_equal. lia.
Qed.

(** Below 2^24 the conversion is exact, so it is one-to-one. *)
Lemma of_u32_inj a b :
  0 <= a < 2 ^ 24 -> 0 <= b < 2 ^ 24 ->
  F32.of_u32 a = F32.of_u32 b -> a = b.
Proof.
  intros A B. unfold F32.of_u32, u32.
  rewrite !Z.mod_small by lia. unfold binary_normalize.
  destruct a as [|p|p]; destruct b as [|p'|p']; try lia; intros E.
  - destruct (binary_round_small p') as (q & e & R & _); [lia|].
    unfold F32.prec, F32.emax in E. rewrite R in E. discriminate E.
  - destruct (binary_round_small p) as (q & e & R & _); [lia|].
    unfold F32.prec, F32.emax in E. rewrite R in E. discriminate E.
  - destruct (binary_round_small p) as (q & e & R & Be & V); [lia|].
    destruct (binary_round_small p') as (q' & e' & R' & Be' & V'); [lia|].
    unfold F32.prec, F32.emax in E. rewrite R, R' in E.
    injection E as Eq Ee. subst q' e'. rewrite V in V'.
    apply Z.mul_reg_r in V'; [exact V'|].
    apply Z.pow_nonzero; lia.
Qed.

Lemma of_u32_normal z : F32.of_u32 z = F32.zero \/ normal (F32.of_u32 z).
Proof.
  unfold F32.of_u32, u32, binary_normalize.
  pose proof (Z.mod_pos_bound z (2 ^ 32) eq_refl) as [L U].
  destruct (z mod 2 ^ 32) as [|p|p]; [left; reflexivity| |lia].
  right. apply binary_round_u32. exact U.
Qed.

Lemma two_finite : F32.two = S754_finite false 8388608 (-22).
Proof. reflexivity. Qed.

(** The two halves of a converted [u32] add up to it. *)
Lemma halves_sum z :
  (F32.of_u32 z /f F32.two) +f (F32.of_u32 z /f F32.two) = F32.of_u32 z.
Proof.
  destruct (of_u32_normal z) as [Z0|(q & e & E & D & B)].
  - rewrite Z0. reflexivity.
  - rewrite E, two_finite. unfold F32.div, F32.add, F32.prec, F32.emax.
    rewrite SFdiv_two by (assumption || lia).
    apply SFadd_self; assumption || lia.
Qed.

End F32Facts.

(** ** Drawing the top screen region *)

Lemma composes_emitted {A} (c : Cmd A) r a r1 es :
  c r = Done a r1 -> trace r1 = trace r ++ es -> emitted c r = es.
Proof. intros E T. apply emitted_of_trace. rewrite E. exact T. Qed.

Lemma emitted_bind {A B} (c : Cmd A) (k : A -> Cmd B) r :
  composes c -> (forall a, composes (k a)) ->
  exists a r1,
    c r = Done a r1
    /\ emitted (bind c k) r = emitted c r ++ emitted (k a) r1.
Proof.
  intros Hc Hk.
  destruct (Hc r) as (a & r1 & es1 & E1 & T1 & _).
  destruct (Hk a r1) as (b & r2 & es2 & E2 & T2 & _).
  exists a, r1. split; [exact E1|].
  rewrite (composes_emitted c r a r1 es1 E1 T1).
  rewrite (composes_emitted (k a) r1 b r2 es2 E2 T2).
  apply emitted_of_trace. unfold bind. rewrite E1, E2. cbn.
  rewrite T2, T1, app_assoc. reflexivity.
Qed.

Lemma positions_orient texcoords x y w h o :
  recognized o = true ->
  positions (fst (fst (orient texcoords x y w h o))) = corners x y w h.
Proof. destruct o; intros R; try discriminate R; reflexivity. Qed.

(** What one [DrawSingleScreen] with a recognized orientation shows: one
    upload, at the corners of the rectangle, and one draw, of the slot. *)
Lemma DrawSingleScreen_shows screen_id x y w h o r :
  recognized o = true ->
  map positions (uploads (emitted (DrawSingleScreen screen_id x y w h o) r))
  = [corners x y w h]
  /\ map DrawInfo.screen_id_l
         (draws (emitted (DrawSingleScreen screen_id x y w h o) r))
     = [slot_index screen_id].
Proof.
  intros R.
  pose proof (DrawSingleScreen_emitted screen_id x y w h o r) as E.
  pose proof (positions_orient (ScreenInfo.texcoords (screen_info screen_id r))
                x y w h o R) as P.
  destruct (orient _ x y w h o) as [[vs w'] h']. rewrite E.
  unfold log_of. rewrite R. cbn in P |- *. rewrite P. split; reflexivity.
Qed.

Lemma DrawSingleScreenStereo_shows id_l id_r x y w h o r :
  recognized o = true ->
  let es := emitted (DrawSingleScreenStereo id_l id_r x y w h o) r in
  map positions (uploads es) = [corners x y w h]
  /\ map DrawInfo.screen_id_l (draws es) = [slot_index id_l]
  /\ map DrawInfo.screen_id_r (draws es) = [slot_index id_r].
Proof.
  intros R.
  pose proof (DrawSingleScreenStereo_emitted id_l id_r x y w h o r) as E.
  pose proof (positions_orient (ScreenInfo.texcoords (screen_info id_l r))
                x y w h o R) as P.
  destruct (orient _ x y w h o) as [[vs w'] h']. cbv zeta. rewrite E.
  unfold log_of. rewrite R. cbn in P |- *. rewrite P.
  split; [reflexivity|]. split; reflexivity.
Qed.

Lemma recognized_orientation_of layout :
  recognized (orientation_of layout) = true.
Proof.
  unfold orientation_of.
  destruct (FramebufferLayout.is_rotated layout); reflexivity.
Qed.

(** Two [DrawSingleScreen] calls with the layer set in between. *)
Lemma two_draws_show id1 x1 y1 w1 h1 id2 x2 y2 w2 h2 o r :
  recognized o = true ->
  let es :=
    emitted (DrawSingleScreen id1 x1 y1 w1 h1 o ;; set_layer 1 ;;
             DrawSingleScreen id2 x2 y2 w2 h2 o) r in
  map positions (uploads es) = [corners x1 y1 w1 h1; corners x2 y2 w2 h2]
  /\ map DrawInfo.screen_id_l (draws es) = [slot_index id1; slot_index id2]
  /\ map DrawInfo.layer (draws es) = [DrawInfo.layer (draw_info r); 1].
Proof.
  intros R. cbv zeta.
  destruct (emitted_bind (DrawSingleScreen id1 x1 y1 w1 h1 o)
              (fun _ => set_layer 1 ;; DrawSingleScreen id2 x2 y2 w2 h2 o) r)
    as ([] & r1 & E1 & S1).
  { apply composes_DrawSingleScreen. }
  { intros _. apply composes_bind;
      [apply composes_set_layer|intros _; apply composes_DrawSingleScreen]. }
  destruct (emitted_bind (set_layer 1)
              (fun _ => DrawSingleScreen id2 x2 y2 w2 h2 o) r1)
    as ([] & r2 & E2 & S2).
  { apply composes_set_layer. }
  { intros _. apply composes_DrawSingleScreen. }
  rewrite S1, S2.
  assert (L : emitted (set_layer 1) r1 = [])
    by (apply emitted_of_trace; destruct r1; cbn; rewrite app_nil_r;
        reflexivity).
  rewrite L. cbn [app].
  unfold uploads, draws. rewrite !pick_app, !map_app.
  fold (uploads (emitted (DrawSingleScreen id1 x1 y1 w1 h1 o) r)).
  fold (uploads (emitted (DrawSingleScreen id2 x2 y2 w2 h2 o) r2)).
  fold (draws (emitted (DrawSingleScreen id1 x1 y1 w1 h1 o) r)).
  fold (draws (emitted (DrawSingleScreen id2 x2 y2 w2 h2 o) r2)).
  destruct (DrawSingleScreen_shows id1 x1 y1 w1 h1 o r R) as [P1 I1].
  destruct (DrawSingleScreen_shows id2 x2 y2 w2 h2 o r2 R) as [P2 I2].
  rewrite P1, P2, I1, I2.
  split; [reflexivity|]. split; [reflexivity|].
  pose proof (DrawSingleScreen_emitted id1 x1 y1 w1 h1 o r) as X1.
  pose proof (DrawSingleScreen_emitted id2 x2 y2 w2 h2 o r2) as X2.
  destruct (orient _ x1 y1 w1 h1 o) as [[vs1 w1'] h1'].
  destruct (orient _ x2 y2 w2 h2 o) as [[vs2 w2'] h2'].
  rewrite X1, X2. unfold log_of. rewrite R. cbn.
  assert (Y : DrawInfo.layer (draw_info r2) = 1).
  { unfold set_layer, modify in E2. injection E2 as <-.
    destruct r1; reflexivity. }
  rewrite Y. reflexivity.
Qed.

Lemma emitted_ext {A} (c c' : Cmd A) r :
  c r = c' r -> emitted c r = emitted c' r.
Proof. unfold emitted. intros ->. reflexivity. Qed.

(** The stereo dispatch of [DrawTopScreen] on an enabled region. *)
Definition top_dispatch (layout : FramebufferLayout.t)
    (top_screen : Rectangle.t Z) (r : Renderer) : Cmd unit :=
  let left := F32.of_u32 (Rectangle.left top_screen) in
  let top := F32.of_u32 (Rectangle.top top_screen) in
  let width := F32.of_u32 (Host.GetWidth (host r) top_screen) in
  let height := F32.of_u32 (Host.GetHeight (host r) top_screen) in
  let o := orientation_of layout in
  match Values.render_3d (values r) with
  | Off =>
      DrawSingleScreen (eye_slot (Values.mono_render_option (values r)))
        left top width height o
  | SideBySide =>
      DrawSingleScreen Slot0 (left /f F32.two) top (width /f F32.two)
        height o ;;
      set_layer 1 ;;
      DrawSingleScreen Slot1
        ((left /f F32.two)
         +f F32.of_u32 (u32 (FramebufferLayout.width layout) / 2))
        top (width /f F32.two) height o
  | CardboardVR =>
      DrawSingleScreen Slot0 left top width height o ;;
      set_layer 1 ;;
      DrawSingleScreen Slot1
        (F32.of_u32
           (u32 (CardboardSettings.top_screen_right_eye
                   (FramebufferLayout.cardboard layout)
                 + u32 (FramebufferLayout.width layout) / 2)))
        top width height o
  | Anaglyph | Interlaced | ReverseInterlaced =>
      DrawSingleScreenStereo Slot0 Slot1 left top width height o
  end.

Lemma DrawTopScreen_enabled layout top_screen r :
  FramebufferLayout.top_screen_enabled layout = true ->
  DrawTopScreen layout top_screen r = top_dispatch layout top_screen r r.
Proof.
  intros En. unfold DrawTopScreen, top_dispatch. rewrite En. cbn [negb].
  unfold bind at 1 2. unfold gets.
  destruct (Values.render_3d (values r)); reflexivity.
Qed.

(** C6, amended.  On an enabled top screen region [DrawTopScreen] makes:
    with stereo Off, one draw, at the region's left and top, of the full
    region width, of the slot of the mono-preference eye; with SideBySide,
    two draws, of slot 0 at half the region's left and of slot 1 at that
    plus the integer half of the layout width, each of half the region
    width, the two widths adding up to the region width (nothing confines
    the two draws to separate halves); with CardboardVR, two draws of
    the full region width, of slot 0 at the region's left and of slot 1 at
    the layout's right-eye offset plus half the layout width (two offsets
    that, below 2^24, coincide exactly when the layout's integers do:
    nothing in [DrawTopScreen] keeps them apart); with the other modes,
    one draw of the full width binding slots 0 and 1.  On a disabled region
    it does nothing. *)
Theorem DrawTopScreen_region_coverage
    (layout : FramebufferLayout.t) (top_screen : Rectangle.t Z) (r : Renderer) :
  let left := F32.of_u32 (Rectangle.left top_screen) in
  let top := F32.of_u32 (Rectangle.top top_screen) in
  let width := F32.of_u32 (Host.GetWidth (host r) top_screen) in
  let height := F32.of_u32 (Host.GetHeight (host r) top_screen) in
  let half_layout := F32.of_u32 (u32 (FramebufferLayout.width layout) / 2) in
  let right_eye_at :=
    u32 (CardboardSettings.top_screen_right_eye
           (FramebufferLayout.cardboard layout)
         + u32 (FramebufferLayout.width layout) / 2) in
  let right_eye := F32.of_u32 right_eye_at in
  let es := emitted (DrawTopScreen layout top_screen) r in
  let sit := map positions (uploads es) in
  let ids := map DrawInfo.screen_id_l (draws es) in
  if FramebufferLayout.top_screen_enabled layout then
    match Values.render_3d (values r) with
    | Off =>
        sit = [corners left top width height]
        /\ ids = [slot_index (eye_slot (Values.mono_render_option (values r)))]
    | SideBySide =>
        sit = [corners (left /f F32.two) top (width /f F32.two) height;
               corners ((left /f F32.two) +f half_layout) top
                       (width /f F32.two) height]
        /\ ids = [0; 1]
        /\ (width /f F32.two) +f (width /f F32.two) = width
    | CardboardVR =>
        sit = [corners left top width height;
               corners right_eye top width height]
        /\ ids = [0; 1]
        /\ (0 <= Rectangle.left top_screen < 2 ^ 24 ->
            0 <= right_eye_at < 2 ^ 24 ->
            (left = right_eye <-> Rectangle.left top_screen = right_eye_at))
    | Anaglyph | Interlaced | ReverseInterlaced =>
        sit = [corners left top width height]
        /\ ids = [0]
        /\ map DrawInfo.screen_id_r (draws es) = [1]
    end
  else es = [].
Proof.
  cbv zeta.
  pose proof (recognized_orientation_of layout) as R.
  destruct (FramebufferLayout.top_screen_enabled layout) eqn:En.
  - rewrite (emitted_ext _ _ _ (DrawTopScreen_enabled layout top_screen r En)).
    unfold top_dispatch.
    destruct (Values.render_3d (values r)).
    + apply DrawSingleScreen_shows. exact R.
    + destruct (two_draws_show Slot0
                  (F32.of_u32 (Rectangle.left top_screen) /f F32.two)
                  (F32.of_u32 (Rectangle.top top_screen))
                  (F32.of_u32 (Host.GetWidth (host r) top_screen) /f F32.two)
                  (F32.of_u32 (Host.GetHeight (host r) top_screen))
                  Slot1
                  ((F32.of_u32 (Rectangle.left top_screen) /f F32.two)
                   +f F32.of_u32 (u32 (FramebufferLayout.width layout) / 2))
                  (F32.of_u32 (Rectangle.top top_screen))
                  (F32.of_u32 (Host.GetWidth (host r) top_screen) /f F32.two)
                  (F32.of_u32 (Host.GetHeight (host r) top_screen))
                  (orientation_of layout) r R) as (P & I & _).
      split; [exact P|]. split; [exact I|]. apply F32Facts.halves_sum.
    + apply DrawSingleScreenStereo_shows. exact R.
    + apply DrawSingleScreenStereo_shows. exact R.
    + apply DrawSingleScreenStereo_shows. exact R.
    + destruct (two_draws_show Slot0
                  (F32.of_u32 (Rectangle.left top_screen))
                  (F32.of_u32 (Rectangle.top top_screen))
                  (F32.of_u32 (Host.GetWidth (host r) top_screen))
                  (F32.of_u32 (Host.GetHeight (host r) top_screen))
                  Slot1
                  (F32.of_u32
                     (u32 (CardboardSettings.top_screen_right_eye
                             (FramebufferLayout.cardboard layout)
                           + u32 (FramebufferLayout.width layout) / 2)))
                  (F32.of_u32 (Rectangle.top top_screen))
                  (F32.of_u32 (Host.GetWidth (host r) top_screen))
                  (F32.of_u32 (Host.GetHeight (host r) top_screen))
                  (orientation_of layout) r R) as (P & I & _).
      split; [exact P|]. split; [exact I|].
      intros BL BR. split.
      * apply F32Facts.of_u32_inj; assumption.
      * intros ->. reflexivity.
  - apply emitted_of_trace. unfold DrawTopScreen. rewrite En. cbn.
    rewrite app_nil_r. reflexivity.
Qed.

(** The cardboard layout of the counterexample: 800 wide, the top region
    starting at 400, the right eye at offset 0. *)
Definition touching_layout : FramebufferLayout.t :=
  FramebufferLayout.mk 800 480 true true (Rectangle.mk 400 0 800 240)
    Sample.bottom_rect true false (Rectangle.mk 0 0 0 0)
    (CardboardSettings.mk 0 0).

Definition cardboard_renderer : Renderer :=
  set_values
    (Values.mk CardboardVR LeftEye true false F32.zero F32.zero F32.zero)
    Sample.renderer.

(** What C6 expects of CardboardVR: two draws of one extent at distinct x
    offsets. *)
Definition cardboard_draws_apart (layout : FramebufferLayout.t)
    (top_screen : Rectangle.t Z) (r : Renderer) : Prop :=
  exists x1 x2 y w h,
    map positions (uploads (emitted (DrawTopScreen layout top_screen) r))
    = [corners x1 y w h; corners x2 y w h]
    /\ x1 <> x2.

(** On this layout both CardboardVR draws start at x = 400. *)
Lemma cardboard_draws_can_coincide :
  ~ cardboard_draws_apart touching_layout
      (FramebufferLayout.top_screen touching_layout) cardboard_renderer.
Proof.
  intros (x1 & x2 & y & w & h & E & N).
  assert (L : map positions
                (uploads (emitted (DrawTopScreen touching_layout
                                     (FramebufferLayout.top_screen
                                        touching_layout))
                                  cardboard_renderer))
              = [corners (F32.of_u32 400) (F32.of_u32 0) (F32.of_u32 400)
                         (F32.of_u32 240);
                 corners (F32.of_u32 400) (F32.of_u32 0) (F32.of_u32 400)
                         (F32.of_u32 240)])
    by (vm_compute; reflexivity).
  rewrite L in E. unfold corners in E.
  assert (X1 : x1 = F32.of_u32 400) by congruence.
  assert (X2 : x2 = F32.of_u32 400) by congruence.
  apply N. rewrite X1, X2. reflexivity.
Qed.

(** A layout of odd width, 801, whose top region spans it. *)
Definition odd_layout : FramebufferLayout.t :=
  FramebufferLayout.mk 801 480 true true (Rectangle.mk 0 0 801 240)
    Sample.bottom_rect true false (Rectangle.mk 0 0 0 0)
    (CardboardSettings.mk 0 0).

Definition side_by_side_renderer : Renderer :=
  set_values
    (Values.mk SideBySide LeftEye true false F32.zero F32.zero F32.zero)
    Sample.renderer.

(** What C6 expects of SideBySide, at the least, of a left eye in the left
    half and a right eye in the right half: two draws of one extent, the
    first ending no further right than the second begins. *)
Definition side_by_side_draws_apart (layout : FramebufferLayout.t)
    (top_screen : Rectangle.t Z) (r : Renderer) : Prop :=
  exists x1 x2 y w h,
    map positions (uploads (emitted (DrawTopScreen layout top_screen) r))
    = [corners x1 y w h; corners x2 y w h]
    /\ SFleb (x1 +f w) x2 = true.

(** On this layout the left eye's draw spans x = 0 to 400.5 and the right
    eye's begins at x = 400: the region width is halved in binary32, the
    layout width as an integer. *)
Lemma side_by_side_draws_can_overlap :
  ~ side_by_side_draws_apart odd_layout
      (FramebufferLayout.top_screen odd_layout) side_by_side_renderer.
Proof.
  intros (x1 & x2 & y & w & h & E & N).
  assert (L : map positions
                (uploads (emitted (DrawTopScreen odd_layout
                                     (FramebufferLayout.top_screen
                                        odd_layout))
                                  side_by_side_renderer))
              = [corners F32.zero (F32.of_u32 0)
                         (F32.of_u32 801 /f F32.two) (F32.of_u32 240);
                 corners (F32.of_u32 400) (F32.of_u32 0)
                         (F32.of_u32 801 /f F32.two) (F32.of_u32 240)])
    by (vm_compute; reflexivity).
  rewrite L in E. unfold corners in E.
  assert (X1 : x1 +f w = F32.zero +f (F32.of_u32 801 /f F32.two))
    by congruence.
  assert (X2 : x2 = F32.of_u32 400) by congruence.
  rewrite X1, X2 in N. vm_compute in N. discriminate N.
Qed.

(** C6 as stated fails for CardboardVR and for SideBySide: nothing in
    [DrawTopScreen] keeps the two draws of a stereo pair at distinct
    offsets or in separate halves. *)
Lemma stereo_draws_can_collide :
  ~ cardboard_draws_apart touching_layout
      (FramebufferLayout.top_screen touching_layout) cardboard_renderer
  /\ ~ side_by_side_draws_apart odd_layout
         (FramebufferLayout.top_screen odd_layout) side_by_side_renderer.
Proof.
  split;
    [exact cardboard_draws_can_coincide|exact side_by_side_draws_can_overlap].
Qed.

(** ** The sample renderer at work *)

(** The first [PrepareRendertarget] on the fresh sample renderer allocates
    the three textures and has each screen displayed by the rasterizer: the
    left eye on slot 0, the right eye on slot 1, the bottom screen (which
    has no right-eye buffers) on slot 2. *)
Example PrepareRendertarget_sample_events :
  emitted PrepareRendertarget Sample.renderer
  = [EvCreateImage Slot0 240 400 1; EvCreateImageView 1001;
     EvAccelerateDisplay Slot0 402653184 240;
     EvCreateImage Slot1 240 400 1; EvCreateImageView 1004;
     EvAccelerateDisplay Slot1 403229184 240;
     EvCreateImage Slot2 240 320 1; EvCreateImageView 1007;
     EvAccelerateDisplay Slot2 404035584 240].
Proof. vm_compute. reflexivity. Qed.

(** A second call with the same registers reallocates nothing. *)
Example PrepareRendertarget_sample_again :
  emitted PrepareRendertarget (final (PrepareRendertarget Sample.renderer))
  = [EvAccelerateDisplay Slot0 402653184 240;
     EvAccelerateDisplay Slot1 403229184 240;
     EvAccelerateDisplay Slot2 404035584 240].
Proof. vm_compute. reflexivity. Qed.

(** Presenting the 800 by 480 sample layout on a window whose frame is
    still empty: the frame is resized behind the drain, two screens are
    drawn, the frame is flushed and presented. *)
Example RenderToWindow_sample_events :
  let es :=
    emitted (RenderToWindow (PresentWindow.mk MainWindow Frame.empty)
               Sample.layout false)
            (final (PrepareRendertarget Sample.renderer)) in
  firstn 4 es
  = [EvGetRenderFrame MainWindow; EvWaitPresent MainWindow; EvFinish;
     EvRecreateFrame MainWindow Frame.empty 800 480]
  /\ map DrawInfo.screen_id_l (draws es) = [0; 2]
  /\ skipn (length es - 2) es
     = [EvFlush 0;
        EvPresent MainWindow (Frame.mk 800 480 900 901 902 903 0)].
Proof. vm_compute. repeat split. Qed.

(** A screenshot of the sample layout asks for 800 * 480 * 4 bytes. *)
Example RenderScreenshot_sample_size :
  staging_size
    (set_settings
       (RendererSettings.mk false false true Sample.layout 4096)
       Sample.renderer)
  = 1536000.
Proof. reflexivity. Qed.

(** * Further properties *)

(** ** The colour of a fill *)

(** One channel of the clear colour: [color / 255.0f] for a byte. *)
Definition channel (z : Z) : f32 := F32.of_u32 (u8 z) /f F32.c255.

Definition in_unit_interval (x : f32) : bool :=
  SFleb F32.zero x && SFleb x F32.one.

Definition bytes : list Z := map Z.of_nat (seq 0 256).

Lemma u8_in_bytes z : In (u8 z) bytes.
Proof.
  unfold bytes, u8.
  assert (B : 0 <= z mod 2 ^ 8 < 256) by (apply Z.mod_pos_bound; lia).
  apply in_map_iff. exists (Z.to_nat (z mod 2 ^ 8)).
  split; [lia|]. apply in_seq. lia.
Qed.

Lemma u8_idem z : u8 (u8 z) = u8 z.
Proof. unfold u8. apply Z.mod_mod. lia. Qed.

Lemma channel_u8 z : channel (u8 z) = channel z.
Proof. unfold channel. rewrite u8_idem. reflexivity. Qed.

Definition channel_table : list (Z * f32) :=
  map (fun a => (a, channel a)) bytes.

Definition channels_ordered (table : list (Z * f32)) : bool :=
  forallb (fun p =>
    in_unit_interval (snd p)
    && forallb (fun q => Bool.eqb (SFltb (snd p) (snd q)) (fst p <? fst q))
         table) table.

Lemma channels_checked :
  forall a b, In a bytes -> In b bytes ->
  in_unit_interval (channel a) = true
  /\ SFltb (channel a) (channel b) = (a <? b).
Proof.
  assert (C : channels_ordered channel_table = true)
    by (vm_compute; reflexivity).
  unfold channels_ordered in C. rewrite forallb_forall in C.
  intros a b Ha Hb.
  assert (Ia : In (a, channel a) channel_table)
    by (apply in_map_iff; exists a; split; [reflexivity|exact Ha]).
  assert (Ib : In (b, channel b) channel_table)
    by (apply in_map_iff; exists b; split; [reflexivity|exact Hb]).
  specialize (C _ Ia). apply andb_true_iff in C as [U C].
  split; [exact U|].
  rewrite forallb_forall in C. specialize (C _ Ib).
  apply eqb_prop in C. exact C.
Qed.

(** X8.  [LoadColorToActiveVkTexture] closes the render pass and records
    one clear of the texture's image to the colour whose channels are the
    three bytes divided by 255 in binary32, with alpha 1.  Every channel
    lies in [0, 1]; byte 0 gives exactly 0 and byte 255 exactly 1; the
    channel of one byte is below that of another exactly when the byte is,
    so that different bytes give different channels. *)
Theorem LoadColorToActiveVkTexture_channels
    (color_r color_g color_b : Z) (texture : TextureInfo.t) (r : Renderer)
    (a b : Z) :
  emitted (LoadColorToActiveVkTexture color_r color_g color_b texture) r
  = [EvEndRendering;
     EvRecord
       (CmdClearColorImage (TextureInfo.image texture)
          (channel color_r, channel color_g, channel color_b, F32.one))]
  /\ in_unit_interval (channel a) = true
  /\ channel 0 = F32.zero
  /\ channel 255 = F32.one
  /\ SFltb (channel a) (channel b) = (u8 a <? u8 b)
  /\ (channel a = channel b <-> u8 a = u8 b).
Proof.
  assert (L : forall a b, SFltb (channel a) (channel b) = (u8 a <? u8 b)).
  { intros x y.
    destruct (channels_checked (u8 x) (u8 y) (u8_in_bytes x) (u8_in_bytes y))
      as [_ C].
    rewrite !channel_u8 in C. exact C. }
  split.
  { apply emitted_of_trace. destruct r; cbn. rewrite <- app_assoc.
    reflexivity. }
  split.
  { destruct (channels_checked (u8 a) (u8 a) (u8_in_bytes a) (u8_in_bytes a))
      as [C _].
    rewrite channel_u8 in C. exact C. }
  split; [vm_compute; reflexivity|].
  split; [vm_compute; reflexivity|].
  split; [apply L|].
  split.
  - intros E. pose proof (L a b) as Lab. pose proof (L b a) as Lba.
    rewrite E in Lab. rewrite <- E in Lba at 1.
    assert (I : forall x, SFltb (channel x) (channel x) = false).
    { intros x. rewrite L. apply Z.ltb_irrefl. }
    rewrite E in Lba. rewrite I in Lab, Lba.
    symmetry in Lab, Lba. apply Z.ltb_ge in Lab, Lba. lia.
  - intros E. rewrite <- (channel_u8 a), <- (channel_u8 b), E. reflexivity.
Qed.

(** ** The draws of a frame *)

(** The events of drawing a screen region: vertex uploads and draws. *)
Definition draw_event (e : Event) : bool :=
  match e with
  | EvVertexUpload _ _ | EvRecord (CmdDraw _ _) => true
  | _ => false
  end.

(** The slot a draw samples for the left eye, and its layer. *)
Definition id_layer (d : DrawInfo.t) : Z * Z :=
  (DrawInfo.screen_id_l d, DrawInfo.layer d).

(** [r'] differs from [r] in the uniform block, the vertex cursor and the
    trace at most. *)
Definition kept (r r' : Renderer) : Prop :=
  guest r' = guest r /\ host r' = host r /\ values r' = values r
  /\ settings r' = settings r /\ screen_infos r' = screen_infos r
  /\ current_pipeline r' = current_pipeline r
  /\ clear_color r' = clear_color r
  /\ present_samplers r' = present_samplers r.

Lemma kept_refl r : kept r r.
Proof. repeat split. Qed.

Lemma kept_trans r r1 r2 : kept r r1 -> kept r1 r2 -> kept r r2.
Proof.
  unfold kept. intros (A1 & A2 & A3 & A4 & A5 & A6 & A7 & A8)
    (B1 & B2 & B3 & B4 & B5 & B6 & B7 & B8).
  repeat split; congruence.
Qed.

(** A command that always returns, appends uploads and draws only, the
    draws sampling the slots and carrying the layers [f] gives for the
    settings and the layer on entry, and leaves the layer [g] gives. *)
Definition paints (c : Cmd unit) (f : Values.t -> Z -> list (Z * Z))
    (g : Values.t -> Z -> Z) : Prop :=
  forall r, exists r' es,
    c r = Done tt r'
    /\ trace r' = trace r ++ es
    /\ forallb draw_event es = true
    /\ map id_layer (draws es)
       = f (values r) (DrawInfo.layer (draw_info r))
    /\ DrawInfo.layer (draw_info r')
       = g (values r) (DrawInfo.layer (draw_info r))
    /\ kept r r'.

Lemma paints_ret : paints (ret tt) (fun _ _ => []) (fun _ l => l).
Proof.
  intros r. exists r, []. rewrite app_nil_r.
  repeat split.
Qed.

Lemma paints_set_layer z : paints (set_layer z) (fun _ _ => []) (fun _ _ => z).
Proof.
  intros r. exists (final (set_layer z r)), [].
  destruct r as [g h v st scr di cp cc ps vo tr]. cbn. rewrite app_nil_r.
  repeat split.
Qed.

Lemma paints_bind c1 c2 f1 g1 f2 g2 :
  paints c1 f1 g1 -> paints c2 f2 g2 ->
  paints (c1 ;; c2) (fun v l => f1 v l ++ f2 v (g1 v l))
         (fun v l => g2 v (g1 v l)).
Proof.
  intros H1 H2 r.
  destruct (H1 r) as (r1 & es1 & E1 & T1 & D1 & F1 & G1 & K1).
  destruct (H2 r1) as (r2 & es2 & E2 & T2 & D2 & F2 & G2 & K2).
  assert (V : values r1 = values r) by apply K1.
  exists r2, (es1 ++ es2). unfold bind. rewrite E1, E2.
  split; [reflexivity|].
  split; [rewrite T2, T1, app_assoc; reflexivity|].
  split; [rewrite forallb_app, D1, D2; reflexivity|].
  split.
  { unfold draws. rewrite pick_app, map_app. fold (draws es1) (draws es2).
    rewrite F1, F2, G1, V. reflexivity. }
  split; [rewrite G2, G1, V; reflexivity|].
  exact (kept_trans _ _ _ K1 K2).
Qed.

Lemma paints_when b c f g :
  paints c f g ->
  paints (when b c) (fun v l => if b then f v l else [])
         (fun v l => if b then g v l else l).
Proof. destruct b; intros H; [exact H|apply paints_ret]. Qed.

Lemma paints_ext c f g f' g' :
  paints c f g ->
  (forall v l, f v l = f' v l) -> (forall v l, g v l = g' v l) ->
  paints c f' g'.
Proof.
  intros H Hf Hg r. destruct (H r) as (r' & es & E & T & D & F & G & K).
  exists r', es. rewrite <- Hf, <- Hg. repeat split; try assumption; apply K.
Qed.

Lemma paints_DrawSingleScreen screen_id x y w h o :
  recognized o = true ->
  paints (DrawSingleScreen screen_id x y w h o)
         (fun _ l => [(slot_index screen_id, l)]) (fun _ l => l).
Proof.
  intros R r. pose proof (DrawSingleScreen_run screen_id x y w h o r) as H.
  destruct (orient _ x y w h o) as [[vs w'] h']. cbv zeta in H.
  eexists. eexists. split; [exact H|].
  unfold log_of. rewrite R.
  destruct r as [g hh v st scr di cp cc ps vo tr]. cbn.
  repeat split.
Qed.

Lemma paints_DrawSingleScreenStereo id_l id_r x y w h o :
  recognized o = true ->
  paints (DrawSingleScreenStereo id_l id_r x y w h o)
         (fun _ l => [(slot_index id_l, l)]) (fun _ l => l).
Proof.
  intros R r.
  pose proof (DrawSingleScreenStereo_run id_l id_r x y w h o r) as H.
  destruct (orient _ x y w h o) as [[vs w'] h']. cbv zeta in H.
  eexists. eexists. split; [exact H|].
  unfold log_of. rewrite R.
  destruct r as [g hh v st scr di cp cc ps vo tr]. cbn.
  repeat split.
Qed.

(** The slots and layers of the draws of the top region and of the bottom
    region, entered on layer [l], and the layer they leave. *)
Definition top_draws (v : Values.t) (l : Z) : list (Z * Z) :=
  match Values.render_3d v with
  | Off => [(slot_index (eye_slot (Values.mono_render_option v)), l)]
  | SideBySide | CardboardVR => [(0, l); (1, 1)]
  | Anaglyph | Interlaced | ReverseInterlaced => [(0, l)]
  end.

Definition bottom_draws (v : Values.t) (l : Z) : list (Z * Z) :=
  match Values.render_3d v with
  | SideBySide | CardboardVR => [(2, l); (2, 1)]
  | Off | Anaglyph | Interlaced | ReverseInterlaced => [(2, l)]
  end.

Definition layer_after (v : Values.t) (l : Z) : Z :=
  match Values.render_3d v with
  | SideBySide | CardboardVR => 1
  | Off | Anaglyph | Interlaced | ReverseInterlaced => l
  end.

Lemma paints_two id1 x1 y1 w1 h1 id2 x2 y2 w2 h2 o :
  recognized o = true ->
  paints (DrawSingleScreen id1 x1 y1 w1 h1 o ;; set_layer 1 ;;
          DrawSingleScreen id2 x2 y2 w2 h2 o)
         (fun _ l => [(slot_index id1, l); (slot_index id2, 1)])
         (fun _ _ => 1).
Proof.
  intros R.
  apply (paints_ext _ _ _ _ _
           (paints_bind _ _ _ _ _ _
              (paints_DrawSingleScreen id1 x1 y1 w1 h1 o R)
              (paints_bind _ _ _ _ _ _ (paints_set_layer 1)
                 (paints_DrawSingleScreen id2 x2 y2 w2 h2 o R))));
    reflexivity.
Qed.

Lemma paints_DrawTopScreen layout top_screen :
  paints (DrawTopScreen layout top_screen)
    (fun v l =>
       if FramebufferLayout.top_screen_enabled layout then top_draws v l
       else [])
    (fun v l =>
       if FramebufferLayout.top_screen_enabled layout then layer_after v l
       else l).
Proof.
  pose proof (recognized_orientation_of layout) as R.
  intros r. destruct (FramebufferLayout.top_screen_enabled layout) eqn:En.
  - rewrite (DrawTopScreen_enabled layout top_screen r En).
    unfold top_dispatch, top_draws, layer_after.
    destruct (Values.render_3d (values r)).
    + apply (paints_DrawSingleScreen _ _ _ _ _ _ R r).
    + apply (paints_two Slot0 _ _ _ _ Slot1 _ _ _ _ _ R r).
    + apply (paints_DrawSingleScreenStereo Slot0 Slot1 _ _ _ _ _ R r).
    + apply (paints_DrawSingleScreenStereo Slot0 Slot1 _ _ _ _ _ R r).
    + apply (paints_DrawSingleScreenStereo Slot0 Slot1 _ _ _ _ _ R r).
    + apply (paints_two Slot0 _ _ _ _ Slot1 _ _ _ _ _ R r).
  - unfold DrawTopScreen. rewrite En. apply (paints_ret r).
Qed.

(** The stereo dispatch of [DrawBottomScreen] on an enabled region. *)
Definition bottom_dispatch (layout : FramebufferLayout.t)
    (bottom_screen : Rectangle.t Z) (r : Renderer) : Cmd unit :=
  let left := F32.of_u32 (Rectangle.left bottom_screen) in
  let top := F32.of_u32 (Rectangle.top bottom_screen) in
  let width := F32.of_u32 (Host.GetWidth (host r) bottom_screen) in
  let height := F32.of_u32 (Host.GetHeight (host r) bottom_screen) in
  let o := orientation_of layout in
  match Values.render_3d (values r) with
  | Off => DrawSingleScreen Slot2 left top width height o
  | SideBySide =>
      DrawSingleScreen Slot2 (left /f F32.two) top (width /f F32.two)
        height o ;;
      set_layer 1 ;;
      DrawSingleScreen Slot2
        ((left /f F32.two)
         +f F32.of_u32 (u32 (FramebufferLayout.width layout) / 2))
        top (width /f F32.two) height o
  | CardboardVR =>
      DrawSingleScreen Slot2 left top width height o ;;
      set_layer 1 ;;
      DrawSingleScreen Slot2
        (F32.of_u32
           (u32 (CardboardSettings.bottom_screen_right_eye
                   (FramebufferLayout.cardboard layout)
                 + u32 (FramebufferLayout.width layout) / 2)))
        top width height o
  | Anaglyph | Interlaced | ReverseInterlaced =>
      DrawSingleScreenStereo Slot2 Slot2 left top width height o
  end.

Lemma DrawBottomScreen_enabled layout bottom_screen r :
  FramebufferLayout.bottom_screen_enabled layout = true ->
  DrawBottomScreen layout bottom_screen r
  = bottom_dispatch layout bottom_screen r r.
Proof.
  intros En. unfold DrawBottomScreen, bottom_dispatch. rewrite En.
  cbn [negb]. unfold bind at 1 2. unfold gets.
  destruct (Values.render_3d (values r)); reflexivity.
Qed.

Lemma paints_DrawBottomScreen layout bottom_screen :
  paints (DrawBottomScreen layout bottom_screen)
    (fun v l =>
       if FramebufferLayout.bottom_screen_enabled layout
       then bottom_draws v l else [])
    (fun v l =>
       if FramebufferLayout.bottom_screen_enabled layout
       then layer_after v l else l).
Proof.
  pose proof (recognized_orientation_of layout) as R.
  intros r. destruct (FramebufferLayout.bottom_screen_enabled layout) eqn:En.
  - rewrite (DrawBottomScreen_enabled layout bottom_screen r En).
    unfold bottom_dispatch, bottom_draws, layer_after.
    destruct (Values.render_3d (values r)).
    + apply (paints_DrawSingleScreen Slot2 _ _ _ _ _ R r).
    + apply (paints_two Slot2 _ _ _ _ Slot2 _ _ _ _ _ R r).
    + apply (paints_DrawSingleScreenStereo Slot2 Slot2 _ _ _ _ _ R r).
    + apply (paints_DrawSingleScreenStereo Slot2 Slot2 _ _ _ _ _ R r).
    + apply (paints_DrawSingleScreenStereo Slot2 Slot2 _ _ _ _ _ R r).
    + apply (paints_two Slot2 _ _ _ _ Slot2 _ _ _ _ _ R r).
  - unfold DrawBottomScreen. rewrite En. apply (paints_ret r).
Qed.

(** [DrawScreens] up to the first region, and from there on. *)
Definition begin_frame (frame : Frame.t) (layout : FramebufferLayout.t)
  : Cmd unit :=
  bg <- exchange_bg_color_update_requested ;;
  when bg (modify update_clear_color) ;;
  sh <- exchange_shader_update_requested ;;
  when sh ReloadPipeline ;;
  PrepareDraw frame layout ;;
  modify (fun r =>
    set_draw_info
      (DrawInfo.set_modelview
         (MakeOrthographicMatrix (FramebufferLayout.width layout)
                                 (FramebufferLayout.height layout))
         (draw_info r)) r) ;;
  set_layer 0.

Definition draw_regions (layout : FramebufferLayout.t) (swap_screen : bool)
  : Cmd unit :=
  (if negb swap_screen then
     DrawTopScreen layout (FramebufferLayout.top_screen layout) ;;
     set_layer 0 ;;
     DrawBottomScreen layout (FramebufferLayout.bottom_screen layout)
   else
     DrawBottomScreen layout (FramebufferLayout.bottom_screen layout) ;;
     set_layer 0 ;;
     DrawTopScreen layout (FramebufferLayout.top_screen layout)) ;;
  when (FramebufferLayout.additional_screen_enabled layout)
    (if negb swap_screen
     then DrawTopScreen layout (FramebufferLayout.additional_screen layout)
     else DrawBottomScreen layout
            (FramebufferLayout.additional_screen layout)).

(** The clear value and the pipeline of the frame: the ones in force, or the
    new ones when an update was requested. *)
Definition frame_clear (r : Renderer) : Color :=
  if RendererSettings.bg_color_update_requested (settings r)
  then clear_color (update_clear_color r) else clear_color r.

Definition frame_pipeline (r : Renderer) : Z :=
  if RendererSettings.shader_update_requested (settings r)
  then pipeline_index (Values.render_3d (values r)) else current_pipeline r.

Definition frame_sampler (r : Renderer) : Handle :=
  if Values.filter_mode (values r) then fst (present_samplers r)
  else snd (present_samplers r).

Definition frame_bindings (r : Renderer) : list (Handle * Handle) :=
  map (fun i => (frame_sampler r, ScreenInfo.image_view (screen_info i r)))
      all_slots.

(** The events of [PrepareDraw] run from [r]. *)
Definition begin_events_at (frame : Frame.t) (layout : FramebufferLayout.t)
    (r : Renderer) : list Event :=
  [EvAcquire (frame_bindings r);
   EvEndRendering;
   EvRecord
     (CmdBeginPresent (Frame.framebuffer frame)
        (FramebufferLayout.width layout) (FramebufferLayout.height layout)
        (Frame.width frame) (Frame.height frame)
        (clear_color r) (current_pipeline r)
        (Host.Acquire (host r)
           (length (trace r ++ [EvAcquire (frame_bindings r)]))
           (frame_bindings r)))].

(** The events that open the frame in [DrawScreens] run from [r]. *)
Definition begin_events (frame : Frame.t) (layout : FramebufferLayout.t)
    (r : Renderer) : list Event :=
  [EvAcquire (frame_bindings r);
   EvEndRendering;
   EvRecord
     (CmdBeginPresent (Frame.framebuffer frame)
        (FramebufferLayout.width layout) (FramebufferLayout.height layout)
        (Frame.width frame) (Frame.height frame)
        (frame_clear r) (frame_pipeline r)
        (Host.Acquire (host r)
           (length (trace r ++ [EvAcquire (frame_bindings r)]))
           (frame_bindings r)))].

Lemma exchange_bg_run r :
  exchange_bg_color_update_requested r
  = Done (RendererSettings.bg_color_update_requested (settings r))
      (set_settings
         (RendererSettings.set_bg_color_update_requested false (settings r))
         r).
Proof. reflexivity. Qed.

Lemma exchange_shader_run r :
  exchange_shader_update_requested r
  = Done (RendererSettings.shader_update_requested (settings r))
      (set_settings
         (RendererSettings.set_shader_update_requested false (settings r)) r).
Proof. reflexivity. Qed.

Lemma ReloadPipeline_run r :
  ReloadPipeline r = Done tt (final (ReloadPipeline r)).
Proof.
  unfold ReloadPipeline, bind, gets.
  destruct (Values.render_3d (values r)); reflexivity.
Qed.

Lemma PrepareDraw_run frame layout r :
  PrepareDraw frame layout r
  = Done tt (set_trace (trace r ++ begin_events_at frame layout r) r).
Proof.
  unfold PrepareDraw, begin_events_at, frame_bindings, frame_sampler, bind,
    gets, emit, modify, now.
  destruct r as [g h v st scr di cp cc ps vo tr]. cbn.
  rewrite <- !app_assoc. reflexivity.
Qed.

(** The renderer once the frame is begun. *)
Definition begun (frame : Frame.t) (layout : FramebufferLayout.t)
    (r : Renderer) : Renderer :=
  let r1 :=
    set_settings
      (RendererSettings.set_bg_color_update_requested false (settings r)) r in
  let r2 :=
    if RendererSettings.bg_color_update_requested (settings r)
    then update_clear_color r1 else r1 in
  let r3 :=
    set_settings
      (RendererSettings.set_shader_update_requested false (settings r2)) r2 in
  let r4 :=
    if RendererSettings.shader_update_requested (settings r2)
    then final (ReloadPipeline r3) else r3 in
  let r5 := set_trace (trace r4 ++ begin_events_at frame layout r4) r4 in
  final (set_layer 0
    (set_draw_info
       (DrawInfo.set_modelview
          (MakeOrthographicMatrix (FramebufferLayout.width layout)
                                  (FramebufferLayout.height layout))
          (draw_info r5)) r5)).

Lemma begin_frame_begun frame layout r :
  begin_frame frame layout r = Done tt (begun frame layout r).
Proof.
  unfold begin_frame, begun.
  rewrite (bind_done _ _ _ _ _ (exchange_bg_run r)).
  set (r1 := set_settings _ r).
  destruct (RendererSettings.bg_color_update_requested (settings r)).
  - unfold when, bind at 1, modify at 1.
    rewrite (bind_done _ _ _ _ _ (exchange_shader_run _)).
    set (r3 := set_settings _ (update_clear_color r1)).
    destruct (RendererSettings.shader_update_requested
                (settings (update_clear_color r1))).
    + unfold bind at 1. rewrite ReloadPipeline_run.
      rewrite (bind_done _ _ _ _ _ (PrepareDraw_run frame layout _)).
      reflexivity.
    + unfold bind at 1, ret at 1.
      rewrite (bind_done _ _ _ _ _ (PrepareDraw_run frame layout _)).
      reflexivity.
  - unfold when, bind at 1, ret at 1.
    rewrite (bind_done _ _ _ _ _ (exchange_shader_run _)).
    set (r3 := set_settings _ r1).
    destruct (RendererSettings.shader_update_requested (settings r1)).
    + unfold bind at 1. rewrite ReloadPipeline_run.
      rewrite (bind_done _ _ _ _ _ (PrepareDraw_run frame layout _)).
      reflexivity.
    + unfold bind at 1, ret at 1.
      rewrite (bind_done _ _ _ _ _ (PrepareDraw_run frame layout _)).
      reflexivity.
Qed.

(** What [update_clear_color] and [ReloadPipeline] leave alone. *)
Lemma update_clear_color_kept r :
  let r' := update_clear_color r in
  trace r' = trace r /\ guest r' = guest r /\ host r' = host r
  /\ values r' = values r /\ settings r' = settings r
  /\ screen_infos r' = screen_infos r
  /\ present_samplers r' = present_samplers r
  /\ current_pipeline r' = current_pipeline r
  /\ draw_info r' = draw_info r.
Proof.
  destruct r as [g h v st scr di cp cc ps vo tr].
  destruct cc as [[[c0 c1] c2] c3]. repeat split.
Qed.

Lemma ReloadPipeline_kept r :
  let r' := final (ReloadPipeline r) in
  trace r' = trace r /\ guest r' = guest r /\ host r' = host r
  /\ values r' = values r /\ settings r' = settings r
  /\ screen_infos r' = screen_infos r
  /\ present_samplers r' = present_samplers r
  /\ clear_color r' = clear_color r
  /\ current_pipeline r' = pipeline_index (Values.render_3d (values r))
  /\ DrawInfo.layer (draw_info r') = DrawInfo.layer (draw_info r).
Proof.
  destruct r as [g h v st scr di cp cc ps vo tr].
  destruct v as [m mono fm sw br bgr bb]. destruct m; repeat split.
Qed.

Lemma begin_frame_run frame layout r :
  exists r0,
    begin_frame frame layout r = Done tt r0
    /\ trace r0 = trace r ++ begin_events frame layout r
    /\ guest r0 = guest r /\ host r0 = host r /\ values r0 = values r
    /\ screen_infos r0 = screen_infos r
    /\ present_samplers r0 = present_samplers r
    /\ clear_color r0 = frame_clear r
    /\ current_pipeline r0 = frame_pipeline r
    /\ DrawInfo.layer (draw_info r0) = 0
    /\ settings r0
       = RendererSettings.set_shader_update_requested false
           (RendererSettings.set_bg_color_update_requested false
              (settings r)).
Proof.
  exists (begun frame layout r).
  split; [apply begin_frame_begun|].
  unfold begun, begin_events, begin_events_at, frame_bindings, frame_sampler,
    frame_clear, frame_pipeline, screen_info.
  set (r1 := set_settings _ r).
  assert (K1 : trace r1 = trace r /\ guest r1 = guest r /\ host r1 = host r
               /\ values r1 = values r /\ screen_infos r1 = screen_infos r
               /\ present_samplers r1 = present_samplers r
               /\ clear_color r1 = clear_color r
               /\ current_pipeline r1 = current_pipeline r
               /\ settings r1
                  = RendererSettings.set_bg_color_update_requested false
                      (settings r))
    by (repeat split).
  destruct K1 as (T1 & G1 & H1 & V1 & S1 & P1 & C1 & Q1 & X1).
  set (r2 := if RendererSettings.bg_color_update_requested (settings r)
             then update_clear_color r1 else r1).
  assert (K2 : trace r2 = trace r /\ guest r2 = guest r /\ host r2 = host r
               /\ values r2 = values r /\ screen_infos r2 = screen_infos r
               /\ present_samplers r2 = present_samplers r
               /\ clear_color r2
                  = (if RendererSettings.bg_color_update_requested
                          (settings r)
                     then clear_color (update_clear_color r)
                     else clear_color r)
               /\ current_pipeline r2 = current_pipeline r
               /\ settings r2
                  = RendererSettings.set_bg_color_update_requested false
                      (settings r)).
  { unfold r2.
    destruct (RendererSettings.bg_color_update_requested (settings r)).
    - destruct (update_clear_color_kept r1)
        as (A1 & A2 & A3 & A4 & A5 & A6 & A7 & A8 & A9).
      repeat split; try congruence.
      unfold update_clear_color. rewrite C1, V1.
      destruct (clear_color r) as [[[c0 c1] c2] c3]. reflexivity.
    - repeat split; assumption. }
  clearbody r2. clear r1 T1 G1 H1 V1 S1 P1 C1 Q1 X1.
  destruct K2 as (T2 & G2 & H2 & V2 & S2 & P2 & C2 & Q2 & X2).
  cbv zeta.
  set (r3 := set_settings _ r2).
  assert (F : RendererSettings.shader_update_requested (settings r2)
              = RendererSettings.shader_update_requested (settings r))
    by (rewrite X2; reflexivity).
  rewrite F.
  set (r4 := if RendererSettings.shader_update_requested (settings r)
             then final (ReloadPipeline r3) else r3).
  assert (K4 : trace r4 = trace r /\ guest r4 = guest r /\ host r4 = host r
               /\ values r4 = values r /\ screen_infos r4 = screen_infos r
               /\ present_samplers r4 = present_samplers r
               /\ clear_color r4 = clear_color r2
               /\ current_pipeline r4
                  = (if RendererSettings.shader_update_requested (settings r)
                     then pipeline_index (Values.render_3d (values r))
                     else current_pipeline r)
               /\ settings r4
                  = RendererSettings.set_shader_update_requested false
                      (RendererSettings.set_bg_color_update_requested false
                         (settings r))).
  { assert (K3 : trace r3 = trace r /\ guest r3 = guest r
                 /\ host r3 = host r /\ values r3 = values r
                 /\ screen_infos r3 = screen_infos r
                 /\ present_samplers r3 = present_samplers r
                 /\ clear_color r3 = clear_color r2
                 /\ current_pipeline r3 = current_pipeline r
                 /\ settings r3
                    = RendererSettings.set_shader_update_requested false
                        (RendererSettings.set_bg_color_update_requested false
                           (settings r)))
      by (unfold r3; cbn; rewrite X2; repeat split; assumption).
    destruct K3 as (T3 & G3 & H3 & V3 & S3 & P3 & C3 & Q3 & X3).
    unfold r4.
    destruct (RendererSettings.shader_update_requested (settings r)).
    - destruct (ReloadPipeline_kept r3)
        as (A1 & A2 & A3 & A4 & A5 & A6 & A7 & A8 & A9 & _).
      repeat split; congruence.
    - repeat split; assumption. }
  clearbody r4. clear r3 F.
  destruct K4 as (T4 & G4 & H4 & V4 & S4 & P4 & C4 & Q4 & X4).
  cbn. rewrite T4, G4, H4, V4, S4, P4, C4, Q4, X4, C2.
  rewrite <- ?app_assoc. repeat split.
Qed.

Lemma bind_assoc {A B C} (c : Cmd A) (k : A -> Cmd B) (k' : B -> Cmd C) r :
  bind (bind c k) k' r = bind c (fun a => bind (k a) k') r.
Proof. unfold bind. destruct (c r); reflexivity. Qed.

(** [DrawScreens] with what follows the opening of the frame abstracted. *)
Definition DrawScreens_then (K : Cmd unit) (frame : Frame.t)
    (layout : FramebufferLayout.t) : Cmd unit :=
  bg <- exchange_bg_color_update_requested ;;
  when bg (modify update_clear_color) ;;
  sh <- exchange_shader_update_requested ;;
  when sh ReloadPipeline ;;
  PrepareDraw frame layout ;;
  modify (fun r =>
    set_draw_info
      (DrawInfo.set_modelview
         (MakeOrthographicMatrix (FramebufferLayout.width layout)
                                 (FramebufferLayout.height layout))
         (draw_info r)) r) ;;
  set_layer 0 ;;
  K.

Lemma DrawScreens_then_bind K frame layout r :
  DrawScreens_then K frame layout r
  = bind (begin_frame frame layout) (fun _ => K) r.
Proof.
  unfold DrawScreens_then, begin_frame, bind.
  destruct (exchange_bg_color_update_requested r) as [bg r1|]; [|reflexivity].
  destruct (when bg _ r1) as [[] r2|]; [|reflexivity].
  destruct (exchange_shader_update_requested r2) as [sh r3|]; [|reflexivity].
  destruct (when sh _ r3) as [[] r4|]; [|reflexivity].
  destruct (PrepareDraw frame layout r4) as [[] r5|]; [|reflexivity].
  destruct (modify _ r5) as [[] r6|]; [|reflexivity].
  destruct (set_layer 0 r6) as [[] r7|]; reflexivity.
Qed.

Lemma DrawScreens_split frame layout flipped r :
  DrawScreens frame layout flipped r
  = (draw_regions layout (Values.swap_screen (values r)) ;;
     emit (EvRecord (CmdEndPresent (Frame.image frame))))
      (final (begin_frame frame layout r)).
Proof.
  change (DrawScreens frame layout flipped)
    with (DrawScreens_then
            (swap_screen <- gets (fun r => Values.swap_screen (values r)) ;;
             (if negb swap_screen then
                DrawTopScreen layout (FramebufferLayout.top_screen layout) ;;
                set_layer 0 ;;
                DrawBottomScreen layout
                  (FramebufferLayout.bottom_screen layout)
              else
                DrawBottomScreen layout
                  (FramebufferLayout.bottom_screen layout) ;;
                set_layer 0 ;;
                DrawTopScreen layout (FramebufferLayout.top_screen layout)) ;;
             when (FramebufferLayout.additional_screen_enabled layout)
               (if negb swap_screen
                then DrawTopScreen layout
                       (FramebufferLayout.additional_screen layout)
                else DrawBottomScreen layout
                       (FramebufferLayout.additional_screen layout)) ;;
             emit (EvRecord (CmdEndPresent (Frame.image frame))))
            frame layout).
  rewrite DrawScreens_then_bind.
  destruct (begin_frame_run frame layout r)
    as (r0 & E & _ & _ & _ & V & _).
  rewrite (bind_done _ _ _ _ _ E), E. cbn [final].
  (unfold draw_regions; rewrite bind_assoc).
  unfold bind at 1. unfold gets at 1. rewrite V. reflexivity.
Qed.

(** The draws of an enabled or disabled region, and the layer it leaves. *)
Definition region_top (layout : FramebufferLayout.t) (v : Values.t) (l : Z)
  : list (Z * Z) :=
  if FramebufferLayout.top_screen_enabled layout then top_draws v l else [].

Definition region_bottom (layout : FramebufferLayout.t) (v : Values.t)
    (l : Z) : list (Z * Z) :=
  if FramebufferLayout.bottom_screen_enabled layout then bottom_draws v l
  else [].

Definition after_top (layout : FramebufferLayout.t) (v : Values.t) (l : Z)
  : Z :=
  if FramebufferLayout.top_screen_enabled layout then layer_after v l else l.

Definition after_bottom (layout : FramebufferLayout.t) (v : Values.t) (l : Z)
  : Z :=
  if FramebufferLayout.bottom_screen_enabled layout then layer_after v l
  else l.

(** The slots and layers of the draws of a frame, in order. *)
Definition frame_draws (layout : FramebufferLayout.t) (v : Values.t)
  : list (Z * Z) :=
  if Values.swap_screen v then
    region_bottom layout v 0 ++ region_top layout v 0
    ++ (if FramebufferLayout.additional_screen_enabled layout
        then region_bottom layout v (after_top layout v 0) else [])
  else
    region_top layout v 0 ++ region_bottom layout v 0
    ++ (if FramebufferLayout.additional_screen_enabled layout
        then region_top layout v (after_bottom layout v 0) else []).

Lemma paints_draw_regions layout swap_screen :
  paints (draw_regions layout swap_screen)
    (fun v l =>
       if swap_screen then
         region_bottom layout v l ++ region_top layout v 0
         ++ (if FramebufferLayout.additional_screen_enabled layout
             then region_bottom layout v (after_top layout v 0) else [])
       else
         region_top layout v l ++ region_bottom layout v 0
         ++ (if FramebufferLayout.additional_screen_enabled layout
             then region_top layout v (after_bottom layout v 0) else []))
    (fun v l =>
       if swap_screen then
         if FramebufferLayout.additional_screen_enabled layout
         then after_bottom layout v (after_top layout v 0)
         else after_top layout v 0
       else
         if FramebufferLayout.additional_screen_enabled layout
         then after_top layout v (after_bottom layout v 0)
         else after_bottom layout v 0).
Proof.
  unfold draw_regions.
  pose proof (paints_DrawTopScreen layout) as PT.
  pose proof (paints_DrawBottomScreen layout) as PB.
  destruct swap_screen; cbn [negb].
  - eapply paints_ext.
    + apply paints_bind.
      * apply paints_bind; [apply PB|].
        apply paints_bind; [apply paints_set_layer|apply PT].
      * apply paints_when. apply PB.
    + intros v l. cbn. unfold region_bottom, region_top.
      rewrite <- app_assoc. reflexivity.
    + intros v l. reflexivity.
  - eapply paints_ext.
    + apply paints_bind.
      * apply paints_bind; [apply PT|].
        apply paints_bind; [apply paints_set_layer|apply PB].
      * apply paints_when. apply PT.
    + intros v l. cbn. unfold region_bottom, region_top.
      rewrite <- app_assoc. reflexivity.
    + intros v l. reflexivity.
Qed.

Lemma draws_begin_events frame layout r :
  draws (begin_events frame layout r) = [].
Proof. reflexivity. Qed.

(** The run of [DrawScreens]. *)
Lemma DrawScreens_run frame layout flipped r :
  exists r0 r1 es,
    begin_frame frame layout r = Done tt r0
    /\ DrawScreens frame layout flipped r
       = Done tt
           (set_trace
              (trace r1 ++ [EvRecord (CmdEndPresent (Frame.image frame))])
              r1)
    /\ trace r1 = trace r ++ begin_events frame layout r ++ es
    /\ forallb draw_event es = true
    /\ map id_layer (draws es) = frame_draws layout (values r)
    /\ kept r0 r1.
Proof.
  destruct (begin_frame_run frame layout r)
    as (r0 & E & T & G & H & V & S & P & C & Q & L & X).
  destruct (paints_draw_regions layout (Values.swap_screen (values r)) r0)
    as (r1 & es & E1 & T1 & D1 & F1 & _ & K1).
  exists r0, r1, es.
  split; [exact E|].
  split.
  { rewrite DrawScreens_split, E. cbn [final].
    rewrite (bind_done _ _ _ _ _ E1). reflexivity. }
  split; [rewrite T1, T, app_assoc; reflexivity|].
  split; [exact D1|].
  split; [|exact K1].
  rewrite F1, L, V. unfold frame_draws.
  destruct (Values.swap_screen (values r)); reflexivity.
Qed.

(** X2.  The draws [DrawScreens] records, in order, by the slot they sample
    and their layer: the top region then the bottom region, or the bottom
    then the top when the screens are swapped, each entered on layer 0 (one
    draw, or in SideBySide and CardboardVR a second one on layer 1; nothing
    for a disabled region); then, when the layout has an additional screen,
    the region drawn first once more, on the layer the second region left,
    the layer not being reset before it. *)
Theorem DrawScreens_draws
    (frame : Frame.t) (layout : FramebufferLayout.t) (flipped : bool)
    (r : Renderer) :
  map id_layer (draws (emitted (DrawScreens frame layout flipped) r))
  = frame_draws layout (values r).
Proof.
  destruct (DrawScreens_run frame layout flipped r)
    as (r0 & r1 & es & _ & E & T & _ & F & _).
  rewrite (emitted_of_trace (DrawScreens frame layout flipped) r
             (begin_events frame layout r ++ es
              ++ [EvRecord (CmdEndPresent (Frame.image frame))])).
  - unfold draws. rewrite !pick_app. fold (draws es). cbn.
    rewrite app_nil_r. exact F.
  - rewrite E. cbn. rewrite T, <- !app_assoc. reflexivity.
Qed.

(** X3.  [DrawScreens] always returns.  Its events are: the acquisition of
    a descriptor set binding the views of the three screens, in slot order,
    with one sampler (the first of the two when filtering is on, the second
    otherwise); the end of the open render pass; the recorded begin of the
    present pass on the frame's framebuffer, with the layout's extent as
    viewport, the frame's as render area, the clear colour and the pipeline
    of the frame; vertex uploads and draws only; the recorded end of the
    pass on the frame's image.  The clear colour is the background colour of
    the settings when an update was requested (alpha kept) and the pipeline
    the one of the stereo setting when a shader update was requested,
    otherwise the ones in force; both stay in force afterwards, and both
    requests read false afterwards.  The screenshot request and the screens
    are untouched, and [flipped] has no effect. *)
Theorem DrawScreens_render_pass
    (frame : Frame.t) (layout : FramebufferLayout.t) (flipped : bool)
    (r : Renderer) :
  let r' := final (DrawScreens frame layout flipped r) in
  completes (DrawScreens frame layout flipped r) = true
  /\ (exists middle,
        emitted (DrawScreens frame layout flipped) r
        = begin_events frame layout r ++ middle
          ++ [EvRecord (CmdEndPresent (Frame.image frame))]
        /\ forallb draw_event middle = true)
  /\ RendererSettings.bg_color_update_requested (settings r') = false
  /\ RendererSettings.shader_update_requested (settings r') = false
  /\ RendererSettings.screenshot_requested (settings r')
     = RendererSettings.screenshot_requested (settings r)
  /\ clear_color r' = frame_clear r
  /\ current_pipeline r' = frame_pipeline r
  /\ screen_infos r' = screen_infos r
  /\ DrawScreens frame layout (negb flipped) r
     = DrawScreens frame layout flipped r.
Proof.
  cbv zeta.
  assert (Fl : DrawScreens frame layout (negb flipped) r
               = DrawScreens frame layout flipped r) by reflexivity.
  revert Fl. generalize (DrawScreens frame layout (negb flipped) r).
  intros other Fl.
  destruct (begin_frame_run frame layout r)
    as (r0' & E0' & _ & _ & _ & _ & S0 & _ & C0 & Q0 & _ & X0).
  destruct (DrawScreens_run frame layout flipped r)
    as (r0 & r1 & es & E0 & E & T & D & _ & K).
  rewrite E0' in E0. injection E0 as <-.
  destruct K as (_ & _ & _ & K4 & K5 & K6 & K7 & _).
  rewrite E. cbn [final completes].
  split; [reflexivity|].
  split.
  { exists es. split; [|exact D].
    apply emitted_of_trace. rewrite E. cbn. rewrite T, <- !app_assoc.
    reflexivity. }
  assert (S : settings (set_trace
                (trace r1 ++ [EvRecord (CmdEndPresent (Frame.image frame))])
                r1) = settings r0')
    by (rewrite <- K4; destruct r1; reflexivity).
  rewrite S, X0.
  split; [reflexivity|]. split; [reflexivity|]. split; [reflexivity|].
  split; [rewrite <- C0, <- K7; destruct r1; reflexivity|].
  split; [rewrite <- Q0, <- K6; destruct r1; reflexivity|].
  split; [rewrite <- S0, <- K5; destruct r1; reflexivity|].
  rewrite Fl. exact E.
Qed.

(** X1.  On an enabled bottom region [DrawBottomScreen] samples slot 2 in
    every draw: with stereo Off one draw of the full region; with
    SideBySide two draws of half the region width, at half the region's left
    and at that plus half the layout width, the second on layer 1, the two
    widths adding up to the region width; with CardboardVR two draws of the
    full region, at the region's left and at the layout's right-eye offset
    plus half the layout width, the second on layer 1; with the other modes
    one draw of the full region binding slot 2 for both eyes.  On a disabled
    region it does nothing. *)
Theorem DrawBottomScreen_region_coverage
    (layout : FramebufferLayout.t) (bottom_screen : Rectangle.t Z)
    (r : Renderer) :
  let left := F32.of_u32 (Rectangle.left bottom_screen) in
  let top := F32.of_u32 (Rectangle.top bottom_screen) in
  let width := F32.of_u32 (Host.GetWidth (host r) bottom_screen) in
  let height := F32.of_u32 (Host.GetHeight (host r) bottom_screen) in
  let half_layout := F32.of_u32 (u32 (FramebufferLayout.width layout) / 2) in
  let right_eye :=
    F32.of_u32
      (u32 (CardboardSettings.bottom_screen_right_eye
              (FramebufferLayout.cardboard layout)
            + u32 (FramebufferLayout.width layout) / 2)) in
  let es := emitted (DrawBottomScreen layout bottom_screen) r in
  let sit := map positions (uploads es) in
  let ids := map DrawInfo.screen_id_l (draws es) in
  let layers := map DrawInfo.layer (draws es) in
  if FramebufferLayout.bottom_screen_enabled layout then
    match Values.render_3d (values r) with
    | Off =>
        sit = [corners left top width height] /\ ids = [2]
    | SideBySide =>
        sit = [corners (left /f F32.two) top (width /f F32.two) height;
               corners ((left /f F32.two) +f half_layout) top
                       (width /f F32.two) height]
        /\ ids = [2; 2]
        /\ layers = [DrawInfo.layer (draw_info r); 1]
        /\ (width /f F32.two) +f (width /f F32.two) = width
    | CardboardVR =>
        sit = [corners left top width height;
               corners right_eye top width height]
        /\ ids = [2; 2]
        /\ layers = [DrawInfo.layer (draw_info r); 1]
    | Anaglyph | Interlaced | ReverseInterlaced =>
        sit = [corners left top width height]
        /\ ids = [2]
        /\ map DrawInfo.screen_id_r (draws es) = [2]
    end
  else es = [].
Proof.
  cbv zeta.
  pose proof (recognized_orientation_of layout) as R.
  destruct (FramebufferLayout.bottom_screen_enabled layout) eqn:En.
  - rewrite (emitted_ext _ _ _
               (DrawBottomScreen_enabled layout bottom_screen r En)).
    unfold bottom_dispatch.
    destruct (Values.render_3d (values r)).
    + apply (DrawSingleScreen_shows Slot2). exact R.
    + destruct (two_draws_show Slot2
                  (F32.of_u32 (Rectangle.left bottom_screen) /f F32.two)
                  (F32.of_u32 (Rectangle.top bottom_screen))
                  (F32.of_u32 (Host.GetWidth (host r) bottom_screen)
                   /f F32.two)
                  (F32.of_u32 (Host.GetHeight (host r) bottom_screen))
                  Slot2
                  ((F32.of_u32 (Rectangle.left bottom_screen) /f F32.two)
                   +f F32.of_u32 (u32 (FramebufferLayout.width layout) / 2))
                  (F32.of_u32 (Rectangle.top bottom_screen))
                  (F32.of_u32 (Host.GetWidth (host r) bottom_screen)
                   /f F32.two)
                  (F32.of_u32 (Host.GetHeight (host r) bottom_screen))
                  (orientation_of layout) r R) as (P & I & L).
      split; [exact P|]. split; [exact I|]. split; [exact L|].
      apply F32Facts.halves_sum.
    + apply (DrawSingleScreenStereo_shows Slot2 Slot2). exact R.
    + apply (DrawSingleScreenStereo_shows Slot2 Slot2). exact R.
    + apply (DrawSingleScreenStereo_shows Slot2 Slot2). exact R.
    + destruct (two_draws_show Slot2
                  (F32.of_u32 (Rectangle.left bottom_screen))
                  (F32.of_u32 (Rectangle.top bottom_screen))
                  (F32.of_u32 (Host.GetWidth (host r) bottom_screen))
                  (F32.of_u32 (Host.GetHeight (host r) bottom_screen))
                  Slot2
                  (F32.of_u32
                     (u32 (CardboardSettings.bottom_screen_right_eye
                             (FramebufferLayout.cardboard layout)
                           + u32 (FramebufferLayout.width layout) / 2)))
                  (F32.of_u32 (Rectangle.top bottom_screen))
                  (F32.of_u32 (Host.GetWidth (host r) bottom_screen))
                  (F32.of_u32 (Host.GetHeight (host r) bottom_screen))
                  (orientation_of layout) r R) as (P & I & L).
      split; [exact P|]. split; [exact I|]. exact L.
  - apply emitted_of_trace. unfold DrawBottomScreen. rewrite En. cbn.
    rewrite app_nil_r. reflexivity.
Qed.

(** ** Presenting what was drawn *)

(** X4.  [RenderToWindow] returns the window with the frame it presented,
    and that frame is the one it composed into: after taking the frame (and
    resizing it when needed) the present pass begins on its framebuffer and
    ends on its image, the flush signals its completion semaphore, which is
    the one the frame had, and the present hands the same frame to the
    window.  The frame has the layout's width and height, so the render area
    of the pass is the viewport. *)
Theorem RenderToWindow_presents_drawn_frame
    (window : PresentWindow.t) (layout : FramebufferLayout.t) (flipped : bool)
    (r : Renderer) :
  let w := PresentWindow.id window in
  let frame :=
    acquired_frame (host r) (length (acquired_trace window layout r))
      window layout in
  let r1 := set_trace (acquired_trace window layout r) r in
  exists r' middle,
    RenderToWindow window layout flipped r
    = Done (PresentWindow.mk w frame) r'
    /\ emitted (RenderToWindow window layout flipped) r
       = EvGetRenderFrame w :: resize_events window layout
         ++ begin_events frame layout r1 ++ middle
         ++ [EvRecord (CmdEndPresent (Frame.image frame));
             EvFlush (Frame.render_ready frame);
             EvPresent w frame]
    /\ forallb draw_event middle = true
    /\ map id_layer (draws middle) = frame_draws layout (values r)
    /\ Frame.width frame = FramebufferLayout.width layout
    /\ Frame.height frame = FramebufferLayout.height layout
    /\ Frame.render_ready frame
       = Frame.render_ready (PresentWindow.render_frame window).
Proof.
  cbv zeta.
  set (frame := acquired_frame _ _ _ _).
  set (r1 := set_trace _ r).
  destruct (DrawScreens_run frame layout flipped r1)
    as (r0 & r2 & es & _ & E & T & D & F & _).
  exists (set_trace
            (trace r2
             ++ [EvRecord (CmdEndPresent (Frame.image frame));
                 EvFlush (Frame.render_ready frame);
                 EvPresent (PresentWindow.id window) frame]) r2), es.
  assert (X : RenderToWindow window layout flipped r
              = Done (PresentWindow.mk (PresentWindow.id window) frame)
                  (set_trace
                     (trace r2
                      ++ [EvRecord (CmdEndPresent (Frame.image frame));
                          EvFlush (Frame.render_ready frame);
                          EvPresent (PresentWindow.id window) frame]) r2)).
  { rewrite RenderToWindow_unfold.
    rewrite (bind_done _ _ _ _ _ (acquire_frame_run window layout r)).
    fold frame r1. rewrite (bind_done _ _ _ _ _ E).
    unfold bind, emit, modify, ret. destruct r2; cbn.
    rewrite <- !app_assoc. reflexivity. }
  split; [exact X|].
  split.
  { apply emitted_of_trace. rewrite X. cbn. rewrite T.
    unfold r1, acquired_trace. destruct r; cbn.
    rewrite <- !app_assoc. reflexivity. }
  split; [exact D|].
  split; [rewrite F; unfold r1; destruct r; reflexivity|].
  unfold frame, acquired_frame, recreated_frame.
  destruct (needs_resize layout (PresentWindow.render_frame window)) eqn:N.
  - destruct (Host.frame_resources _ _ _ _) as [[[a b] c] d].
    repeat split.
  - unfold needs_resize in N. apply orb_false_iff in N as [Nw Nh].
    apply negb_false_iff in Nw, Nh. apply Z.eqb_eq in Nw, Nh.
    repeat split; congruence.
Qed.

(** ** The events of one frame's preparation *)

(** What the allocator answers to the request [ConfigureFramebufferTexture]
    makes for slot [i]. *)
Definition image_answer (i : Slot) (r : Renderer) : option (Handle * Handle) :=
  let framebuffer := descriptor_of i (guest r) in
  Host.vmaCreateImage (host r) (length (asked_image i framebuffer r))
    (FramebufferConfig.width framebuffer)
    (FramebufferConfig.height framebuffer)
    (FramebufferConfig.color_format framebuffer).

(** The events of the reallocation step of slot [i]. *)
Definition configure_events (i : Slot) (r : Renderer) : list Event :=
  let framebuffer := descriptor_of i (guest r) in
  if texture_differs (texture_of i r) framebuffer then
    destroy_events (texture_of i r)
    ++ EvCreateImage i (FramebufferConfig.width framebuffer)
         (FramebufferConfig.height framebuffer)
         (FramebufferConfig.color_format framebuffer)
       :: match image_answer i r with
          | Some (image, _) => [EvCreateImageView image]
          | None => [EvLogCritical]
          end
  else [].

(** The events of the iteration of slot [i] when it returns. *)
Definition slot_events (i : Slot) (r : Renderer) : list Event :=
  if ColorFill.is_enabled (fill_of i (guest r))
  then clear_events (TextureInfo.image (texture_of i r)) (fill_of i (guest r))
  else configure_events i r
       ++ [accelerate_event (descriptor_of i (guest r)) i (slot_eqb i Slot1)
             r].

Lemma host_set_texture i t r : host (set_texture i t r) = host r.
Proof. destruct r; reflexivity. Qed.

Lemma host_set_trace es r : host (set_trace es r) = host r.
Proof. destruct r; reflexivity. Qed.

Lemma PrepareSlot_events i r r' :
  PrepareSlot i r = Done tt r' ->
  emitted (PrepareSlot i) r = slot_events i r
  /\ (ColorFill.is_enabled (fill_of i (guest r)) = false ->
      stride_ok (host r) (descriptor_of i (guest r)) = true
      /\ (texture_differs (texture_of i r) (descriptor_of i (guest r)) = true
          -> exists image allocation,
               image_answer i r = Some (image, allocation)
               /\ TextureInfo.image (texture_of i r') = image
               /\ TextureInfo.allocation (texture_of i r') = allocation)
      /\ (texture_differs (texture_of i r) (descriptor_of i (guest r)) = false
          -> texture_of i r' = texture_of i r)).
Proof.
  intros E. pose proof E as E'.
  unfold slot_events, configure_events.
  destruct (ColorFill.is_enabled (fill_of i (guest r))) eqn:F.
  - split; [|discriminate].
    apply emitted_of_trace. rewrite PrepareSlot_filled by exact F.
    destruct r; reflexivity.
  - rewrite PrepareSlot_unfilled in E by exact F.
    unfold configure_step, when in E.
    destruct (texture_differs (texture_of i r) (descriptor_of i (guest r)))
      eqn:D.
    + rewrite ConfigureFramebufferTexture_run in E. cbv zeta in E.
      fold (image_answer i r) in E.
      destruct (image_answer i r) as [[image allocation]|] eqn:O;
        [|discriminate E].
      rewrite LoadFBToScreenInfo_run in E.
      rewrite host_set_texture, host_set_trace in E.
      destruct (stride_ok (host r) (descriptor_of i (guest r))) eqn:S;
        [|discriminate E].
      cbv zeta in E.
      destruct (accelerated _ _ _ _) as [[view coords]|]; [|discriminate E].
      injection E as <-.
      split.
      * apply emitted_of_trace. rewrite E'.
        unfold asked_image, accelerate_event.
        destruct r, i; cbn; rewrite <- ?app_assoc; reflexivity.
      * intros _. split; [reflexivity|]. split; [|discriminate].
        intros _. exists image, allocation.
        split; [reflexivity|]. destruct r, i; split; reflexivity.
    + unfold ret in E. rewrite LoadFBToScreenInfo_run in E.
      destruct (stride_ok (host r) (descriptor_of i (guest r))) eqn:S;
        [|discriminate E].
      cbv zeta in E.
      destruct (accelerated _ _ _ _) as [[view coords]|]; [|discriminate E].
      injection E as <-.
      split.
      * apply emitted_of_trace. rewrite E'.
        destruct r, i; cbn; reflexivity.
      * intros _. split; [reflexivity|]. split; [discriminate|].
        intros _. apply texture_same_iff in D.
        unfold texture_dims, descriptor_dims in D. injection D as Dw Dh Df.
        destruct r as [g hh v st scr di cp cc ps vo tr].
        destruct scr as [a b c]. unfold texture_of, screen_info in *.
        destruct i; cbn in *.
        -- destruct a as [[w h f im iv al] tc vw]; cbn in *.
           rewrite <- Dw, <- Dh. reflexivity.
        -- destruct b as [[w h f im iv al] tc vw]; cbn in *.
           rewrite <- Dw, <- Dh. reflexivity.
        -- destruct c as [[w h f im iv al] tc vw]; cbn in *.
           rewrite <- Dw, <- Dh. reflexivity.
Qed.

(** The calls to the rasterizer among a list of events: slot, guest address
    and stride in pixels. *)
Definition accel_of (e : Event) : option (Slot * Z * Z) :=
  match e with
  | EvAccelerateDisplay i addr pixel_stride => Some (i, addr, pixel_stride)
  | _ => None
  end.

Definition displayed (es : list Event) : list (Slot * Z * Z) :=
  pick accel_of es.

Lemma displayed_destroy t : displayed (destroy_events t) = [].
Proof.
  unfold destroy_events.
  destruct (is_null (TextureInfo.image_view t));
    destruct (is_null (TextureInfo.image t)); reflexivity.
Qed.

Lemma displayed_configure i r : displayed (configure_events i r) = [].
Proof.
  unfold configure_events, displayed.
  destruct (texture_differs _ _); [|reflexivity].
  rewrite pick_app. fold (displayed (destroy_events (texture_of i r))).
  rewrite displayed_destroy. cbn.
  destruct (image_answer i r) as [[image allocation]|]; reflexivity.
Qed.

(** The right-eye address of a descriptor, the left one standing in when a
    right-eye buffer is missing. *)
Definition right_address (framebuffer : FramebufferConfig.t) : Z :=
  if (FramebufferConfig.address_right1 framebuffer =? 0)
     || (FramebufferConfig.address_right2 framebuffer =? 0)
  then left_address framebuffer
  else if FramebufferConfig.active_fb framebuffer =? 0
       then FramebufferConfig.address_right1 framebuffer
       else FramebufferConfig.address_right2 framebuffer.

Lemma framebuffer_addr_left framebuffer :
  framebuffer_addr framebuffer false = left_address framebuffer.
Proof.
  unfold framebuffer_addr, left_address.
  destruct (_ || _); reflexivity.
Qed.

Lemma framebuffer_addr_right framebuffer :
  framebuffer_addr framebuffer true = right_address framebuffer.
Proof.
  unfold framebuffer_addr, right_address, left_address.
  destruct (_ || _); reflexivity.
Qed.

Lemma displayed_slot i r :
  displayed (slot_events i r)
  = if ColorFill.is_enabled (fill_of i (guest r)) then []
    else [(i, framebuffer_addr (descriptor_of i (guest r)) (slot_eqb i Slot1),
           u32 (pixel_stride_of (host r) (descriptor_of i (guest r))))].
Proof.
  unfold slot_events. destruct (ColorFill.is_enabled _); [reflexivity|].
  unfold displayed. rewrite pick_app.
  fold (displayed (configure_events i r)). rewrite displayed_configure.
  reflexivity.
Qed.

(** X5.  The calls [PrepareRendertarget] makes to the rasterizer when it
    returns, in order: when the top colour fill is off, slot 0 with the left
    address and slot 1 with the right address of descriptor 0 for its active
    buffer (the left address standing in when a right-eye buffer is
    missing); when the bottom colour fill is off, slot 2 with the left
    address of descriptor 1; each with the descriptor's stride in pixels. *)
Theorem PrepareRendertarget_displays (r r' : Renderer) :
  PrepareRendertarget r = Done tt r' ->
  let top := Guest.framebuffer_config0 (guest r) in
  let bottom := Guest.framebuffer_config1 (guest r) in
  let top_stride := u32 (pixel_stride_of (host r) top) in
  let bottom_stride := u32 (pixel_stride_of (host r) bottom) in
  displayed (emitted PrepareRendertarget r)
  = (if ColorFill.is_enabled (Guest.color_fill_top (guest r)) then []
     else [(Slot0, left_address top, top_stride);
           (Slot1, right_address top, top_stride)])
    ++ (if ColorFill.is_enabled (Guest.color_fill_bottom (guest r)) then []
        else [(Slot2, left_address bottom, bottom_stride)]).
Proof.
  intros E. cbv zeta.
  destruct (PrepareRendertarget_done r r' E) as (r1 & r2 & E0 & E1 & E2 & Es).
  destruct (PrepareSlot_done _ _ _ E0) as (G0 & H0 & _).
  destruct (PrepareSlot_done _ _ _ E1) as (G1 & H1 & _).
  rewrite Es.
  rewrite (proj1 (PrepareSlot_events _ _ _ E0)).
  rewrite (proj1 (PrepareSlot_events _ _ _ E1)).
  rewrite (proj1 (PrepareSlot_events _ _ _ E2)).
  unfold displayed. rewrite !pick_app.
  fold (displayed (slot_events Slot0 r)) (displayed (slot_events Slot1 r1))
       (displayed (slot_events Slot2 r2)).
  rewrite !displayed_slot. rewrite G1, H1, G0, H0.
  unfold fill_of, descriptor_of, fb_id_of, Guest.color_fill,
    Guest.framebuffer_config. cbn [Z.eqb slot_eqb].
  rewrite !framebuffer_addr_left, framebuffer_addr_right.
  destruct (ColorFill.is_enabled (Guest.color_fill_top (guest r)));
    reflexivity.
Qed.

(** The sample renderer: both eyes of the top screen and the left eye of the
    bottom screen. *)
Lemma PrepareRendertarget_displays_witness :
  PrepareRendertarget Sample.renderer
  = Done tt (final (PrepareRendertarget Sample.renderer))
  /\ displayed (emitted PrepareRendertarget Sample.renderer)
     = [(Slot0, 402653184, 240); (Slot1, 403229184, 240);
        (Slot2, 404035584, 240)].
Proof.
  assert (E : PrepareRendertarget Sample.renderer
              = Done tt (final (PrepareRendertarget Sample.renderer)))
    by (vm_compute; reflexivity).
  split; [exact E|].
  pose proof (PrepareRendertarget_displays _ _ E) as H. cbv zeta in H.
  rewrite H. vm_compute. reflexivity.
Defined.

(** The events of slot [i] in a frame that finds its texture as the
    descriptor wants it. *)
Definition steady_events (i : Slot) (r : Renderer) : list Event :=
  if ColorFill.is_enabled (fill_of i (guest r))
  then clear_events (TextureInfo.image (texture_of i r)) (fill_of i (guest r))
  else [accelerate_event (descriptor_of i (guest r)) i (slot_eqb i Slot1) r].

Lemma slot_events_steady i r r0 :
  guest r = guest r0 -> host r = host r0 ->
  texture_of i r = texture_of i r0 ->
  (ColorFill.is_enabled (fill_of i (guest r0)) = false ->
   texture_dims (texture_of i r0)
   = descriptor_dims (descriptor_of i (guest r0))) ->
  slot_events i r = steady_events i r0.
Proof.
  intros G H T D. unfold slot_events, steady_events, configure_events,
    accelerate_event.
  rewrite G, H, T.
  destruct (ColorFill.is_enabled (fill_of i (guest r0))); [reflexivity|].
  rewrite (proj2 (texture_same_iff _ _) (D eq_refl)). reflexivity.
Qed.

(** X6.  A call of [PrepareRendertarget] that follows one that returned,
    and returns: nothing is reallocated, every texture is left as it was,
    and the events are, slot by slot, the one call to the rasterizer, or for
    a colour-filled slot the end of the render pass and the clear. *)
Theorem PrepareRendertarget_steady (r r1 r2 : Renderer) :
  PrepareRendertarget r = Done tt r1 ->
  PrepareRendertarget r1 = Done tt r2 ->
  emitted PrepareRendertarget r1
  = steady_events Slot0 r1 ++ steady_events Slot1 r1
    ++ steady_events Slot2 r1
  /\ (forall i, reallocated i (emitted PrepareRendertarget r1) = false)
  /\ (forall i, texture_of i r2 = texture_of i r1).
Proof.
  intros E E'.
  destruct (PrepareRendertarget_textures r r1 E) as (G & _ & P).
  assert (D : forall i,
             ColorFill.is_enabled (fill_of i (guest r1)) = false ->
             texture_dims (texture_of i r1)
             = descriptor_dims (descriptor_of i (guest r1))).
  { intros i F. specialize (P i). rewrite G in F |- *. rewrite F in P.
    apply P. }
  destruct (PrepareRendertarget_textures r1 r2 E') as (_ & _ & P').
  assert (R : forall i, reallocated i (emitted PrepareRendertarget r1)
                        = false).
  { intros i. specialize (P' i).
    destruct (ColorFill.is_enabled (fill_of i (guest r1))) eqn:F.
    - apply P'.
    - destruct P' as [_ ->]. apply texture_same_iff. apply D. exact F. }
  destruct (PrepareRendertarget_done r1 r2 E')
    as (ra & rb & E0 & E1 & E2 & Es).
  destruct (PrepareSlot_done _ _ _ E0) as (G0 & H0 & S0 & _).
  destruct (PrepareSlot_done _ _ _ E1) as (G1 & H1 & S1 & _).
  destruct (PrepareSlot_done _ _ _ E2) as (G2 & H2 & S2 & _).
  destruct (PrepareSlot_events _ _ _ E0) as (V0 & W0).
  destruct (PrepareSlot_events _ _ _ E1) as (V1 & W1).
  destruct (PrepareSlot_events _ _ _ E2) as (V2 & W2).
  assert (T1 : texture_of Slot1 ra = texture_of Slot1 r1)
    by (unfold texture_of; rewrite S0 by discriminate; reflexivity).
  assert (T2 : texture_of Slot2 rb = texture_of Slot2 r1)
    by (unfold texture_of; rewrite S1, S0 by discriminate; reflexivity).
  split.
  { rewrite Es, V0, V1, V2.
    rewrite (slot_events_steady Slot0 r1 r1 eq_refl eq_refl eq_refl (D Slot0)).
    rewrite (slot_events_steady Slot1 ra r1 G0 H0 T1 (D Slot1)).
    rewrite (slot_events_steady Slot2 rb r1) by
      (try congruence; apply D).
    reflexivity. }
  split; [exact R|].
  intros i.
  assert (X : forall k rk rk',
             PrepareSlot k rk = Done tt rk' ->
             guest rk = guest r1 -> texture_of k rk = texture_of k r1 ->
             texture_of k rk' = texture_of k r1).
  { intros k rk rk' Ek Gk Tk.
    destruct (PrepareSlot_done _ _ _ Ek) as (_ & _ & _ & Pk).
    destruct (PrepareSlot_events _ _ _ Ek) as (_ & Wk).
    destruct (ColorFill.is_enabled (fill_of k (guest rk))) eqn:F.
    - destruct Pk as (Q & _). unfold texture_of. rewrite Q. exact Tk.
    - destruct (Wk eq_refl) as (_ & _ & Same). rewrite Same; [exact Tk|].
      apply texture_same_iff. rewrite Tk, Gk. apply D. rewrite <- Gk.
      exact F. }
  destruct i.
  - unfold texture_of. rewrite (S2 Slot0), (S1 Slot0) by discriminate.
    apply (X Slot0 r1 ra E0 eq_refl eq_refl).
  - unfold texture_of. rewrite (S2 Slot1) by discriminate.
    apply (X Slot1 ra rb E1 G0 T1).
  - apply (X Slot2 rb r2 E2); [congruence|exact T2].
Qed.

(** One iteration whose descriptor fails the stride assertions. *)
Lemma PrepareSlot_bad_stride i r :
  ColorFill.is_enabled (fill_of i (guest r)) = false ->
  stride_ok (host r) (descriptor_of i (guest r)) = false ->
  exists f r' es,
    PrepareSlot i r = Fatal f r'
    /\ trace r' = trace r ++ es
    /\ forall j, guest_read j es = false.
Proof.
  intros F S. rewrite PrepareSlot_unfilled by exact F.
  destruct (configure_step_trace i r) as (es & T & G & _).
  destruct (configure_step i r) as [[] r1|f r1] eqn:C; cbn [final] in T.
  - destruct (configure_step_done i r r1 C) as (_ & H1 & _).
    rewrite LoadFBToScreenInfo_run, H1, S.
    exists AssertionFailed, r1, es. auto.
  - exists f, r1, es. auto.
Qed.

Lemma bind_fatal {A B} (c : Cmd A) (k : A -> Cmd B) r f r1 :
  c r = Fatal f r1 -> bind c k r = Fatal f r1.
Proof. unfold bind. intros ->. reflexivity. Qed.

Definition slot_leb (i j : Slot) : bool := slot_index i <=? slot_index j.

(** X7.  When the descriptor of a slot whose colour fill is off fails a
    stride assertion (the stride is not a whole number of pixels, or the
    number of pixels is not a multiple of 4), [PrepareRendertarget] does not
    return, and the rasterizer is called neither for that slot nor for a
    later one. *)
Theorem PrepareRendertarget_bad_stride (i : Slot) (r : Renderer) :
  ColorFill.is_enabled (fill_of i (guest r)) = false ->
  stride_ok (host r) (descriptor_of i (guest r)) = false ->
  completes (PrepareRendertarget r) = false
  /\ forall j, slot_leb i j = true ->
       guest_read j (emitted PrepareRendertarget r) = false.
Proof.
  intros F S.
  assert (X : exists f r' es,
             PrepareRendertarget r = Fatal f r'
             /\ trace r' = trace r ++ es
             /\ forall j, slot_leb i j = true -> guest_read j es = false).
  { unfold PrepareRendertarget.
    destruct i.
    - destruct (PrepareSlot_bad_stride Slot0 r F S)
        as (f & r' & es & E & T & G).
      exists f, r', es. rewrite (bind_fatal _ _ _ _ _ E). auto.
    - destruct (PrepareSlot_trace Slot0 r) as (es0 & T0 & _ & G0 & _).
      destruct (PrepareSlot Slot0 r) as [[] r1|f r1] eqn:E0; cbn [final] in T0.
      + destruct (PrepareSlot_done _ _ _ E0) as (Gu & Ho & _).
        rewrite <- Gu in F. rewrite <- Gu, <- Ho in S.
        destruct (PrepareSlot_bad_stride Slot1 r1 F S)
          as (f & r' & es & E & T & G).
        exists f, r', (es0 ++ es).
        rewrite (bind_done _ _ _ _ _ E0), (bind_fatal _ _ _ _ _ E).
        split; [reflexivity|].
        split; [rewrite T, T0, app_assoc; reflexivity|].
        intros j L. rewrite guest_read_app, G, G0; [reflexivity|].
        intros ->. discriminate L.
      + exists f, r1, es0. rewrite (bind_fatal _ _ _ _ _ E0).
        split; [reflexivity|]. split; [exact T0|].
        intros j L. apply G0. intros ->. discriminate L.
    - destruct (PrepareSlot_trace Slot0 r) as (es0 & T0 & _ & G0 & _).
      destruct (PrepareSlot Slot0 r) as [[] r1|f r1] eqn:E0; cbn [final] in T0.
      + destruct (PrepareSlot_done _ _ _ E0) as (Gu & Ho & _).
        rewrite (bind_done _ _ _ _ _ E0).
        destruct (PrepareSlot_trace Slot1 r1) as (es1 & T1 & _ & G1 & _).
        destruct (PrepareSlot Slot1 r1) as [[] r2|f r2] eqn:E1;
          cbn [final] in T1.
        * destruct (PrepareSlot_done _ _ _ E1) as (Gu1 & Ho1 & _).
          rewrite <- Gu, <- Gu1 in F. rewrite <- Gu, <- Ho, <- Gu1, <- Ho1 in S.
          destruct (PrepareSlot_bad_stride Slot2 r2 F S)
            as (f & r' & es & E & T & G).
          exists f, r', (es0 ++ es1 ++ es).
          rewrite (bind_done _ _ _ _ _ E1), E.
          split; [reflexivity|].
          split; [rewrite T, T1, T0, <- !app_assoc; reflexivity|].
          intros j L. rewrite !guest_read_app, G, G0, G1; [reflexivity| |];
            intros ->; discriminate L.
        * exists f, r2, (es0 ++ es1). rewrite (bind_fatal _ _ _ _ _ E1).
          split; [reflexivity|].
          split; [rewrite T1, T0, app_assoc; reflexivity|].
          intros j L. rewrite guest_read_app, G0, G1; [reflexivity| |];
            intros ->; discriminate L.
      + exists f, r1, es0. rewrite (bind_fatal _ _ _ _ _ E0).
        split; [reflexivity|]. split; [exact T0|].
        intros j L. apply G0. intros ->. discriminate L. }
  destruct X as (f & r' & es & E & T & G).
  rewrite E. split; [reflexivity|].
  intros j L. rewrite (emitted_of_trace PrepareRendertarget r es).
  - apply G. exact L.
  - rewrite E. exact T.
Qed.

(** The sample renderer prepared twice: the second call only calls the
    rasterizer, once per slot. *)
Lemma PrepareRendertarget_steady_witness :
  let r1 := final (PrepareRendertarget Sample.renderer) in
  let r2 := final (PrepareRendertarget r1) in
  PrepareRendertarget Sample.renderer = Done tt r1
  /\ PrepareRendertarget r1 = Done tt r2
  /\ emitted PrepareRendertarget r1
     = [EvAccelerateDisplay Slot0 402653184 240;
        EvAccelerateDisplay Slot1 403229184 240;
        EvAccelerateDisplay Slot2 404035584 240]
  /\ (forall i, reallocated i (emitted PrepareRendertarget r1) = false)
  /\ (forall i, texture_of i r2 = texture_of i r1).
Proof.
  cbv zeta.
  assert (E1 : PrepareRendertarget Sample.renderer
               = Done tt (final (PrepareRendertarget Sample.renderer)))
    by (vm_compute; reflexivity).
  assert (E2 : PrepareRendertarget
                 (final (PrepareRendertarget Sample.renderer))
               = Done tt
                   (final (PrepareRendertarget
                             (final (PrepareRendertarget Sample.renderer)))))
    by (vm_compute; reflexivity).
  split; [exact E1|]. split; [exact E2|].
  destruct (PrepareRendertarget_steady _ _ _ E1 E2) as (A & B & C).
  split; [rewrite A; vm_compute; reflexivity|].
  split; [exact B|exact C].
Defined.

(** The sample guest with a top stride of 722 bytes, which is not a whole
    number of three-byte pixels. *)
Definition skewed_guest : Guest.t :=
  Guest.mk
    (FramebufferConfig.mk 402653184 402941184 403229184 403517184
                          240 400 722 1 0)
    Sample.bottom_config Sample.no_fill Sample.no_fill.

Lemma PrepareRendertarget_bad_stride_witness :
  let r := set_guest skewed_guest Sample.renderer in
  ColorFill.is_enabled (fill_of Slot0 (guest r)) = false
  /\ stride_ok (host r) (descriptor_of Slot0 (guest r)) = false
  /\ completes (PrepareRendertarget r) = false
  /\ forall j, slot_leb Slot0 j = true ->
       guest_read j (emitted PrepareRendertarget r) = false.
Proof.
  cbv zeta.
  split; [reflexivity|]. split; [vm_compute; reflexivity|].
  exact (PrepareRendertarget_bad_stride Slot0
           (set_guest skewed_guest Sample.renderer) eq_refl eq_refl).
Defined.
(** ** The images of the screen textures *)

(** The image a successful allocation returned (the one the view is then
    created on), and the image a call destroys. *)
Definition created_of (e : Event) : option Handle :=
  match e with EvCreateImageView image => Some image | _ => None end.

Definition destroyed_of (e : Event) : option Handle :=
  match e with EvDestroyImage image _ => Some image | _ => None end.

Definition times (h : Handle) (l : list Handle) : Z :=
  Z.of_nat (length (filter (Z.eqb h) l)).

Definition created (h : Handle) (es : list Event) : Z :=
  times h (pick created_of es).

Definition destroyed (h : Handle) (es : list Event) : Z :=
  times h (pick destroyed_of es).

(** The number of screen textures whose image is [h]. *)
Definition holds (i : Slot) (h : Handle) (r : Renderer) : Z :=
  if TextureInfo.image (texture_of i r) =? h then 1 else 0.

Definition held (h : Handle) (r : Renderer) : Z :=
  holds Slot0 h r + holds Slot1 h r + holds Slot2 h r.

Lemma times_app h l l' : times h (l ++ l') = times h l + times h l'.
Proof.
  unfold times. rewrite filter_app, length_app, Nat2Z.inj_add.
  reflexivity.
Qed.

Lemma created_app h es es' :
  created h (es ++ es') = created h es + created h es'.
Proof. unfold created. rewrite pick_app. apply times_app. Qed.

Lemma destroyed_app h es es' :
  destroyed h (es ++ es') = destroyed h es + destroyed h es'.
Proof. unfold destroyed. rewrite pick_app. apply times_app. Qed.

Lemma created_destroy_events h t : created h (destroy_events t) = 0.
Proof.
  unfold destroy_events.
  destruct (is_null (TextureInfo.image_view t));
    destruct (is_null (TextureInfo.image t)); reflexivity.
Qed.

Lemma destroyed_destroy_events h t :
  h <> 0 ->
  destroyed h (destroy_events t)
  = if TextureInfo.image t =? h then 1 else 0.
Proof.
  intros Hh. unfold destroy_events, is_null.
  destruct (TextureInfo.image_view t =? 0);
    destruct (Z.eqb_spec (TextureInfo.image t) 0) as [Z0|Z0]; cbn;
    unfold destroyed, times; cbn; rewrite ?Z0;
    try (destruct (Z.eqb_spec 0 h); [congruence|reflexivity]);
    rewrite (Z.eqb_sym h); destruct (_ =? h); reflexivity.
Qed.

(** One iteration keeps the balance of every image but the null one. *)
Lemma PrepareSlot_balance i r r' h :
  h <> 0 ->
  PrepareSlot i r = Done tt r' ->
  created h (emitted (PrepareSlot i) r) + holds i h r
  = destroyed h (emitted (PrepareSlot i) r) + holds i h r'.
Proof.
  intros Hh E.
  destruct (PrepareSlot_events i r r' E) as (Ev & W).
  destruct (PrepareSlot_done i r r' E) as (_ & _ & _ & P).
  rewrite Ev. unfold slot_events, holds.
  destruct (ColorFill.is_enabled (fill_of i (guest r))) eqn:F.
  - destruct P as (Q & _). unfold texture_of. rewrite Q. reflexivity.
  - destruct (W eq_refl) as (_ & Dif & Same).
    rewrite created_app, destroyed_app. unfold configure_events.
    destruct (texture_differs (texture_of i r) (descriptor_of i (guest r))).
    + destruct (Dif eq_refl) as (image & allocation & A & I & _).
      rewrite A, I.
      rewrite created_app, destroyed_app, created_destroy_events,
        destroyed_destroy_events by exact Hh.
      unfold created, destroyed, times. cbn.
      rewrite (Z.eqb_sym h image).
      destruct (TextureInfo.image (texture_of i r) =? h);
        destruct (image =? h); reflexivity.
    + rewrite (Same eq_refl). reflexivity.
Qed.

Lemma PrepareSlot_other i j r r' h :
  j <> i -> PrepareSlot i r = Done tt r' -> holds j h r' = holds j h r.
Proof.
  intros N E. destruct (PrepareSlot_done i r r' E) as (_ & _ & S & _).
  unfold holds, texture_of. rewrite (S j N). reflexivity.
Qed.

Lemma PrepareRendertarget_balance r r' h :
  h <> 0 ->
  PrepareRendertarget r = Done tt r' ->
  created h (emitted PrepareRendertarget r) + held h r
  = destroyed h (emitted PrepareRendertarget r) + held h r'.
Proof.
  intros Hh E.
  destruct (PrepareRendertarget_done r r' E) as (r1 & r2 & E0 & E1 & E2 & Es).
  rewrite Es, !created_app, !destroyed_app. unfold held.
  pose proof (PrepareSlot_balance _ _ _ h Hh E0) as B0.
  pose proof (PrepareSlot_balance _ _ _ h Hh E1) as B1.
  pose proof (PrepareSlot_balance _ _ _ h Hh E2) as B2.
  pose proof (PrepareSlot_other Slot0 Slot1 _ _ h ltac:(discriminate) E0).
  pose proof (PrepareSlot_other Slot0 Slot2 _ _ h ltac:(discriminate) E0).
  pose proof (PrepareSlot_other Slot1 Slot0 _ _ h ltac:(discriminate) E1).
  pose proof (PrepareSlot_other Slot1 Slot2 _ _ h ltac:(discriminate) E1).
  pose proof (PrepareSlot_other Slot2 Slot0 _ _ h ltac:(discriminate) E2).
  pose proof (PrepareSlot_other Slot2 Slot1 _ _ h ltac:(discriminate) E2).
  lia.
Qed.

(** The trace only grows. *)
Lemma PrepareRendertarget_extends r :
  exists es, trace (final (PrepareRendertarget r)) = trace r ++ es.
Proof.
  unfold PrepareRendertarget, bind.
  destruct (PrepareSlot_trace Slot0 r) as (es0 & T0 & _).
  destruct (PrepareSlot Slot0 r) as [[] r1|f r1]; cbn [final] in T0;
    [|exists es0; exact T0].
  destruct (PrepareSlot_trace Slot1 r1) as (es1 & T1 & _).
  destruct (PrepareSlot Slot1 r1) as [[] r2|f r2]; cbn [final] in T1;
    [|exists (es0 ++ es1); cbn; rewrite T1, T0, app_assoc; reflexivity].
  destruct (PrepareSlot_trace Slot2 r2) as (es2 & T2 & _).
  exists (es0 ++ es1 ++ es2).
  rewrite T2, T1, T0, <- !app_assoc. reflexivity.
Qed.

Lemma PrepareRendertargets_step g gs r r' :
  PrepareRendertargets (g :: gs) r = Done tt r' ->
  exists r1,
    PrepareRendertarget (set_guest g r) = Done tt r1
    /\ PrepareRendertargets gs r1 = Done tt r'
    /\ emitted (PrepareRendertargets (g :: gs)) r
       = emitted PrepareRendertarget (set_guest g r)
         ++ emitted (PrepareRendertargets gs) r1.
Proof.
  intros E. pose proof E as E'. cbn [PrepareRendertargets] in E.
  unfold bind at 1 in E. unfold modify at 1 in E. unfold bind at 1 in E.
  destruct (PrepareRendertarget (set_guest g r)) as [[] r1|f r1] eqn:E1;
    [|discriminate E].
  exists r1. split; [reflexivity|]. split; [exact E|].
  unfold emitted at 1. rewrite E'. cbn [final].
  unfold emitted. rewrite E1, E. cbn [final].
  assert (T1 : exists es1, trace r1 = trace r ++ es1).
  { destruct (PrepareRendertarget_extends (set_guest g r)) as (es & T).
    rewrite E1 in T. cbn in T. exists es. rewrite T. destruct r; reflexivity. }
  destruct T1 as (es1 & T1).
  assert (T2 : exists es2, trace r' = trace r1 ++ es2).
  { clear - E. revert r1 r' E. induction gs as [|g' gs IH]; intros r1 r' E.
    - injection E as <-. exists []. rewrite app_nil_r. reflexivity.
    - cbn [PrepareRendertargets] in E.
      unfold bind at 1 in E. unfold modify at 1 in E. unfold bind at 1 in E.
      destruct (PrepareRendertarget (set_guest g' r1)) as [[] ra|f ra] eqn:Ea;
        [|discriminate E].
      destruct (IH _ _ E) as (es & T).
      destruct (PrepareRendertarget_extends (set_guest g' r1))
        as (es' & T').
      rewrite Ea in T'. cbn in T'. exists (es' ++ es).
      rewrite T, T', app_assoc. destruct r1; reflexivity. }
  destruct T2 as (es2 & T2).
  replace (trace (set_guest g r)) with (trace r) by (destruct r; reflexivity).
  rewrite T2, (skipn_length_app (trace r1)).
  rewrite T1, <- app_assoc, !skipn_length_app. reflexivity.
Qed.

Lemma held_set_guest h g r : held h (set_guest g r) = held h r.
Proof. destruct r; reflexivity. Qed.

(** X9.  Over any sequence of [PrepareRendertarget] calls that return, the
    screen textures account for every image: for each image but the null
    one, the number of times it was allocated plus the number of textures
    that held it at the start is the number of times it was destroyed plus
    the number of textures that hold it at the end.  So an image allocated
    once, when no texture held it, is destroyed exactly once by the time no
    texture holds it any more, and not at all while one texture holds
    it. *)
Theorem PrepareRendertargets_images_balanced
    (gs : list Guest.t) (r r' : Renderer) (h : Handle) :
  h <> null_handle ->
  PrepareRendertargets gs r = Done tt r' ->
  created h (emitted (PrepareRendertargets gs) r) + held h r
  = destroyed h (emitted (PrepareRendertargets gs) r) + held h r'.
Proof.
  intros Hh. revert r r'.
  induction gs as [|g gs IH]; intros r r' E.
  - injection E as <-. unfold emitted. cbn. rewrite skipn_all. reflexivity.
  - destruct (PrepareRendertargets_step g gs r r' E) as (r1 & E1 & E2 & Es).
    rewrite Es, created_app, destroyed_app.
    pose proof (PrepareRendertarget_balance _ _ h Hh E1) as B1.
    rewrite held_set_guest in B1.
    pose proof (IH _ _ E2) as B2. lia.
Qed.

(** The sample guest with a top screen 256 pixels wide. *)
Definition wide_guest : Guest.t :=
  Guest.mk
    (FramebufferConfig.mk 402653184 402941184 403229184 403517184
                          256 400 768 1 0)
    Sample.bottom_config Sample.no_fill Sample.no_fill.

(** The sample renderer over two frames, the top screen growing wider in
    the second: image 1001, allocated for slot 0 in the first frame, is
    destroyed in the second, and no texture holds it at the end. *)
Lemma PrepareRendertargets_images_balanced_witness :
  let gs := [Sample.guest; wide_guest] in
  let r' := final (PrepareRendertargets gs Sample.renderer) in
  let es := emitted (PrepareRendertargets gs) Sample.renderer in
  1001 <> null_handle
  /\ PrepareRendertargets gs Sample.renderer = Done tt r'
  /\ created 1001 es + held 1001 Sample.renderer
     = destroyed 1001 es + held 1001 r'.
Proof.
  cbv zeta.
  assert (E : PrepareRendertargets [Sample.guest; wide_guest] Sample.renderer
              = Done tt
                  (final (PrepareRendertargets [Sample.guest; wide_guest]
                            Sample.renderer)))
    by (vm_compute; reflexivity).
  assert (N : 1001 <> null_handle) by discriminate.
  split; [exact N|]. split; [exact E|].
  exact (PrepareRendertargets_images_balanced _ _ _ 1001 N E).
Defined.

Example PrepareRendertargets_images_sample :
  let gs := [Sample.guest; wide_guest] in
  let es := emitted (PrepareRendertargets gs) Sample.renderer in
  created 1001 es = 1 /\ destroyed 1001 es = 1
  /\ held 1001 (final (PrepareRendertargets gs Sample.renderer)) = 0.
Proof. vm_compute. repeat split. Qed.

(** ** What the steps of a frame emit and leave *)

(** The events of the preparation of the screen textures. *)
Definition prepare_event (e : Event) : bool :=
  match e with
  | EvEndRendering | EvRecord (CmdClearColorImage _ _)
  | EvDestroyImageView _ | EvDestroyImage _ _ | EvCreateImage _ _ _ _
  | EvCreateImageView _ | EvLogCritical | EvAccelerateDisplay _ _ _ => true
  | _ => false
  end.

(** [r'] differs from [r] in the screens and the trace at most. *)
Definition prepared (r r' : Renderer) : Prop :=
  guest r' = guest r /\ host r' = host r /\ values r' = values r
  /\ settings r' = settings r /\ draw_info r' = draw_info r
  /\ current_pipeline r' = current_pipeline r
  /\ clear_color r' = clear_color r
  /\ present_samplers r' = present_samplers r
  /\ vertex_offset r' = vertex_offset r.

Lemma prepared_refl r : prepared r r.
Proof. repeat split. Qed.

Lemma prepared_trans r r1 r2 :
  prepared r r1 -> prepared r1 r2 -> prepared r r2.
Proof.
  unfold prepared.
  intros (A1 & A2 & A3 & A4 & A5 & A6 & A7 & A8 & A9)
    (B1 & B2 & B3 & B4 & B5 & B6 & B7 & B8 & B9).
  repeat split; congruence.
Qed.

Lemma prepared_set_trace t r : prepared r (set_trace t r).
Proof. destruct r; repeat split. Qed.

Lemma prepared_set_texture i t r : prepared r (set_texture i t r).
Proof. destruct r, i; repeat split. Qed.

Lemma prepared_set_screen_info i s r : prepared r (set_screen_info i s r).
Proof. destruct r, i; repeat split. Qed.

Lemma prepare_destroy_events t :
  forallb prepare_event (destroy_events t) = true.
Proof.
  unfold destroy_events.
  destruct (is_null (TextureInfo.image_view t));
    destruct (is_null (TextureInfo.image t)); reflexivity.
Qed.

Lemma configure_step_kind i r :
  exists es,
    trace (final (configure_step i r)) = trace r ++ es
    /\ forallb prepare_event es = true
    /\ prepared r (final (configure_step i r)).
Proof.
  unfold configure_step, when.
  destruct (texture_differs _ _).
  - rewrite ConfigureFramebufferTexture_run. cbv zeta.
    set (fb := descriptor_of i (guest r)).
    set (create := EvCreateImage i (FramebufferConfig.width fb)
                     (FramebufferConfig.height fb)
                     (FramebufferConfig.color_format fb)).
    destruct (Host.vmaCreateImage _ _ _ _ _) as [[image allocation]|].
    + exists (destroy_events (texture_of i r)
              ++ [create; EvCreateImageView image]).
      split; [unfold asked_image; fold create;
              destruct r, i; cbn; rewrite <- !app_assoc; reflexivity|].
      split; [rewrite forallb_app, prepare_destroy_events; reflexivity|].
      cbn [final].
      exact (prepared_trans _ _ _ (prepared_set_trace _ r)
               (prepared_set_texture _ _ _)).
    + exists (destroy_events (texture_of i r) ++ [create; EvLogCritical]).
      split; [unfold asked_image; fold create;
              destruct r, i; cbn; rewrite <- !app_assoc; reflexivity|].
      split; [rewrite forallb_app, prepare_destroy_events; reflexivity|].
      cbn [final]. apply prepared_set_trace.
  - exists []. cbn. rewrite app_nil_r.
    split; [reflexivity|]. split; [reflexivity|]. apply prepared_refl.
Qed.

Lemma load_step_kind framebuffer i right_eye r :
  exists es,
    trace (final (LoadFBToScreenInfo framebuffer i right_eye r))
    = trace r ++ es
    /\ forallb prepare_event es = true
    /\ prepared r (final (LoadFBToScreenInfo framebuffer i right_eye r)).
Proof.
  rewrite LoadFBToScreenInfo_run.
  destruct (stride_ok _ _).
  - exists [accelerate_event framebuffer i right_eye r].
    cbv zeta. destruct (accelerated _ _ _ _) as [[view coords]|];
      (split; [destruct r, i; reflexivity|]);
      (split; [reflexivity|]); cbn [final];
      exact (prepared_trans _ _ _ (prepared_set_trace _ r)
               (prepared_set_screen_info _ _ _)).
  - exists []. cbn. rewrite app_nil_r.
    split; [reflexivity|]. split; [reflexivity|]. apply prepared_refl.
Qed.

(** One iteration, finished or not. *)
Lemma PrepareSlot_kind i r :
  exists es,
    trace (final (PrepareSlot i r)) = trace r ++ es
    /\ forallb prepare_event es = true
    /\ prepared r (final (PrepareSlot i r)).
Proof.
  destruct (ColorFill.is_enabled (fill_of i (guest r))) eqn:F.
  - rewrite PrepareSlot_filled by exact F. cbn [final].
    eexists. split; [destruct r; reflexivity|].
    split; [reflexivity|]. apply prepared_set_trace.
  - rewrite PrepareSlot_unfilled by exact F.
    destruct (configure_step_kind i r) as (es1 & T1 & K1 & P1).
    destruct (configure_step i r) as [[] r1|f r1]; cbn [final] in *.
    + destruct (load_step_kind (descriptor_of i (guest r)) i
                  (slot_eqb i Slot1) r1) as (es2 & T2 & K2 & P2).
      destruct (LoadFBToScreenInfo _ _ _ r1) as [[] r2|f r2];
        cbn [final] in *;
        exists (es1 ++ es2);
        (split; [rewrite app_assoc, <- T1;
                 first [exact T2 | destruct r2, i; exact T2]|]);
        (split; [rewrite forallb_app, K1, K2; reflexivity|]).
      * exact (prepared_trans _ _ _ P1
                 (prepared_trans _ _ _ P2 (prepared_set_texture _ _ _))).
      * exact (prepared_trans _ _ _ P1 P2).
    + exists es1. auto.
Qed.

Lemma PrepareRendertarget_kind r :
  exists es,
    trace (final (PrepareRendertarget r)) = trace r ++ es
    /\ forallb prepare_event es = true
    /\ prepared r (final (PrepareRendertarget r)).
Proof.
  unfold PrepareRendertarget, bind.
  destruct (PrepareSlot_kind Slot0 r) as (es0 & T0 & K0 & P0).
  destruct (PrepareSlot Slot0 r) as [[] r1|f r1]; cbn [final] in *;
    [|exists es0; auto].
  destruct (PrepareSlot_kind Slot1 r1) as (es1 & T1 & K1 & P1).
  destruct (PrepareSlot Slot1 r1) as [[] r2|f r2]; cbn [final] in *.
  2:{ exists (es0 ++ es1). rewrite T1, T0, app_assoc, forallb_app, K0, K1.
      split; [reflexivity|]. split; [reflexivity|].
      exact (prepared_trans _ _ _ P0 P1). }
  destruct (PrepareSlot_kind Slot2 r2) as (es2 & T2 & K2 & P2).
  exists (es0 ++ es1 ++ es2).
  rewrite T2, T1, T0, <- !app_assoc, !forallb_app, K0, K1, K2.
  split; [reflexivity|]. split; [reflexivity|].
  exact (prepared_trans _ _ _ P0 (prepared_trans _ _ _ P1 P2)).
Qed.

(** The clear value and the pipeline of the present passes begun, the
    frames presented, and the completion callbacks made. *)
Definition pass_of (e : Event) : option (Color * Z) :=
  match e with
  | EvRecord (CmdBeginPresent _ _ _ _ _ clear pipeline _) =>
      Some (clear, pipeline)
  | _ => None
  end.

Definition present_of (e : Event) : option (WindowId * Frame.t) :=
  match e with EvPresent w frame => Some (w, frame) | _ => None end.

Definition callback_of (e : Event) : option bool :=
  match e with EvScreenshotComplete arg => Some arg | _ => None end.

Definition passes (es : list Event) : list (Color * Z) := pick pass_of es.
Definition presents (es : list Event) : list (WindowId * Frame.t) :=
  pick present_of es.
Definition callbacks (es : list Event) : list bool := pick callback_of es.

Lemma pick_none {A B} (p : A -> bool) (f : A -> option B) l :
  (forall a, p a = true -> f a = None) ->
  forallb p l = true -> pick f l = [].
Proof.
  intros H. induction l as [|a l IH]; cbn; [reflexivity|].
  intros E. apply andb_true_iff in E as [Ea El].
  rewrite (H a Ea). exact (IH El).
Qed.

Lemma prepare_passes es : forallb prepare_event es = true -> passes es = [].
Proof.
  apply pick_none. intros [] E; try discriminate E; try reflexivity.
  destruct c; try discriminate E; reflexivity.
Qed.

Lemma prepare_presents es :
  forallb prepare_event es = true -> presents es = [].
Proof.
  apply pick_none. intros [] E; try discriminate E; reflexivity.
Qed.

Lemma prepare_callbacks es :
  forallb prepare_event es = true -> callbacks es = [].
Proof.
  apply pick_none. intros [] E; try discriminate E; reflexivity.
Qed.

Lemma draw_passes es : forallb draw_event es = true -> passes es = [].
Proof.
  apply pick_none. intros [] E; try discriminate E; try reflexivity.
  destruct c; try discriminate E; reflexivity.
Qed.

Lemma draw_presents es : forallb draw_event es = true -> presents es = [].
Proof.
  apply pick_none. intros [] E; try discriminate E; reflexivity.
Qed.

Lemma draw_callbacks es : forallb draw_event es = true -> callbacks es = [].
Proof.
  apply pick_none. intros [] E; try discriminate E; reflexivity.
Qed.

(** [r'] is [r] after a present pass: the clear value and the pipeline of
    the frame are in force and both update requests are taken. *)
Definition drawn (r r' : Renderer) : Prop :=
  guest r' = guest r /\ host r' = host r /\ values r' = values r
  /\ screen_infos r' = screen_infos r
  /\ present_samplers r' = present_samplers r
  /\ clear_color r' = frame_clear r
  /\ current_pipeline r' = frame_pipeline r
  /\ settings r'
     = RendererSettings.set_shader_update_requested false
         (RendererSettings.set_bg_color_update_requested false (settings r)).

(** The events of a present pass. *)
Definition pass_events (frame : Frame.t) (layout : FramebufferLayout.t)
    (r : Renderer) (middle : list Event) : list Event :=
  begin_events frame layout r ++ middle
  ++ [EvRecord (CmdEndPresent (Frame.image frame))].

Lemma DrawScreens_pass frame layout flipped r :
  exists r' middle,
    DrawScreens frame layout flipped r = Done tt r'
    /\ trace r' = trace r ++ pass_events frame layout r middle
    /\ forallb draw_event middle = true
    /\ drawn r r'.
Proof.
  destruct (begin_frame_run frame layout r)
    as (r0' & E0' & _ & G0 & H0 & V0 & S0 & P0 & C0 & Q0 & _ & X0).
  destruct (DrawScreens_run frame layout flipped r)
    as (r0 & r1 & es & E0 & E & T & D & _ & K).
  rewrite E0' in E0. injection E0 as <-.
  destruct K as (K1 & K2 & K3 & K4 & K5 & K6 & K7 & K8).
  eexists. exists es. split; [exact E|].
  split; [cbn; rewrite T; unfold pass_events; rewrite <- !app_assoc;
          reflexivity|].
  split; [exact D|].
  unfold drawn. destruct r1; cbn in *.
  repeat split; congruence.
Qed.

Lemma pass_events_passes frame layout r middle :
  forallb draw_event middle = true ->
  passes (pass_events frame layout r middle)
  = [(frame_clear r, frame_pipeline r)].
Proof.
  intros D. unfold pass_events, passes. rewrite !pick_app.
  fold (passes middle). rewrite (draw_passes _ D). reflexivity.
Qed.

Lemma pass_events_presents frame layout r middle :
  forallb draw_event middle = true ->
  presents (pass_events frame layout r middle) = [].
Proof.
  intros D. unfold pass_events, presents. rewrite !pick_app.
  fold (presents middle). rewrite (draw_presents _ D). reflexivity.
Qed.

Lemma pass_events_callbacks frame layout r middle :
  forallb draw_event middle = true ->
  callbacks (pass_events frame layout r middle) = [].
Proof.
  intros D. unfold pass_events, callbacks. rewrite !pick_app.
  fold (callbacks middle). rewrite (draw_callbacks _ D). reflexivity.
Qed.

(** Once a pass is over, the next one finds its clear value and pipeline in
    force. *)
Lemma drawn_frame r r' :
  drawn r r' -> frame_clear r' = frame_clear r
                /\ frame_pipeline r' = frame_pipeline r.
Proof.
  intros (_ & _ & _ & _ & _ & C & P & S).
  unfold frame_clear at 1, frame_pipeline at 1. rewrite S.
  destruct (settings r); cbn. split; assumption.
Qed.

(** *** Presenting to a window *)

(** The frame [RenderToWindow] draws and presents, the renderer its pass
    starts from, and its events around the vertex uploads and draws. *)
Definition window_frame (window : PresentWindow.t)
    (layout : FramebufferLayout.t) (r : Renderer) : Frame.t :=
  acquired_frame (host r) (length (acquired_trace window layout r))
    window layout.

Definition window_events (window : PresentWindow.t)
    (layout : FramebufferLayout.t) (r : Renderer) (middle : list Event)
  : list Event :=
  let w := PresentWindow.id window in
  let frame := window_frame window layout r in
  EvGetRenderFrame w :: resize_events window layout
  ++ pass_events frame layout
       (set_trace (acquired_trace window layout r) r) middle
  ++ [EvFlush (Frame.render_ready frame); EvPresent w frame].

Lemma frame_set_trace t r :
  frame_clear (set_trace t r) = frame_clear r
  /\ frame_pipeline (set_trace t r) = frame_pipeline r.
Proof.
  destruct r as [g h v st scr di cp [[[c1 c2] c3] c4] ps vo tr].
  split; reflexivity.
Qed.

Lemma drawn_set_trace_l t r r' : drawn (set_trace t r) r' -> drawn r r'.
Proof.
  destruct r as [g h v st scr di cp [[[c1 c2] c3] c4] ps vo tr].
  exact (fun H => H).
Qed.

Lemma RenderToWindow_pass window layout flipped r :
  exists r' middle,
    RenderToWindow window layout flipped r
    = Done (PresentWindow.mk (PresentWindow.id window)
              (window_frame window layout r)) r'
    /\ trace r' = trace r ++ window_events window layout r middle
    /\ forallb draw_event middle = true
    /\ drawn r r'.
Proof.
  rewrite RenderToWindow_unfold.
  rewrite (bind_done _ _ _ _ _ (acquire_frame_run window layout r)).
  fold (window_frame window layout r).
  set (frame' := window_frame window layout r).
  set (r1 := set_trace (acquired_trace window layout r) r).
  destruct (DrawScreens_pass frame' layout flipped r1)
    as (r2 & middle & E & T & D & K).
  rewrite (bind_done _ _ _ _ _ E).
  eexists. exists middle.
  split; [destruct r2; reflexivity|].
  split.
  { assert (T1 : trace r1 = acquired_trace window layout r)
      by (unfold r1; destruct r; reflexivity).
    replace (trace (set_trace _ _))
      with ((trace r2 ++ [EvFlush (Frame.render_ready frame')])
            ++ [EvPresent (PresentWindow.id window) frame'])
      by (destruct r2; reflexivity).
    rewrite T, T1. unfold window_events, acquired_trace. cbv zeta.
    fold frame' r1. rewrite <- !app_assoc. reflexivity. }
  split; [exact D|].
  apply (drawn_set_trace_l (acquired_trace window layout r)). fold r1.
  destruct r2; exact K.
Qed.

Lemma resize_passes window layout :
  passes (resize_events window layout) = []
  /\ presents (resize_events window layout) = []
  /\ callbacks (resize_events window layout) = [].
Proof.
  unfold resize_events. destruct (needs_resize _ _); repeat split.
Qed.

Lemma window_events_passes window layout r middle :
  forallb draw_event middle = true ->
  passes (window_events window layout r middle)
  = [(frame_clear r, frame_pipeline r)].
Proof.
  intros D. unfold window_events. cbv zeta.
  change (EvGetRenderFrame ?w :: ?l) with ([EvGetRenderFrame w] ++ l).
  unfold passes. rewrite !pick_app.
  fold (passes (resize_events window layout)).
  rewrite (proj1 (resize_passes window layout)).
  fold (passes (pass_events (window_frame window layout r) layout
                  (set_trace (acquired_trace window layout r) r) middle)).
  rewrite (pass_events_passes _ _ _ _ D).
  destruct (frame_set_trace (acquired_trace window layout r) r) as (-> & ->).
  reflexivity.
Qed.

Lemma window_events_presents window layout r middle :
  forallb draw_event middle = true ->
  presents (window_events window layout r middle)
  = [(PresentWindow.id window, window_frame window layout r)].
Proof.
  intros D. unfold window_events. cbv zeta.
  change (EvGetRenderFrame ?w :: ?l) with ([EvGetRenderFrame w] ++ l).
  unfold presents. rewrite !pick_app.
  fold (presents (resize_events window layout)).
  rewrite (proj1 (proj2 (resize_passes window layout))).
  fold (presents (pass_events (window_frame window layout r) layout
                    (set_trace (acquired_trace window layout r) r) middle)).
  rewrite (pass_events_presents _ _ _ _ D). reflexivity.
Qed.

Lemma window_events_callbacks window layout r middle :
  forallb draw_event middle = true ->
  callbacks (window_events window layout r middle) = [].
Proof.
  intros D. unfold window_events. cbv zeta.
  change (EvGetRenderFrame ?w :: ?l) with ([EvGetRenderFrame w] ++ l).
  unfold callbacks. rewrite !pick_app.
  fold (callbacks (resize_events window layout)).
  rewrite (proj2 (proj2 (resize_passes window layout))).
  fold (callbacks (pass_events (window_frame window layout r) layout
                     (set_trace (acquired_trace window layout r) r) middle)).
  rewrite (pass_events_callbacks _ _ _ _ D). reflexivity.
Qed.

(** The frame presented has the dimensions of the layout. *)
Lemma window_frame_size window layout r :
  Frame.width (window_frame window layout r) = FramebufferLayout.width layout
  /\ Frame.height (window_frame window layout r)
     = FramebufferLayout.height layout.
Proof.
  unfold window_frame, acquired_frame.
  destruct (needs_resize _ _) eqn:N.
  - unfold recreated_frame.
    destruct (Host.frame_resources _ _ _ _) as [[[a b] c] d].
    split; reflexivity.
  - unfold needs_resize in N. apply orb_false_iff in N as [Nw Nh].
    apply negb_false_iff in Nw, Nh.
    apply Z.eqb_eq in Nw, Nh. split; symmetry; assumption.
Qed.

(** *** Screenshots *)

(** [r'] is [r] after [RenderScreenshot] returned. *)
Definition shot (r r' : Renderer) : Prop :=
  guest r' = guest r /\ host r' = host r /\ values r' = values r
  /\ screen_infos r' = screen_infos r
  /\ present_samplers r' = present_samplers r
  /\ frame_clear r' = frame_clear r
  /\ frame_pipeline r' = frame_pipeline r
  /\ RendererSettings.screenshot_requested (settings r') = false.

Definition allocates (r : Renderer) : bool :=
  match staging_allocation r with Some _ => true | None => false end.

Lemma RenderScreenshot_step r :
  let requested := RendererSettings.screenshot_requested (settings r) in
  exists es,
    trace (final (RenderScreenshot r)) = trace r ++ es
    /\ presents es = []
    /\ completes (RenderScreenshot r) = negb requested || allocates r
    /\ if completes (RenderScreenshot r) then
         passes es
         = (if requested then [(frame_clear r, frame_pipeline r)] else [])
         /\ callbacks es = (if requested then [false] else [])
         /\ shot r (final (RenderScreenshot r))
       else passes es = [] /\ callbacks es = [].
Proof.
  cbv zeta. unfold allocates.
  destruct (RendererSettings.screenshot_requested (settings r)) eqn:Q.
  - destruct (staging_allocation r)
      as [[[staging_buffer allocation] pMappedData]|] eqn:V.
    + destruct (DrawScreens_pass (screenshot_frame r) (screenshot_layout r)
                  false (before_composition r))
        as (r2 & middle & E & T & D & K).
      rewrite (RenderScreenshot_run r _ _ _ r2 Q V E). cbn [final completes].
      exists (screenshot_setup r
              ++ pass_events (screenshot_frame r) (screenshot_layout r)
                   (before_composition r) middle
              ++ screenshot_readback r staging_buffer allocation pMappedData).
      split.
      { replace (trace (set_trace _ r2))
          with (trace r2 ++ screenshot_readback r staging_buffer allocation
                              pMappedData)
          by (destruct r2; reflexivity).
        rewrite T.
        replace (trace (before_composition r))
          with (trace r ++ screenshot_setup r)
          by (unfold before_composition; destruct (consumed r);
              reflexivity).
        rewrite <- !app_assoc. reflexivity. }
      assert (FB : frame_clear (before_composition r) = frame_clear r
                   /\ frame_pipeline (before_composition r)
                      = frame_pipeline r)
        by (unfold before_composition, consumed; destruct r as
              [g h v [a b c d e] scr di cp [[[c1 c2] c3] c4] ps vo tr];
            split; reflexivity).
      split.
      { unfold presents. rewrite !pick_app.
        fold (presents (pass_events (screenshot_frame r) (screenshot_layout r)
                          (before_composition r) middle)).
        rewrite (pass_events_presents _ _ _ _ D). reflexivity. }
      split; [reflexivity|].
      split.
      { unfold passes. rewrite !pick_app.
        fold (passes (pass_events (screenshot_frame r) (screenshot_layout r)
                        (before_composition r) middle)).
        rewrite (pass_events_passes _ _ _ _ D).
        destruct FB as (-> & ->). reflexivity. }
      split.
      { unfold callbacks. rewrite !pick_app.
        fold (callbacks (pass_events (screenshot_frame r)
                           (screenshot_layout r) (before_composition r)
                           middle)).
        rewrite (pass_events_callbacks _ _ _ _ D). reflexivity. }
      destruct (drawn_frame _ _ K) as (KC & KP).
      destruct K as (K1 & K2 & K3 & K4 & K5 & K6 & K7 & K8).
      destruct FB as (FC & FP).
      unfold shot.
      destruct (frame_set_trace
                  (trace r2 ++ screenshot_readback r staging_buffer
                                 allocation pMappedData) r2) as (-> & ->).
      rewrite KC, KP, FC, FP.
      unfold before_composition, consumed in *.
      destruct r2; cbn in *. subst.
      destruct r as [g h v [a b c d e] scr di cp cc ps vo tr].
      repeat split.
    + rewrite (RenderScreenshot_failed r Q V). cbn [final completes].
      exists [EvCreateBuffer (staging_size r); EvLogCritical].
      split; [destruct r; reflexivity|]. repeat split.
  - rewrite (RenderScreenshot_idle r Q). cbn [final completes].
    exists []. rewrite app_nil_r. unfold shot. repeat split. exact Q.
Qed.

(** A sequence of preparations keeps the balance of the images. *)
Lemma PrepareRendertargets_balance
    (gs : list Guest.t) (r r' : Renderer) (h : Handle) :
  h <> null_handle ->
  PrepareRendertargets gs r = Done tt r' ->
  created h (emitted (PrepareRendertargets gs) r) + held h r
  = destroyed h (emitted (PrepareRendertargets gs) r) + held h r'.
Proof.
  intros Hh. revert r r'.
  induction gs as [|g gs IH]; intros r r' E.
  - injection E as <-. unfold emitted. cbn. rewrite skipn_all. reflexivity.
  - destruct (PrepareRendertargets_step g gs r r' E) as (r1 & E1 & E2 & Es).
    rewrite Es, created_app, destroyed_app.
    pose proof (PrepareRendertarget_balance _ _ h Hh E1) as B1.
    rewrite held_set_guest in B1.
    pose proof (IH _ _ E2) as B2. lia.
Qed.

(** A sequence of preparations leaves the samplers alone. *)
Lemma PrepareRendertargets_samplers gs r r' :
  PrepareRendertargets gs r = Done tt r' ->
  present_samplers r' = present_samplers r.
Proof.
  revert r. induction gs as [|g gs IH]; intros r E.
  - injection E as <-. reflexivity.
  - destruct (PrepareRendertargets_step g gs r r' E) as (r1 & E1 & E2 & _).
    rewrite (IH _ E2).
    destruct (PrepareRendertarget_kind (set_guest g r)) as (es & _ & _ & P).
    rewrite E1 in P. cbn [final] in P.
    destruct P as (_ & _ & _ & _ & _ & _ & _ & P & _).
    rewrite P. destruct r; reflexivity.
Qed.

(** * The renderer in its surroundings: construction, frames, destruction *)

(** The SPIR-V blobs of the present shaders. *)
Inductive ShaderCode : Type :=
| VULKAN_PRESENT_VERT_SPV
| VULKAN_PRESENT_FRAG_SPV
| VULKAN_PRESENT_ANAGLYPH_FRAG_SPV
| VULKAN_PRESENT_INTERLACED_FRAG_SPV.

(** [vk::Filter]. *)
Inductive Filter : Type := eLinear | eNearest.

(** [Settings::LayoutOption]: the renderer only asks whether it is
    [SeparateWindows]. *)
Inductive LayoutOption : Type := SeparateWindows | OtherLayoutOption.

(** The calls of the constructor, of [SwapBuffers] and of the destructor, in
    program order, each with what it returned.  The calls the composition
    makes are the renderer's own events. *)
Inductive Call : Type :=
| CallRenderer (e : Event)
| CallCompileSPV (code : ShaderCode) (module : Handle)
| CallCreateSampler (filter : Filter) (sampler : Handle)
| CallCreatePipelineLayout (layout : Handle)
| CallCreateGraphicsPipeline (vertex fragment layout : Handle)
    (pipeline : option Handle)
| CallNewPresentWindow (w : WindowId)
| CallGetFramebufferLayout (w : WindowId)
| CallPollEvents
| CallTickFrame
| CallEndFrame
| CallWaitIdle
| CallDestroyShaderModule (module : Handle)
| CallDestroyPipeline (pipeline : Handle)
| CallDestroySampler (sampler : Handle).

(** What the device and the windows answer; as for [Host.t], an answer
    depends on the arguments and on the moment of the call, the number of
    calls made before it. *)
Module Platform.
Record t : Type := mk {
  (** [CompileSPV] *)
  CompileSPV : nat -> ShaderCode -> Handle;
  (** [device.createSampler] *)
  createSampler : nat -> Filter -> Handle;
  (** [device.createPipelineLayoutUnique] *)
  createPipelineLayoutUnique : nat -> Handle;
  (** [device.createGraphicsPipeline]: [None] when the result is not
      [vk::Result::eSuccess] *)
  createGraphicsPipeline : nat -> Handle -> Handle -> Handle -> option Handle;
  (** [EmuWindow::GetFramebufferLayout] of the window behind [w] *)
  GetFramebufferLayout : nat -> WindowId -> FramebufferLayout.t;
  (** the frame a newly made [PresentWindow] hands out *)
  first_frame : nat -> Frame.t
}.
End Platform.

(** [PRESENT_PIPELINES]: the pipeline set has exactly three pipelines
    (normal, anaglyph, interlaced); [CompileShaders] fills that many
    fragment shaders. *)
Definition PRESENT_PIPELINES : nat := 3.

(** The renderer with the members and collaborators of the constructor,
    [SwapBuffers] and the destructor. *)
Record Machine : Type := mkMachine {
  renderer : Renderer;
  platform : Platform.t;
  (** [Settings::values.layout_option] *)
  layout_option : LayoutOption;
  (** built for Android, where [SwapBuffers] has no second window *)
  android : bool;
  (** whether [RendererBase::secondary_window] is set *)
  secondary_window : bool;
  main_window : PresentWindow.t;
  second_window : option PresentWindow.t;
  present_vertex_shader : Handle;
  present_shaders : list Handle;
  present_pipelines : list Handle;
  present_pipeline_layout : Handle;
  (** the calls made so far, and their number *)
  calls : list Call;
  clock : nat
}.

Definition with_renderer (r : Renderer) (m : Machine) : Machine :=
  mkMachine r (platform m) (layout_option m) (android m)
    (secondary_window m) (main_window m) (second_window m)
    (present_vertex_shader m) (present_shaders m) (present_pipelines m)
    (present_pipeline_layout m) (calls m) (clock m).
Definition with_main_window (w : PresentWindow.t) (m : Machine) : Machine :=
  mkMachine (renderer m) (platform m) (layout_option m) (android m)
    (secondary_window m) w (second_window m)
    (present_vertex_shader m) (present_shaders m) (present_pipelines m)
    (present_pipeline_layout m) (calls m) (clock m).
Definition with_second_window (w : option PresentWindow.t) (m : Machine)
  : Machine :=
  mkMachine (renderer m) (platform m) (layout_option m) (android m)
    (secondary_window m) (main_window m) w
    (present_vertex_shader m) (present_shaders m) (present_pipelines m)
    (present_pipeline_layout m) (calls m) (clock m).
Definition with_present_vertex_shader (h : Handle) (m : Machine) : Machine :=
  mkMachine (renderer m) (platform m) (layout_option m) (android m)
    (secondary_window m) (main_window m) (second_window m)
    h (present_shaders m) (present_pipelines m)
    (present_pipeline_layout m) (calls m) (clock m).
Definition with_present_shaders (l : list Handle) (m : Machine) : Machine :=
  mkMachine (renderer m) (platform m) (layout_option m) (android m)
    (secondary_window m) (main_window m) (second_window m)
    (present_vertex_shader m) l (present_pipelines m)
    (present_pipeline_layout m) (calls m) (clock m).
Definition with_present_pipelines (l : list Handle) (m : Machine) : Machine :=
  mkMachine (renderer m) (platform m) (layout_option m) (android m)
    (secondary_window m) (main_window m) (second_window m)
    (present_vertex_shader m) (present_shaders m) l
    (present_pipeline_layout m) (calls m) (clock m).
Definition with_present_pipeline_layout (h : Handle) (m : Machine)
  : Machine :=
  mkMachine (renderer m) (platform m) (layout_option m) (android m)
    (secondary_window m) (main_window m) (second_window m)
    (present_vertex_shader m) (present_shaders m) (present_pipelines m)
    h (calls m) (clock m).
(** The machine once the calls [cs] are made. *)
Definition record (cs : list Call) (m : Machine) : Machine :=
  mkMachine (renderer m) (platform m) (layout_option m) (android m)
    (secondary_window m) (main_window m) (second_window m)
    (present_vertex_shader m) (present_shaders m) (present_pipelines m)
    (present_pipeline_layout m) (calls m ++ cs) (length cs + clock m).

Definition set_present_samplers (x : Handle * Handle) (r : Renderer)
  : Renderer :=
  mkRenderer (guest r) (host r) (values r) (settings r) (screen_infos r)
    (draw_info r) (current_pipeline r) (clear_color r) x
    (vertex_offset r) (trace r).

(** ** Actions on the machine *)

Inductive Ran (A : Type) : Type :=
| Ok (a : A) (m : Machine)
| Died (f : Fault) (m : Machine).
Arguments Ok {A}.
Arguments Died {A}.

Definition Act (A : Type) : Type := Machine -> Ran A.

Definition act_ret {A} (a : A) : Act A := fun m => Ok a m.

Definition act_bind {A B} (c : Act A) (k : A -> Act B) : Act B :=
  fun m => match c m with
           | Ok a m' => k a m'
           | Died f m' => Died f m'
           end.

Declare Scope act_scope.
Delimit Scope act_scope with act.
Notation "x <- c ;; k" := (act_bind c (fun x => k))
  (at level 61, c at next level, right associativity) : act_scope.
Notation "c ;; k" := (act_bind c (fun _ => k))
  (at level 61, right associativity) : act_scope.
Local Open Scope act_scope.

Definition ask {A} (f : Machine -> A) : Act A := fun m => Ok (f m) m.
Definition change (f : Machine -> Machine) : Act unit := fun m => Ok tt (f m).
Definition call (c : Call) : Act unit := change (record [c]).
Definition moment : Act nat := ask clock.
Definition act_when (b : bool) (c : Act unit) : Act unit :=
  if b then c else act_ret tt.
Definition ACT_ASSERT (cond : bool) : Act unit :=
  fun m => if cond then Ok tt m else Died AssertionFailed m.

(** The machine after a member function of the renderer was run in it: its
    events join the calls. *)
Definition joined {A} (c : Cmd A) (m : Machine) : Machine :=
  with_renderer (final (c (renderer m)))
    (record (map CallRenderer (emitted c (renderer m))) m).

(** A member function of the renderer run inside the machine. *)
Definition lift {A} (c : Cmd A) : Act A :=
  fun m =>
    match c (renderer m) with
    | Done a _ => Ok a (joined c m)
    | Fatal f _ => Died f (joined c m)
    end.

(** [for (u32 i = 0; i < n; i++) body(i)]. *)
Fixpoint for_each (indices : list nat) (body : nat -> Act unit) : Act unit :=
  match indices with
  | [] => act_ret tt
  | i :: rest => body i ;; for_each rest body
  end.

(** [array[i] = v]. *)
Fixpoint store {A} (i : nat) (v : A) (array : list A) : list A :=
  match array, i with
  | [], _ => []
  | _ :: rest, O => v :: rest
  | a :: rest, S i' => a :: store i' v rest
  end.

Definition the_end {A} (o : Ran A) : Machine :=
  match o with Ok _ m => m | Died _ m => m end.

Definition returns {A} (o : Ran A) : bool :=
  match o with Ok _ _ => true | Died _ _ => false end.

(** The calls an action adds when run from [m]. *)
Definition called {A} (c : Act A) (m : Machine) : list Call :=
  skipn (length (calls m)) (calls (the_end (c m))).

(** ** Construction *)

Definition CompileSPV (code : ShaderCode) : Act Handle :=
  t <- moment ;;
  p <- ask platform ;;
  let module := Platform.CompileSPV p t code in
  call (CallCompileSPV code module) ;;
  act_ret module.

Definition createSampler (filter : Filter) : Act Handle :=
  t <- moment ;;
  p <- ask platform ;;
  let sampler := Platform.createSampler p t filter in
  call (CallCreateSampler filter sampler) ;;
  act_ret sampler.

Definition CompileShaders : Act unit :=
  vs <- CompileSPV VULKAN_PRESENT_VERT_SPV ;;
  change (with_present_vertex_shader vs) ;;
  s0 <- CompileSPV VULKAN_PRESENT_FRAG_SPV ;;
  change (fun m => with_present_shaders (store 0 s0 (present_shaders m)) m) ;;
  s1 <- CompileSPV VULKAN_PRESENT_ANAGLYPH_FRAG_SPV ;;
  change (fun m => with_present_shaders (store 1 s1 (present_shaders m)) m) ;;
  s2 <- CompileSPV VULKAN_PRESENT_INTERLACED_FRAG_SPV ;;
  change (fun m => with_present_shaders (store 2 s2 (present_shaders m)) m) ;;
  for_each (seq 0 2) (fun i =>
    let filter_mode := if Nat.eqb i 0 then eLinear else eNearest in
    sampler <- createSampler filter_mode ;;
    change (fun m =>
      let r := renderer m in
      let '(a, b) := present_samplers r in
      with_renderer
        (set_present_samplers
           (if Nat.eqb i 0 then (sampler, b) else (a, sampler)) r) m)).

Definition BuildLayouts : Act unit :=
  t <- moment ;;
  p <- ask platform ;;
  let layout := Platform.createPipelineLayoutUnique p t in
  call (CallCreatePipelineLayout layout) ;;
  change (with_present_pipeline_layout layout).

Definition BuildPipelines : Act unit :=
  for_each (seq 0 PRESENT_PIPELINES) (fun i =>
    m <- ask (fun m => m) ;;
    let vertex := present_vertex_shader m in
    let fragment := nth i (present_shaders m) null_handle in
    let layout := present_pipeline_layout m in
    t <- moment ;;
    let result :=
      Platform.createGraphicsPipeline (platform m) t vertex fragment layout in
    call (CallCreateGraphicsPipeline vertex fragment layout result) ;;
    match result with
    | None => ACT_ASSERT false
    | Some pipeline =>
        change (fun m =>
          with_present_pipelines (store i pipeline (present_pipelines m)) m)
    end).

(** Modelled from the spec: [second_window =
    std::make_unique<PresentWindow>(...)] on the secondary window; the
    constructor of [PresentWindow] is not among the sources.  The new
    window is its identity and the frame it hands out first, which the
    platform answers. *)
Definition new_second_window : Act unit :=
  t <- moment ;;
  p <- ask platform ;;
  call (CallNewPresentWindow SecondWindow) ;;
  change (with_second_window
            (Some (PresentWindow.mk SecondWindow (Platform.first_frame p t)))).

(** The constructor taking the window and an optional secondary window. *)
Definition construct : Act unit :=
  CompileShaders ;;
  BuildLayouts ;;
  BuildPipelines ;;
  has <- ask secondary_window ;;
  act_when has new_second_window.

(** ** One frame *)

Definition GetFramebufferLayout (w : WindowId) : Act FramebufferLayout.t :=
  t <- moment ;;
  p <- ask platform ;;
  call (CallGetFramebufferLayout w) ;;
  act_ret (Platform.GetFramebufferLayout p t w).

Definition SwapBuffers : Act unit :=
  layout <- GetFramebufferLayout MainWindow ;;
  lift PrepareRendertarget ;;
  lift RenderScreenshot ;;
  main <- ask main_window ;;
  main <- lift (RenderToWindow main layout false) ;;
  change (with_main_window main) ;;
  is_android <- ask android ;;
  option <- ask layout_option ;;
  act_when (negb is_android
            && match option with SeparateWindows => true | _ => false end)
    (has <- ask secondary_window ;;
     ACT_ASSERT has ;;
     secondary_layout <- GetFramebufferLayout SecondWindow ;;
     second <- ask second_window ;;
     act_when (match second with None => true | Some _ => false end)
       new_second_window ;;
     second <- ask second_window ;;
     match second with
     | None => act_ret tt
     | Some window =>
         window <- lift (RenderToWindow window secondary_layout false) ;;
         change (with_second_window (Some window))
     end ;;
     call CallPollEvents) ;;
  call CallTickFrame ;;
  call CallEndFrame.

(** ** Destruction *)

Definition destruct_renderer : Act unit :=
  lift (emit EvFinish) ;;
  call CallWaitIdle ;;
  vs <- ask present_vertex_shader ;;
  call (CallDestroyShaderModule vs) ;;
  for_each (seq 0 PRESENT_PIPELINES) (fun i =>
    m <- ask (fun m => m) ;;
    call (CallDestroyPipeline (nth i (present_pipelines m) null_handle)) ;;
    call (CallDestroyShaderModule (nth i (present_shaders m) null_handle))) ;;
  samplers <- ask (fun m => present_samplers (renderer m)) ;;
  call (CallDestroySampler (fst samplers)) ;;
  call (CallDestroySampler (snd samplers)) ;;
  for_each (seq 0 3) (fun i =>
    m <- ask (fun m => m) ;;
    let info :=
      Screens.get (screen_infos (renderer m))
        (match i with O => Slot0 | S O => Slot1 | _ => Slot2 end) in
    lift (emit (EvDestroyImageView
                  (TextureInfo.image_view (ScreenInfo.texture info)))) ;;
    lift (emit (EvDestroyImage
                  (TextureInfo.image (ScreenInfo.texture info))
                  (TextureInfo.allocation (ScreenInfo.texture info))))).

(** ** Runs of the machine *)

Lemma act_bind_ok {A B} (c : Act A) (k : A -> Act B) m a m1 :
  c m = Ok a m1 -> act_bind c k m = k a m1.
Proof. unfold act_bind. intros ->. reflexivity. Qed.

Lemma act_bind_died {A B} (c : Act A) (k : A -> Act B) m f m1 :
  c m = Died f m1 -> act_bind c k m = Died f m1.
Proof. unfold act_bind. intros ->. reflexivity. Qed.

(** What the constructor's three steps make: the handles, in the order of
    the calls. *)
Record Built : Type := mkBuilt {
  vertex_module : Handle;
  fragment_modules : list Handle;
  samplers : Handle * Handle;
  pipeline_layout : Handle;
  pipelines : list Handle
}.

Definition build_calls (b : Built) : list Call :=
  [CallCompileSPV VULKAN_PRESENT_VERT_SPV (vertex_module b);
   CallCompileSPV VULKAN_PRESENT_FRAG_SPV (nth 0 (fragment_modules b) 0);
   CallCompileSPV VULKAN_PRESENT_ANAGLYPH_FRAG_SPV
     (nth 1 (fragment_modules b) 0);
   CallCompileSPV VULKAN_PRESENT_INTERLACED_FRAG_SPV
     (nth 2 (fragment_modules b) 0);
   CallCreateSampler eLinear (fst (samplers b));
   CallCreateSampler eNearest (snd (samplers b));
   CallCreatePipelineLayout (pipeline_layout b);
   CallCreateGraphicsPipeline (vertex_module b)
     (nth 0 (fragment_modules b) 0) (pipeline_layout b)
     (Some (nth 0 (pipelines b) 0));
   CallCreateGraphicsPipeline (vertex_module b)
     (nth 1 (fragment_modules b) 0) (pipeline_layout b)
     (Some (nth 1 (pipelines b) 0));
   CallCreateGraphicsPipeline (vertex_module b)
     (nth 2 (fragment_modules b) 0) (pipeline_layout b)
     (Some (nth 2 (pipelines b) 0))].

(** The members hold what was built. *)
Definition holds_built (b : Built) (m : Machine) : Prop :=
  present_vertex_shader m = vertex_module b
  /\ present_shaders m = fragment_modules b
  /\ present_samplers (renderer m) = samplers b
  /\ present_pipeline_layout m = pipeline_layout b
  /\ present_pipelines m = pipelines b
  /\ length (fragment_modules b) = PRESENT_PIPELINES
  /\ length (pipelines b) = PRESENT_PIPELINES.


(** The renderer untouched but for the two samplers. *)
Definition same_but_samplers (r r' : Renderer) : Prop :=
  guest r' = guest r /\ host r' = host r /\ values r' = values r
  /\ settings r' = settings r /\ screen_infos r' = screen_infos r
  /\ draw_info r' = draw_info r /\ current_pipeline r' = current_pipeline r
  /\ clear_color r' = clear_color r /\ vertex_offset r' = vertex_offset r
  /\ trace r' = trace r.

(** The machine but for the renderer, the built members and the calls. *)
Definition same_surroundings (m m' : Machine) : Prop :=
  platform m' = platform m /\ layout_option m' = layout_option m
  /\ android m' = android m /\ secondary_window m' = secondary_window m
  /\ main_window m' = main_window m /\ second_window m' = second_window m.

Lemma bind_ask {A B} (f : Machine -> A) (k : A -> Act B) m :
  act_bind (ask f) k m = k (f m) m.
Proof. reflexivity. Qed.

Lemma bind_moment {B} (k : nat -> Act B) m :
  act_bind moment k m = k (clock m) m.
Proof. reflexivity. Qed.

Lemma bind_change {B} (f : Machine -> Machine) (k : unit -> Act B) m :
  act_bind (change f) k m = k tt (f m).
Proof. reflexivity. Qed.

Lemma bind_call {B} (c : Call) (k : unit -> Act B) m :
  act_bind (call c) k m = k tt (record [c] m).
Proof. reflexivity. Qed.

Lemma bind_ret {A B} (a : A) (k : A -> Act B) m :
  act_bind (act_ret a) k m = k a m.
Proof. reflexivity. Qed.

Lemma bind_bind {A B C} (c : Act A) (k : A -> Act B) (k' : B -> Act C) m :
  act_bind (act_bind c k) k' m = act_bind c (fun a => act_bind (k a) k') m.
Proof. unfold act_bind. destruct (c m); reflexivity. Qed.

Lemma bind_assert_false {B} (k : unit -> Act B) m :
  act_bind (ACT_ASSERT false) k m = Died AssertionFailed m.
Proof. reflexivity. Qed.

Lemma bind_assert_true {B} (k : unit -> Act B) m :
  act_bind (ACT_ASSERT true) k m = k tt m.
Proof. reflexivity. Qed.

Ltac machine_simpl :=
  cbv beta;
  cbn [record with_renderer with_main_window with_second_window
       with_present_vertex_shader with_present_shaders
       with_present_pipelines with_present_pipeline_layout
       renderer platform layout_option android secondary_window main_window
       second_window present_vertex_shader present_shaders
       present_pipelines present_pipeline_layout calls clock
       app length Nat.add store nth Nat.eqb for_each seq act_when negb andb
       set_present_samplers present_samplers fst snd].

Ltac act_step :=
  first [ rewrite bind_bind
        | rewrite bind_ask
        | rewrite bind_moment
        | rewrite bind_change
        | rewrite bind_call
        | rewrite bind_ret ];
  machine_simpl.

Lemma build_run m m' :
  length (present_shaders m) = PRESENT_PIPELINES ->
  length (present_pipelines m) = PRESENT_PIPELINES ->
  (CompileShaders ;; BuildLayouts ;; BuildPipelines) m = Ok tt m' ->
  exists b,
    calls m' = calls m ++ build_calls b
    /\ holds_built b m'
    /\ same_but_samplers (renderer m) (renderer m')
    /\ same_surroundings m m'
    /\ clock m' = (10 + clock m)%nat.
Proof.
  intros Ls Lp.
  destruct m as [r p lo an sw mw sw2 vs shaders pls pl cs t]. cbn in Ls, Lp.
  destruct shaders as [|x0 [|x1 [|x2 [|x3 shaders]]]]; try discriminate Ls.
  destruct pls as [|y0 [|y1 [|y2 [|y3 pls]]]]; try discriminate Lp.
  destruct r as [g h v st scr di cp cc [sa sb] vo tr].
  unfold CompileShaders, BuildLayouts, BuildPipelines, PRESENT_PIPELINES,
    CompileSPV, createSampler.
  machine_simpl.
  repeat act_step.
  destruct (Platform.createGraphicsPipeline _ _ _ _ _) as [p0|];
    [|rewrite bind_assert_false; discriminate].
  repeat act_step.
  destruct (Platform.createGraphicsPipeline _ _ _ _ _) as [p1|];
    [|rewrite bind_assert_false; discriminate].
  repeat act_step.
  destruct (Platform.createGraphicsPipeline _ _ _ _ _) as [p2|];
    [|unfold ACT_ASSERT; discriminate].
  repeat act_step.
  unfold act_ret, change. intros E. injection E as <-.
  exists (mkBuilt (Platform.CompileSPV p t VULKAN_PRESENT_VERT_SPV)
            [Platform.CompileSPV p (1 + t) VULKAN_PRESENT_FRAG_SPV;
             Platform.CompileSPV p (2 + t) VULKAN_PRESENT_ANAGLYPH_FRAG_SPV;
             Platform.CompileSPV p (3 + t) VULKAN_PRESENT_INTERLACED_FRAG_SPV]
            (Platform.createSampler p (4 + t) eLinear,
             Platform.createSampler p (5 + t) eNearest)
            (Platform.createPipelineLayoutUnique p (6 + t))
            [p0; p1; p2]).
  unfold holds_built, same_but_samplers, same_surroundings, build_calls.
  cbn. rewrite <- !app_assoc. cbn.
  repeat split.
Qed.

(** *** The constructor *)

(** The members that hold what the constructor builds. *)
Definition built (m : Machine) : Built :=
  mkBuilt (present_vertex_shader m) (present_shaders m)
    (present_samplers (renderer m)) (present_pipeline_layout m)
    (present_pipelines m).

Definition made_second (m : Machine) : list Call :=
  if secondary_window m then [CallNewPresentWindow SecondWindow] else [].

Lemma holds_built_eq b m : holds_built b m -> b = built m.
Proof.
  intros (H1 & H2 & H3 & H4 & H5 & _). unfold built.
  rewrite H1, H2, H3, H4, H5. destruct b; reflexivity.
Qed.

Lemma construct_split m :
  construct m
  = act_bind (CompileShaders ;; BuildLayouts ;; BuildPipelines)
      (fun _ => has <- ask secondary_window ;; act_when has new_second_window)
      m.
Proof. unfold construct. rewrite !bind_bind. reflexivity. Qed.

Lemma new_second_window_run m :
  new_second_window m
  = Ok tt
      (with_second_window
         (Some (PresentWindow.mk SecondWindow
                  (Platform.first_frame (platform m) (clock m))))
         (record [CallNewPresentWindow SecondWindow] m)).
Proof. reflexivity. Qed.

Lemma construct_run m m' :
  length (present_shaders m) = PRESENT_PIPELINES ->
  length (present_pipelines m) = PRESENT_PIPELINES ->
  construct m = Ok tt m' ->
  calls m' = calls m ++ build_calls (built m') ++ made_second m
  /\ length (present_shaders m') = PRESENT_PIPELINES
  /\ length (present_pipelines m') = PRESENT_PIPELINES
  /\ same_but_samplers (renderer m) (renderer m')
  /\ platform m' = platform m /\ layout_option m' = layout_option m
  /\ android m' = android m /\ secondary_window m' = secondary_window m
  /\ main_window m' = main_window m
  /\ second_window m'
     = (if secondary_window m
        then Some (PresentWindow.mk SecondWindow
                     (Platform.first_frame (platform m) (10 + clock m)))
        else second_window m)
  /\ clock m' = (length (build_calls (built m') ++ made_second m)
                 + clock m)%nat.
Proof.
  intros Ls Lp. rewrite construct_split.
  destruct ((CompileShaders ;; BuildLayouts ;; BuildPipelines) m)
    as [[] m1|f m1] eqn:B;
    [rewrite (act_bind_ok _ _ _ _ _ B)
    |rewrite (act_bind_died _ _ _ _ _ B); discriminate].
  destruct (build_run m m1 Ls Lp B) as (b & C & H & S & X & T).
  pose proof (holds_built_eq _ _ H) as ->.
  destruct H as (_ & _ & _ & _ & _ & L1 & L2).
  destruct X as (X1 & X2 & X3 & X4 & X5 & X6).
  unfold made_second. rewrite <- X4, <- X1.
  rewrite bind_ask.
  destruct (secondary_window m1) eqn:W; cbn [act_when].
  - rewrite new_second_window_run. intros E. injection E as <-.
    change (built (with_second_window _ (record _ m1))) with (built m1).
    cbn [calls clock record with_second_window platform layout_option
         android secondary_window main_window second_window renderer
         present_shaders present_pipelines].
    rewrite C, T, <- app_assoc, length_app.
    repeat match goal with |- _ /\ _ => split end;
      try assumption; reflexivity.
  - unfold act_ret. intros E. injection E as <-.
    rewrite C, T, !app_nil_r.
    repeat match goal with |- _ /\ _ => split end;
      try assumption; reflexivity.
Qed.









(** A device that numbers what it makes by the moment of the call, and
    windows of the sample layout; the sample renderer in a machine with a
    secondary window, before construction. *)
Definition sample_platform : Platform.t :=
  Platform.mk
    (fun t _ => 3000 + Z.of_nat t)
    (fun t _ => 3100 + Z.of_nat t)
    (fun t => 3200 + Z.of_nat t)
    (fun t _ _ _ => Some (3300 + Z.of_nat t))
    (fun _ _ => Sample.layout)
    (fun _ => Frame.empty).

Definition sample_machine : Machine :=
  mkMachine Sample.renderer sample_platform SeparateWindows false true
    (PresentWindow.mk MainWindow Frame.empty) None
    0 [0; 0; 0] [0; 0; 0] 0 [] 0.





(** *** The destructor *)

Lemma lift_emit e m :
  lift (emit e) m
  = Ok tt
      (with_renderer
         (set_trace (trace (renderer m) ++ [e]) (renderer m))
         (record [CallRenderer e] m)).
Proof.
  assert (E : emit e (renderer m)
              = Done tt (set_trace (trace (renderer m) ++ [e]) (renderer m)))
    by (destruct (renderer m); reflexivity).
  assert (Em : emitted (emit e) (renderer m) = [e])
    by (apply emitted_of_trace; rewrite E; destruct (renderer m);
        reflexivity).
  unfold lift, joined. rewrite Em, E. reflexivity.
Qed.

Lemma bind_lift_emit {B} e (k : unit -> Act B) m :
  act_bind (lift (emit e)) k m
  = k tt (with_renderer
            (set_trace (trace (renderer m) ++ [e]) (renderer m))
            (record [CallRenderer e] m)).
Proof. unfold act_bind. rewrite lift_emit. reflexivity. Qed.

(** The image view and the image of a screen texture. *)
Definition view_of (i : Slot) (m : Machine) : Handle :=
  TextureInfo.image_view (texture_of i (renderer m)).

Definition image_of (i : Slot) (m : Machine) : Handle :=
  TextureInfo.image (texture_of i (renderer m)).

Definition allocation_of (i : Slot) (m : Machine) : Handle :=
  TextureInfo.allocation (texture_of i (renderer m)).

(** The calls of the destructor. *)
Definition release_calls (m : Machine) : list Call :=
  [CallDestroyShaderModule (present_vertex_shader m);
   CallDestroyPipeline (nth 0 (present_pipelines m) null_handle);
   CallDestroyShaderModule (nth 0 (present_shaders m) null_handle);
   CallDestroyPipeline (nth 1 (present_pipelines m) null_handle);
   CallDestroyShaderModule (nth 1 (present_shaders m) null_handle);
   CallDestroyPipeline (nth 2 (present_pipelines m) null_handle);
   CallDestroyShaderModule (nth 2 (present_shaders m) null_handle);
   CallDestroySampler (fst (present_samplers (renderer m)));
   CallDestroySampler (snd (present_samplers (renderer m)));
   CallRenderer (EvDestroyImageView (view_of Slot0 m));
   CallRenderer (EvDestroyImage (image_of Slot0 m) (allocation_of Slot0 m));
   CallRenderer (EvDestroyImageView (view_of Slot1 m));
   CallRenderer (EvDestroyImage (image_of Slot1 m) (allocation_of Slot1 m));
   CallRenderer (EvDestroyImageView (view_of Slot2 m));
   CallRenderer (EvDestroyImage (image_of Slot2 m) (allocation_of Slot2 m))].

Lemma destruct_renderer_run m :
  exists m',
    destruct_renderer m = Ok tt m'
    /\ calls m'
       = calls m ++ CallRenderer EvFinish :: CallWaitIdle :: release_calls m.
Proof.
  destruct m as [r p lo an sw mw sw2 vs shaders pls pl cs t].
  destruct r as [g h v st [s0 s1 s2] di cp cc [sa sb] vo tr].
  unfold destruct_renderer, PRESENT_PIPELINES.
  machine_simpl.
  repeat first [rewrite bind_lift_emit; machine_simpl | act_step].
  eexists. split; [reflexivity|].
  cbn. rewrite <- !app_assoc. reflexivity.
Qed.

(** *** From construction to destruction *)

(** What a call makes or destroys. *)
Definition module_made (c : Call) : option Handle :=
  match c with CallCompileSPV _ module => Some module | _ => None end.

Definition module_destroyed (c : Call) : option Handle :=
  match c with CallDestroyShaderModule module => Some module | _ => None end.

Definition pipeline_made (c : Call) : option Handle :=
  match c with
  | CallCreateGraphicsPipeline _ _ _ pipeline => pipeline
  | _ => None
  end.

Definition pipeline_destroyed (c : Call) : option Handle :=
  match c with CallDestroyPipeline pipeline => Some pipeline | _ => None end.

Definition sampler_made (c : Call) : option Handle :=
  match c with CallCreateSampler _ sampler => Some sampler | _ => None end.

Definition sampler_destroyed (c : Call) : option Handle :=
  match c with CallDestroySampler sampler => Some sampler | _ => None end.

Definition event_of (c : Call) : option Event :=
  match c with CallRenderer e => Some e | _ => None end.

(** The renderer's own events among the calls. *)
Definition events (cs : list Call) : list Event := pick event_of cs.

Lemma events_map es : events (map CallRenderer es) = es.
Proof.
  induction es as [|e es IH]; cbn; [reflexivity|].
  f_equal. exact IH.
Qed.

Lemma events_app cs cs' : events (cs ++ cs') = events cs ++ events cs'.
Proof. apply pick_app. Qed.

Lemma pick_renderer {B} (f : Call -> option B) es :
  (forall e, f (CallRenderer e) = None) ->
  pick f (map CallRenderer es) = [].
Proof.
  intros H. induction es as [|e es IH]; cbn; [reflexivity|].
  rewrite H. exact IH.
Qed.

(** The constructor, any number of preparations of the screen textures
    (the guest changing in between), the destructor. *)
Definition life (gs : list Guest.t) : Act unit :=
  construct ;; lift (PrepareRendertargets gs) ;; destruct_renderer.

Lemma calls_joined {A} (c : Cmd A) m :
  calls (joined c m) = calls m ++ map CallRenderer (emitted c (renderer m)).
Proof. reflexivity. Qed.

Lemma life_split gs m :
  life gs m
  = match construct m with
    | Ok _ m1 =>
        match PrepareRendertargets gs (renderer m1) with
        | Done _ _ => destruct_renderer (joined (PrepareRendertargets gs) m1)
        | Fatal f _ => Died f (joined (PrepareRendertargets gs) m1)
        end
    | Died f m1 => Died f m1
    end.
Proof.
  unfold life, act_bind at 1.
  destruct (construct m) as [[] m1|f m1]; [|reflexivity].
  unfold act_bind, lift, joined.
  destruct (PrepareRendertargets gs (renderer m1)); reflexivity.
Qed.

Lemma life_run gs m m' :
  length (present_shaders m) = PRESENT_PIPELINES ->
  length (present_pipelines m) = PRESENT_PIPELINES ->
  life gs m = Ok tt m' ->
  exists m1 r2,
    construct m = Ok tt m1
    /\ PrepareRendertargets gs (renderer m1) = Done tt r2
    /\ called (life gs) m
       = (build_calls (built m1) ++ made_second m
          ++ map CallRenderer (emitted (PrepareRendertargets gs)
                                 (renderer m1)))
         ++ CallRenderer EvFinish :: CallWaitIdle
            :: release_calls (joined (PrepareRendertargets gs) m1).
Proof.
  intros Ls Lp. unfold called. rewrite life_split.
  destruct (construct m) as [[] m1|f m1] eqn:C; [|discriminate].
  destruct (PrepareRendertargets gs (renderer m1)) as [[] r2|f r2] eqn:P;
    [|discriminate].
  destruct (destruct_renderer_run (joined (PrepareRendertargets gs) m1))
    as (m2 & D & K).
  rewrite D. intros E. injection E as <-. cbn [the_end].
  exists m1, r2. split; [reflexivity|]. split; [exact P|].
  destruct (construct_run m m1 Ls Lp C) as (K1 & _).
  rewrite K, calls_joined, K1.
  rewrite <- !app_assoc. apply skipn_length_app.
Qed.

Lemma held_release h m :
  destroyed h (events (release_calls m)) = held h (renderer m).
Proof.
  unfold release_calls, events, destroyed, held, holds, image_of, times.
  cbn [pick event_of module_destroyed destroyed_of filter length].
  rewrite !(Z.eqb_sym h).
  destruct (_ =? h); destruct (_ =? h); destruct (_ =? h); reflexivity.
Qed.

Lemma made_second_quiet m :
  pick module_made (made_second m) = []
  /\ pick pipeline_made (made_second m) = []
  /\ pick sampler_made (made_second m) = []
  /\ pick module_destroyed (made_second m) = []
  /\ pick pipeline_destroyed (made_second m) = []
  /\ pick sampler_destroyed (made_second m) = []
  /\ events (made_second m) = [].
Proof. unfold made_second. destruct (secondary_window m); repeat split. Qed.

(** X12.  Over a life of the renderer (the constructor, any number of
    preparations of the screen textures, the destructor) that runs to its
    end, the calls split at the destructor's [Finish] and [waitIdle].
    Before them no shader module, pipeline or sampler is destroyed; after
    them no shader module, pipeline, sampler or image is made.  The shader
    modules, the pipelines and the samplers destroyed after them are
    exactly the ones made before them, once each and in the order they were
    made; and every image but the null one is destroyed, before or after
    them, as often as it was allocated or held by a screen texture at the
    start. *)
Theorem renderer_life_releases_what_it_made
    (gs : list Guest.t) (m m' : Machine) :
  length (present_shaders m) = PRESENT_PIPELINES ->
  length (present_pipelines m) = PRESENT_PIPELINES ->
  life gs m = Ok tt m' ->
  exists before after,
    called (life gs) m
    = before ++ CallRenderer EvFinish :: CallWaitIdle :: after
    /\ pick module_destroyed after = pick module_made before
    /\ pick pipeline_destroyed after = pick pipeline_made before
    /\ pick sampler_destroyed after = pick sampler_made before
    /\ pick module_destroyed before = []
    /\ pick pipeline_destroyed before = []
    /\ pick sampler_destroyed before = []
    /\ pick module_made after = []
    /\ pick pipeline_made after = []
    /\ pick sampler_made after = []
    /\ pick created_of (events after) = []
    /\ forall h, h <> null_handle ->
         destroyed h (events before) + destroyed h (events after)
         = created h (events before) + held h (renderer m).
Proof.
  intros Ls Lp E.
  destruct (life_run gs m m' Ls Lp E) as (m1 & r2 & C & P & K).
  destruct (construct_run m m1 Ls Lp C)
    as (_ & L1 & L2 & S & _).
  eexists. eexists. split; [exact K|].
  set (c := PrepareRendertargets gs) in *.
  destruct (made_second_quiet m) as (Q1 & Q2 & Q3 & Q4 & Q5 & Q6 & Q7).
  assert (R : renderer (joined c m1) = r2)
    by (unfold joined; cbn [renderer with_renderer]; rewrite P; reflexivity).
  assert (Sa : present_samplers r2 = present_samplers (renderer m1))
    by exact (PrepareRendertargets_samplers gs _ _ P).
  assert (I : forall h, h <> null_handle ->
            destroyed h
              (events (build_calls (built m1) ++ made_second m
                       ++ map CallRenderer (emitted c (renderer m1))))
            + destroyed h (events (release_calls (joined c m1)))
            = created h
                (events (build_calls (built m1) ++ made_second m
                         ++ map CallRenderer (emitted c (renderer m1))))
              + held h (renderer m)).
  { intros h Hh. rewrite held_release, R.
    rewrite !events_app, Q7, events_map.
    replace (events (build_calls (built m1))) with (@nil Event)
      by reflexivity.
    cbn [app].
    pose proof (PrepareRendertargets_balance gs _ _ h Hh P) as B.
    fold c in B.
    destruct S as (_ & _ & _ & _ & S & _).
    unfold held, holds, texture_of, screen_info in *. rewrite S in B. lia. }
  assert (N : pick created_of (events (release_calls (joined c m1))) = [])
    by reflexivity.
  revert N I. generalize (events (release_calls (joined c m1))).
  generalize (events (build_calls (built m1) ++ made_second m
                      ++ map CallRenderer (emitted c (renderer m1)))).
  intros evs_before evs_after N I.
  rewrite !pick_app, Q1, Q2, Q3, Q4, Q5, Q6.
  rewrite !pick_renderer by reflexivity.
  unfold release_calls. rewrite R, Sa.
  cbn [present_vertex_shader present_shaders present_pipelines joined
       with_renderer record].
  destruct m1 as [r p lo an sw mw sw2 vs shaders pls pl cs t].
  cbn [present_shaders present_pipelines] in L1, L2.
  destruct shaders as [|x0 [|x1 [|x2 [|x3 shaders]]]]; try discriminate L1.
  destruct pls as [|y0 [|y1 [|y2 [|y3 pls]]]]; try discriminate L2.
  repeat (split; [reflexivity|]).
  split; [exact N|exact I].
Qed.

(** *** One frame *)

(** Whether [SwapBuffers] serves a second window. *)
Definition separate (m : Machine) : bool :=
  negb (android m)
  && match layout_option m with SeparateWindows => true | _ => false end.

(** The steps of [SwapBuffers] run from [m]: the layouts the windows
    answer, the renderer after each step, the window handed to the second
    [RenderToWindow], and the calls. *)
Definition main_layout (m : Machine) : FramebufferLayout.t :=
  Platform.GetFramebufferLayout (platform m) (clock m) MainWindow.

Definition after_prepare (m : Machine) : Renderer :=
  final (PrepareRendertarget (renderer m)).

Definition after_screenshot (m : Machine) : Renderer :=
  final (RenderScreenshot (after_prepare m)).

Definition main_pass (m : Machine) : Cmd PresentWindow.t :=
  RenderToWindow (main_window m) (main_layout m) false.

Definition after_main (m : Machine) : Renderer :=
  final (main_pass m (after_screenshot m)).

Definition prepare_calls (m : Machine) : list Call :=
  CallGetFramebufferLayout MainWindow
  :: map CallRenderer (emitted PrepareRendertarget (renderer m)).

Definition screenshot_calls (m : Machine) : list Call :=
  map CallRenderer (emitted RenderScreenshot (after_prepare m)).

Definition main_calls (m : Machine) : list Call :=
  map CallRenderer (emitted (main_pass m) (after_screenshot m)).

Definition second_moment (m : Machine) : nat :=
  (length (main_calls m)
   + (length (screenshot_calls m)
      + (length (map CallRenderer
                   (emitted PrepareRendertarget (renderer m)))
         + S (clock m))))%nat.

Definition second_layout (m : Machine) : FramebufferLayout.t :=
  Platform.GetFramebufferLayout (platform m) (second_moment m) SecondWindow.

Definition second_before (m : Machine) : PresentWindow.t :=
  match second_window m with
  | Some window => window
  | None =>
      PresentWindow.mk SecondWindow
        (Platform.first_frame (platform m) (S (second_moment m)))
  end.

Definition second_pass (m : Machine) : Cmd PresentWindow.t :=
  RenderToWindow (second_before m) (second_layout m) false.

Definition after_second (m : Machine) : Renderer :=
  final (second_pass m (after_main m)).

Definition second_calls (m : Machine) : list Call :=
  CallGetFramebufferLayout SecondWindow
  :: (match second_window m with
      | None => [CallNewPresentWindow SecondWindow]
      | Some _ => []
      end)
  ++ map CallRenderer (emitted (second_pass m) (after_main m))
  ++ [CallPollEvents].

Definition frame_calls (m : Machine) : list Call :=
  prepare_calls m ++ screenshot_calls m ++ main_calls m
  ++ (if separate m then second_calls m else [])
  ++ [CallTickFrame; CallEndFrame].

Lemma bind_lift {A B} (c : Cmd A) (k : A -> Act B) m :
  act_bind (lift c) k m
  = match c (renderer m) with
    | Done a _ => k a (joined c m)
    | Fatal f _ => Died f (joined c m)
    end.
Proof.
  unfold act_bind, lift, joined. destruct (c (renderer m)); reflexivity.
Qed.

(** The frame stops: in the preparation, in the screenshot, or on the
    assertion that there is a secondary window. *)
Definition frame_returns (m : Machine) : bool :=
  completes (PrepareRendertarget (renderer m))
  && completes (RenderScreenshot (after_prepare m))
  && (negb (separate m) || secondary_window m).

Lemma RenderToWindow_done window layout flipped r :
  RenderToWindow window layout flipped r
  = Done (PresentWindow.mk (PresentWindow.id window)
            (window_frame window layout r))
         (final (RenderToWindow window layout flipped r)).
Proof.
  destruct (RenderToWindow_pass window layout flipped r)
    as (r' & middle & E & _).
  rewrite E. reflexivity.
Qed.

Ltac frame_simpl :=
  cbv beta;
  cbn [joined record with_renderer with_main_window with_second_window
       renderer platform layout_option android secondary_window main_window
       second_window present_vertex_shader present_shaders
       present_pipelines present_pipeline_layout calls clock
       act_when final completes returns].

Ltac frame_step :=
  frame_simpl;
  repeat match goal with
         | H : ?c = Done _ _ |- context [?c] => rewrite H; frame_simpl
         | H : ?c = Fatal _ _ |- context [?c] => rewrite H; frame_simpl
         end.

Ltac frame_act :=
  first [ rewrite bind_bind
        | rewrite bind_ask
        | rewrite bind_moment
        | rewrite bind_change
        | rewrite bind_call
        | rewrite bind_ret ];
  frame_step.

Lemma SwapBuffers_run m :
  returns (SwapBuffers m) = frame_returns m
  /\ match SwapBuffers m with
     | Ok _ m' =>
         calls m' = calls m ++ frame_calls m
         /\ renderer m'
            = (if separate m then after_second m else after_main m)
         /\ main_window m'
            = PresentWindow.mk (PresentWindow.id (main_window m))
                (window_frame (main_window m) (main_layout m)
                   (after_screenshot m))
         /\ second_window m'
            = (if separate m
               then Some (PresentWindow.mk
                            (PresentWindow.id (second_before m))
                            (window_frame (second_before m)
                               (second_layout m) (after_main m)))
               else second_window m)
         /\ platform m' = platform m
         /\ layout_option m' = layout_option m
         /\ android m' = android m
         /\ secondary_window m' = secondary_window m
         /\ clock m' = (length (frame_calls m) + clock m)%nat
     | Died f m' =>
         calls m'
         = calls m ++ prepare_calls m
           ++ (if completes (PrepareRendertarget (renderer m))
               then screenshot_calls m
                    ++ (if completes (RenderScreenshot (after_prepare m))
                        then main_calls m else [])
               else [])
     end.
Proof.
  unfold frame_returns, frame_calls, second_calls, after_second,
    second_pass, second_before, second_layout, second_moment, main_calls,
    screenshot_calls, prepare_calls, after_main, main_pass,
    after_screenshot, after_prepare, main_layout, separate.
  unfold SwapBuffers, GetFramebufferLayout.
  repeat frame_act.
  rewrite bind_lift. frame_step.
  destruct (PrepareRendertarget (renderer m)) as [[] r1|f r1] eqn:E1;
    frame_step.
  2:{ split; [reflexivity|].
      rewrite app_nil_r, <- app_assoc. reflexivity. }
  rewrite bind_lift. frame_step.
  destruct (RenderScreenshot r1) as [[] r2|f r2] eqn:E2; frame_step.
  2:{ split; [reflexivity|].
      rewrite app_nil_r, <- !app_assoc. reflexivity. }
  repeat frame_act.
  rewrite bind_lift. frame_step.
  rewrite (RenderToWindow_done (main_window m)).
  frame_step.
  repeat frame_act.
  destruct (android m) eqn:An; cbn [negb andb act_when].
  { repeat frame_act. unfold call, change. frame_step.
    split; [reflexivity|].
    repeat match goal with |- _ /\ _ => split end;
      try reflexivity; try assumption.
    - cbn [app]. rewrite <- !app_assoc. reflexivity.
    - cbn [app length]. rewrite !length_app. cbn [length]. lia. }
  destruct (layout_option m) eqn:Lo; cbn [negb andb act_when].
  2:{ repeat frame_act. unfold call, change. frame_step.
      split; [reflexivity|].
      repeat match goal with |- _ /\ _ => split end;
        try reflexivity; try assumption.
      - cbn [app]. rewrite <- !app_assoc. reflexivity.
      - cbn [app length]. rewrite !length_app. cbn [length]. lia. }
  repeat frame_act.
  destruct (secondary_window m) eqn:W.
  2:{ rewrite bind_assert_false. frame_step.
      split; [reflexivity|].
      cbn [app]. rewrite <- !app_assoc. reflexivity. }
  rewrite bind_assert_true.
  repeat frame_act.
  cbn [length Nat.add].
  destruct (second_window m) as [window|] eqn:Sw; cbn [act_when].
  - repeat frame_act. rewrite ?Sw.
    rewrite ?bind_bind, bind_lift. frame_step.
    rewrite (RenderToWindow_done window). frame_step.
    repeat frame_act. unfold call, change. frame_step.
    split; [reflexivity|].
    repeat match goal with |- _ /\ _ => split end;
      try reflexivity; try assumption.
    + cbn [app]. rewrite <- !app_assoc. reflexivity.
    + cbn [app length]. rewrite !length_app. cbn [length].
      rewrite !length_app. cbn [length]. lia.
  - unfold new_second_window. repeat frame_act.
    cbn [length Nat.add].
    rewrite bind_lift. frame_step.
    rewrite (RenderToWindow_done (PresentWindow.mk SecondWindow _)).
    frame_step.
    repeat frame_act. unfold call, change. frame_step.
    split; [reflexivity|].
    repeat match goal with |- _ /\ _ => split end;
      try reflexivity; try assumption.
    + cbn [app]. rewrite <- !app_assoc. reflexivity.
    + cbn [app length]. rewrite !length_app. cbn [length].
      rewrite !length_app. cbn [length]. lia.
Qed.

(** The calls that are not the renderer's own events. *)
Definition outside (cs : list Call) : list Call :=
  filter (fun c => match c with CallRenderer _ => false | _ => true end) cs.

Lemma outside_map es : outside (map CallRenderer es) = [].
Proof. induction es as [|e es IH]; [reflexivity|exact IH]. Qed.

Lemma outside_app cs cs' : outside (cs ++ cs') = outside cs ++ outside cs'.
Proof. apply filter_app. Qed.

(** The events of the steps of a frame. *)
Lemma prepare_step r :
  forallb prepare_event (emitted PrepareRendertarget r) = true
  /\ prepared r (final (PrepareRendertarget r)).
Proof.
  destruct (PrepareRendertarget_kind r) as (es & T & K & P).
  rewrite (emitted_of_trace _ _ _ T). split; assumption.
Qed.

Lemma screenshot_step r :
  let requested := RendererSettings.screenshot_requested (settings r) in
  presents (emitted RenderScreenshot r) = []
  /\ (completes (RenderScreenshot r) = true ->
      passes (emitted RenderScreenshot r)
      = (if requested then [(frame_clear r, frame_pipeline r)] else [])
      /\ callbacks (emitted RenderScreenshot r)
         = (if requested then [false] else [])
      /\ shot r (final (RenderScreenshot r))).
Proof.
  cbv zeta. destruct (RenderScreenshot_step r) as (es & T & P & _ & K).
  rewrite (emitted_of_trace _ _ _ T). split; [exact P|].
  intros C. rewrite C in K. exact K.
Qed.

Lemma window_step window layout flipped r :
  presents (emitted (RenderToWindow window layout flipped) r)
  = [(PresentWindow.id window, window_frame window layout r)]
  /\ passes (emitted (RenderToWindow window layout flipped) r)
     = [(frame_clear r, frame_pipeline r)]
  /\ callbacks (emitted (RenderToWindow window layout flipped) r) = []
  /\ drawn r (final (RenderToWindow window layout flipped r)).
Proof.
  destruct (RenderToWindow_pass window layout flipped r)
    as (r' & middle & E & T & D & K).
  rewrite (emitted_of_trace (RenderToWindow window layout flipped) r
             (window_events window layout r middle))
    by (rewrite E; exact T).
  rewrite E. cbn [final].
  split; [exact (window_events_presents _ _ _ _ D)|].
  split; [exact (window_events_passes _ _ _ _ D)|].
  split; [exact (window_events_callbacks _ _ _ _ D)|exact K].
Qed.

Lemma events_frame_calls m :
  events (frame_calls m)
  = emitted PrepareRendertarget (renderer m)
    ++ emitted RenderScreenshot (after_prepare m)
    ++ emitted (main_pass m) (after_screenshot m)
    ++ (if separate m then emitted (second_pass m) (after_main m) else []).
Proof.
  unfold frame_calls, prepare_calls, screenshot_calls, main_calls,
    second_calls.
  change (CallGetFramebufferLayout MainWindow :: ?l)
    with ([CallGetFramebufferLayout MainWindow] ++ l).
  rewrite !events_app, !events_map.
  destruct (separate m).
  - change (CallGetFramebufferLayout SecondWindow :: ?l)
      with ([CallGetFramebufferLayout SecondWindow] ++ l).
    rewrite !events_app, !events_map.
    destruct (second_window m); cbn; rewrite !app_nil_r; reflexivity.
  - reflexivity.
Qed.

Lemma outside_frame_calls m :
  outside (frame_calls m)
  = CallGetFramebufferLayout MainWindow
    :: (if separate m
        then CallGetFramebufferLayout SecondWindow
             :: (match second_window m with
                 | None => [CallNewPresentWindow SecondWindow]
                 | Some _ => []
                 end) ++ [CallPollEvents]
        else [])
    ++ [CallTickFrame; CallEndFrame].
Proof.
  unfold frame_calls, prepare_calls, screenshot_calls, main_calls,
    second_calls.
  change (CallGetFramebufferLayout MainWindow :: ?l)
    with ([CallGetFramebufferLayout MainWindow] ++ l).
  rewrite !outside_app, !outside_map.
  destruct (separate m).
  - change (CallGetFramebufferLayout SecondWindow :: ?l)
      with ([CallGetFramebufferLayout SecondWindow] ++ l).
    rewrite !outside_app, !outside_map.
    destruct (second_window m); reflexivity.
  - reflexivity.
Qed.

Lemma SwapBuffers_returned m m' :
  SwapBuffers m = Ok tt m' ->
  called SwapBuffers m = frame_calls m
  /\ completes (PrepareRendertarget (renderer m)) = true
  /\ completes (RenderScreenshot (after_prepare m)) = true
  /\ renderer m' = (if separate m then after_second m else after_main m)
  /\ main_window m'
     = PresentWindow.mk (PresentWindow.id (main_window m))
         (window_frame (main_window m) (main_layout m) (after_screenshot m))
  /\ second_window m'
     = (if separate m
        then Some (PresentWindow.mk (PresentWindow.id (second_before m))
                     (window_frame (second_before m) (second_layout m)
                        (after_main m)))
        else second_window m)
  /\ platform m' = platform m
  /\ layout_option m' = layout_option m
  /\ android m' = android m
  /\ secondary_window m' = secondary_window m
  /\ clock m' = (length (frame_calls m) + clock m)%nat.
Proof.
  intros E. destruct (SwapBuffers_run m) as (R & K).
  unfold called. rewrite E in R, K |- *. cbn [the_end returns] in *.
  destruct K as (K1 & K2 & K3 & K4 & K5 & K6 & K7 & K8 & K9).
  split; [rewrite K1; apply skipn_length_app|].
  unfold frame_returns in R. symmetry in R.
  apply andb_true_iff in R as [R R3].
  apply andb_true_iff in R as [R1 R2].
  repeat match goal with |- _ /\ _ => split end; assumption.
Qed.

Lemma prepared_frame r r' :
  prepared r r' ->
  frame_clear r' = frame_clear r /\ frame_pipeline r' = frame_pipeline r
  /\ RendererSettings.screenshot_requested (settings r')
     = RendererSettings.screenshot_requested (settings r).
Proof.
  intros (_ & _ & V & S & _ & P & C & _).
  unfold frame_clear, frame_pipeline, update_clear_color.
  rewrite S, V, P, C.
  destruct r as [g h v st scr di cp [[[c1 c2] c3] c4] ps vo tr].
  destruct r' as [g' h' v' st' scr' di' cp' [[[d1 d2] d3] d4] ps' vo' tr'].
  cbn in *. injection C as -> -> -> ->. repeat split.
Qed.

Lemma drawn_request r r' :
  drawn r r' ->
  RendererSettings.screenshot_requested (settings r')
  = RendererSettings.screenshot_requested (settings r)
  /\ RendererSettings.bg_color_update_requested (settings r') = false
  /\ RendererSettings.shader_update_requested (settings r') = false.
Proof.
  intros (_ & _ & _ & _ & _ & _ & _ & S). rewrite S.
  destruct (settings r); repeat split.
Qed.

(** X13.  A call of [SwapBuffers] that returns presents the main window
    exactly once and, when the layout option is SeparateWindows (and the
    build is not for Android), the second window exactly once after it, and
    nothing else; each frame presented has the width and height of the
    layout its window answered in this call, and is the frame the window
    keeps.  Outside the renderer's own events the calls are the main
    window's [GetFramebufferLayout], then for separate windows the
    secondary window's [GetFramebufferLayout], the creation of the second
    present window if there was none yet, and [PollEvents], and last
    [TickFrame] and [EndFrame].  The screenshot callback is made once if a
    screenshot was requested and not otherwise, and no request is pending
    afterwards.  The call returned, so [PrepareRendertarget] and
    [RenderScreenshot] returned and, for separate windows, there is a
    secondary window. *)
Theorem SwapBuffers_presents_each_window_once (m m' : Machine) :
  SwapBuffers m = Ok tt m' ->
  let cs := called SwapBuffers m in
  let main_frame :=
    window_frame (main_window m) (main_layout m) (after_screenshot m) in
  let second_frame :=
    window_frame (second_before m) (second_layout m) (after_main m) in
  presents (events cs)
  = (PresentWindow.id (main_window m), main_frame)
    :: (if separate m
        then [(PresentWindow.id (second_before m), second_frame)] else [])
  /\ Frame.width main_frame = FramebufferLayout.width (main_layout m)
  /\ Frame.height main_frame = FramebufferLayout.height (main_layout m)
  /\ Frame.width second_frame = FramebufferLayout.width (second_layout m)
  /\ Frame.height second_frame = FramebufferLayout.height (second_layout m)
  /\ main_window m'
     = PresentWindow.mk (PresentWindow.id (main_window m)) main_frame
  /\ second_window m'
     = (if separate m
        then Some (PresentWindow.mk (PresentWindow.id (second_before m))
                     second_frame)
        else second_window m)
  /\ outside cs
     = CallGetFramebufferLayout MainWindow
       :: (if separate m
           then CallGetFramebufferLayout SecondWindow
                :: (match second_window m with
                    | None => [CallNewPresentWindow SecondWindow]
                    | Some _ => []
                    end) ++ [CallPollEvents]
           else [])
       ++ [CallTickFrame; CallEndFrame]
  /\ callbacks (events cs)
     = (if RendererSettings.screenshot_requested (settings (renderer m))
        then [false] else [])
  /\ RendererSettings.screenshot_requested (settings (renderer m')) = false
  /\ completes (PrepareRendertarget (renderer m)) = true
  /\ completes (RenderScreenshot (after_prepare m)) = true
  /\ negb (separate m) || secondary_window m = true.
Proof.
  intros E. cbv zeta.
  destruct (SwapBuffers_returned m m' E)
    as (C & C1 & C2 & R & Mw & Sw & _).
  assert (C3 : negb (separate m) || secondary_window m = true).
  { destruct (SwapBuffers_run m) as (Rt & _). rewrite E in Rt.
    cbn [returns] in Rt. unfold frame_returns in Rt. symmetry in Rt.
    apply andb_true_iff in Rt as [_ Rt]. exact Rt. }
  rewrite C, events_frame_calls, outside_frame_calls.
  destruct (prepare_step (renderer m)) as (K1 & P1).
  fold (after_prepare m) in P1.
  destruct (prepared_frame _ _ P1) as (_ & _ & Q1).
  destruct (screenshot_step (after_prepare m)) as (P2 & K2).
  destruct (K2 C2) as (_ & B2 & S2). fold (after_screenshot m) in S2.
  destruct (window_step (main_window m) (main_layout m) false
              (after_screenshot m)) as (P3 & _ & B3 & D3).
  fold (main_pass m) in P3, B3, D3. fold (after_main m) in D3.
  destruct (window_step (second_before m) (second_layout m) false
              (after_main m)) as (P4 & _ & B4 & D4).
  fold (second_pass m) in P4, B4, D4. fold (after_second m) in D4.
  destruct (window_frame_size (main_window m) (main_layout m)
              (after_screenshot m)) as (W3 & H3).
  destruct (window_frame_size (second_before m) (second_layout m)
              (after_main m)) as (W4 & H4).
  split.
  { unfold presents. rewrite !pick_app.
    fold (presents (emitted PrepareRendertarget (renderer m))).
    fold (presents (emitted RenderScreenshot (after_prepare m))).
    fold (presents (emitted (main_pass m) (after_screenshot m))).
    rewrite (prepare_presents _ K1), P2, P3.
    destruct (separate m); [|reflexivity].
    fold (presents (emitted (second_pass m) (after_main m))).
    rewrite P4. reflexivity. }
  repeat (split; [assumption|]).
  split; [reflexivity|].
  split.
  { unfold callbacks. rewrite !pick_app.
    fold (callbacks (emitted PrepareRendertarget (renderer m))).
    fold (callbacks (emitted RenderScreenshot (after_prepare m))).
    fold (callbacks (emitted (main_pass m) (after_screenshot m))).
    rewrite (prepare_callbacks _ K1), B2, B3, Q1.
    destruct (separate m).
    - fold (callbacks (emitted (second_pass m) (after_main m))).
      rewrite B4, !app_nil_r. reflexivity.
    - rewrite !app_nil_r. reflexivity. }
  split; [|repeat split; assumption].
  rewrite R.
  destruct S2 as (_ & _ & _ & _ & _ & _ & _ & S2).
  destruct (drawn_request _ _ D3) as (X3 & _).
  destruct (drawn_request _ _ D4) as (X4 & _).
  destruct (separate m); congruence.
Qed.

(** X14.  When [SwapBuffers] does not return, [PrepareRendertarget] or
    [RenderScreenshot] did not return or, for separate windows, there is no
    secondary window; the frame is then not ticked or ended: outside the
    renderer's own events the only call made is the main window's
    [GetFramebufferLayout], no second window is made, polled or presented,
    and the main window is presented (once) only if the frame stopped on
    the missing secondary window; a frame stopped in the preparation or in
    the screenshot presents nothing. *)
Theorem SwapBuffers_stops_before_tick (m : Machine) :
  returns (SwapBuffers m) = false ->
  let cs := called SwapBuffers m in
  let prepares := completes (PrepareRendertarget (renderer m)) in
  let captures := completes (RenderScreenshot (after_prepare m)) in
  prepares && captures && (negb (separate m) || secondary_window m) = false
  /\ outside cs = [CallGetFramebufferLayout MainWindow]
  /\ presents (events cs)
     = (if prepares && captures
        then [(PresentWindow.id (main_window m),
               window_frame (main_window m) (main_layout m)
                 (after_screenshot m))]
        else []).
Proof.
  intros Stop. cbv zeta. destruct (SwapBuffers_run m) as (R & K).
  split; [rewrite <- Stop, R; reflexivity|].
  unfold called.
  destruct (SwapBuffers m) as [[] m'|f m']; [discriminate Stop|].
  cbn [the_end]. rewrite K, skipn_length_app.
  destruct (prepare_step (renderer m)) as (K1 & _).
  destruct (screenshot_step (after_prepare m)) as (P2 & _).
  destruct (window_step (main_window m) (main_layout m) false
              (after_screenshot m)) as (P3 & _).
  fold (main_pass m) in P3.
  unfold prepare_calls, screenshot_calls, main_calls.
  change (CallGetFramebufferLayout MainWindow :: ?l)
    with ([CallGetFramebufferLayout MainWindow] ++ l).
  destruct (completes (PrepareRendertarget (renderer m)));
    [destruct (completes (RenderScreenshot (after_prepare m)))|];
    rewrite ?outside_app, ?outside_map, ?events_app, ?events_map;
    (split; [reflexivity|]);
    unfold presents; rewrite ?pick_app;
    fold (presents (emitted PrepareRendertarget (renderer m)));
    fold (presents (emitted RenderScreenshot (after_prepare m)));
    fold (presents (emitted (main_pass m) (after_screenshot m)));
    rewrite ?(prepare_presents _ K1), ?P2, ?P3; reflexivity.
Qed.

(** X15.  In a call of [SwapBuffers] that returns, every present pass (the
    one of the screenshot, if one was requested, the one of the main
    window, the one of the second window for separate windows) is begun
    with the same clear colour and the same pipeline: the ones in force on
    entry, or the background colour of the settings and the pipeline of the
    stereo setting when the respective update was requested on entry.  They
    are in force afterwards, and no update request is pending. *)
Theorem SwapBuffers_passes_share_state (m m' : Machine) :
  SwapBuffers m = Ok tt m' ->
  let r := renderer m in
  let requested := RendererSettings.screenshot_requested (settings r) in
  passes (events (called SwapBuffers m))
  = repeat (frame_clear r, frame_pipeline r)
      ((if requested then 1 else 0) + 1 + (if separate m then 1 else 0))
  /\ clear_color (renderer m') = frame_clear r
  /\ current_pipeline (renderer m') = frame_pipeline r
  /\ RendererSettings.bg_color_update_requested (settings (renderer m'))
     = false
  /\ RendererSettings.shader_update_requested (settings (renderer m'))
     = false.
Proof.
  intros E. cbv zeta.
  destruct (SwapBuffers_returned m m' E) as (C & C1 & C2 & R & _).
  rewrite C, events_frame_calls.
  destruct (prepare_step (renderer m)) as (K1 & P1).
  fold (after_prepare m) in P1.
  destruct (prepared_frame _ _ P1) as (FC1 & FP1 & Q1).
  destruct (screenshot_step (after_prepare m)) as (_ & K2).
  destruct (K2 C2) as (A2 & _ & S2). fold (after_screenshot m) in S2.
  destruct S2 as (_ & _ & _ & _ & _ & FC2 & FP2 & _).
  destruct (window_step (main_window m) (main_layout m) false
              (after_screenshot m)) as (_ & A3 & _ & D3).
  fold (main_pass m) in A3, D3. fold (after_main m) in D3.
  destruct (window_step (second_before m) (second_layout m) false
              (after_main m)) as (_ & A4 & _ & D4).
  fold (second_pass m) in A4, D4. fold (after_second m) in D4.
  destruct (drawn_frame _ _ D3) as (FC3 & FP3).
  destruct (drawn_request _ _ D3) as (_ & B3 & H3).
  destruct (drawn_request _ _ D4) as (_ & B4 & H4).
  rewrite FC2, FP2, FC1, FP1 in A3.
  rewrite FC3, FP3, FC2, FP2, FC1, FP1 in A4.
  rewrite FC1, FP1, Q1 in A2.
  split.
  { unfold passes. rewrite !pick_app.
    fold (passes (emitted PrepareRendertarget (renderer m))).
    fold (passes (emitted RenderScreenshot (after_prepare m))).
    fold (passes (emitted (main_pass m) (after_screenshot m))).
    rewrite (prepare_passes _ K1), A2, A3.
    destruct (separate m).
    - fold (passes (emitted (second_pass m) (after_main m))).
      rewrite A4.
      destruct (RendererSettings.screenshot_requested
                  (settings (renderer m))); reflexivity.
    - destruct (RendererSettings.screenshot_requested
                  (settings (renderer m))); reflexivity. }
  rewrite R.
  destruct D3 as (_ & _ & _ & _ & _ & X3 & Y3 & _).
  destruct D4 as (_ & _ & _ & _ & _ & X4 & Y4 & _).
  destruct (separate m); repeat split; congruence.
Qed.





(** *** The sample machine at work *)

(** Two frames of the sample guest between construction and destruction:
    all that was made is destroyed after the drain. *)
Lemma renderer_life_releases_what_it_made_witness :
  let gs := [Sample.guest; wide_guest] in
  length (present_shaders sample_machine) = PRESENT_PIPELINES
  /\ length (present_pipelines sample_machine) = PRESENT_PIPELINES
  /\ life gs sample_machine = Ok tt (the_end (life gs sample_machine))
  /\ exists before after,
       called (life gs) sample_machine
       = before ++ CallRenderer EvFinish :: CallWaitIdle :: after
       /\ pick module_destroyed after = pick module_made before
       /\ pick pipeline_destroyed after = pick pipeline_made before
       /\ pick sampler_destroyed after = pick sampler_made before.
Proof.
  cbv zeta.
  assert (E : life [Sample.guest; wide_guest] sample_machine
              = Ok tt (the_end (life [Sample.guest; wide_guest]
                                  sample_machine)))
    by (vm_compute; reflexivity).
  split; [reflexivity|]. split; [reflexivity|]. split; [exact E|].
  destruct (renderer_life_releases_what_it_made
              [Sample.guest; wide_guest] sample_machine _
              eq_refl eq_refl E)
    as (before & after & H1 & H2 & H3 & H4 & _).
  exists before, after. repeat split; assumption.
Defined.

(** The sample machine has separate windows and no second present window
    yet: a frame presents the main window, makes the second one and
    presents it. *)
Lemma SwapBuffers_presents_each_window_once_witness :
  SwapBuffers sample_machine = Ok tt (the_end (SwapBuffers sample_machine))
  /\ map fst (presents (events (called SwapBuffers sample_machine)))
     = [MainWindow; SecondWindow]
  /\ outside (called SwapBuffers sample_machine)
     = [CallGetFramebufferLayout MainWindow;
        CallGetFramebufferLayout SecondWindow;
        CallNewPresentWindow SecondWindow;
        CallPollEvents; CallTickFrame; CallEndFrame].
Proof.
  assert (E : SwapBuffers sample_machine
              = Ok tt (the_end (SwapBuffers sample_machine)))
    by (vm_compute; reflexivity).
  split; [exact E|].
  destruct (SwapBuffers_presents_each_window_once sample_machine _ E)
    as (H1 & _ & _ & _ & _ & _ & _ & H2 & _).
  split; [rewrite H1; reflexivity|rewrite H2; reflexivity].
Defined.

(** The sample machine asked for new background colour and shader: both
    passes of the frame use the new ones. *)
Definition updating_machine : Machine :=
  with_renderer
    (set_settings
       (RendererSettings.mk true true false Sample.layout 4096)
       Sample.renderer)
    sample_machine.

Lemma SwapBuffers_passes_share_state_witness :
  let r := renderer updating_machine in
  SwapBuffers updating_machine
  = Ok tt (the_end (SwapBuffers updating_machine))
  /\ passes (events (called SwapBuffers updating_machine))
     = [(frame_clear r, frame_pipeline r); (frame_clear r, frame_pipeline r)]
  /\ RendererSettings.bg_color_update_requested
       (settings (renderer (the_end (SwapBuffers updating_machine))))
     = false.
Proof.
  cbv zeta.
  assert (E : SwapBuffers updating_machine
              = Ok tt (the_end (SwapBuffers updating_machine)))
    by (vm_compute; reflexivity).
  split; [exact E|].
  destruct (SwapBuffers_passes_share_state updating_machine _ E)
    as (H1 & _ & _ & H2 & _).
  split; [rewrite H1; reflexivity|exact H2].
Defined.


(** Separate windows and no secondary window: the frame stops on the
    assertion, after the main window was presented. *)
Definition lone_machine : Machine :=
  mkMachine Sample.renderer sample_platform SeparateWindows false false
    (PresentWindow.mk MainWindow Frame.empty) None
    0 [0; 0; 0] [0; 0; 0] 0 [] 0.

Lemma SwapBuffers_stops_before_tick_witness :
  returns (SwapBuffers lone_machine) = false
  /\ outside (called SwapBuffers lone_machine)
     = [CallGetFramebufferLayout MainWindow]
  /\ map fst (presents (events (called SwapBuffers lone_machine)))
     = [MainWindow].
Proof.
  assert (Stop : returns (SwapBuffers lone_machine) = false)
    by (vm_compute; reflexivity).
  assert (P : completes (PrepareRendertarget (renderer lone_machine))
              && completes (RenderScreenshot (after_prepare lone_machine))
              = true) by (vm_compute; reflexivity).
  split; [exact Stop|].
  destruct (SwapBuffers_stops_before_tick lone_machine Stop)
    as (_ & H1 & H2).
  split; [exact H1|]. rewrite H2, P. reflexivity.
Defined.
